(** * dpd-utils: a shallow embedding of the data-wrangling utilities

    The Python sources embedded here are
    - [dpdutils/bata.py]                 (module [Bata]),
    - [dpdutils/inrix/roadway/api.py]    (module [InrixApi]),
    - [dpdutils/inrix/roadway/datapro.py] (module [InrixDatapro]),
    - [dpdutils/swiftly/api.py]          (module [SwiftlyApi]),
    - [dpdutils/swiftly/datapro.py]      (module [SwiftlyDatapro]).

    Part I holds the embedding, Parts II and III the properties.

    Conventions.  pandas is pandas 1.x, the pandas of the code's time.
    A pandas DataFrame is a list of row records; a column of
    floating-point numbers is a column of rationals, with [None] for a
    missing cell (NaN).  A Python exception is a constructor of [exn] and a
    call that may raise returns a [result].  HTTP, the clock and the file
    system are explicit arguments: a scripted server, a list of latencies,
    an archive value. *)

From Stdlib Require Import ZArith QArith List String Ascii Lia Lqa Permutation.
From stdpp Require Import base option list strings pretty gmap.

Open Scope string_scope.
Open Scope list_scope.
Open Scope Z_scope.

(* ===================================================================== *)
(** * Part I: the embedding                                              *)
(* ===================================================================== *)

(** ** Python results and exceptions *)

Module Py.

Inductive exn :=
| ValueError (msg : string)
| KeyError (key : string)
| IndexError
| AttributeError (msg : string)
| FileNotFoundError (msg : string)
| BadZipFile
| ParserError (msg : string)
| NotImplementedError (msg : string)
| HTTPError (status_code : Z)
| TypeError (msg : string)
| InrixTimeout (msg : string).

Inductive result (A : Type) :=
| Ok (a : A)
| Raise (e : exn).
Arguments Ok {A} a.
Arguments Raise {A} e.

Definition bind {A B} (m : result A) (k : A -> result B) : result B :=
  match m with
  | Ok a => k a
  | Raise e => Raise e
  end.

(** [for x in xs: f x], stopping at the first exception. *)
Fixpoint mapM {A B} (f : A -> result B) (xs : list A) : result (list B) :=
  match xs with
  | [] => Ok []
  | x :: xs' =>
      bind (f x) (fun y => bind (mapM f xs') (fun ys => Ok (y :: ys)))
  end.

(** [for x in xs: b = f b x], stopping at the first exception. *)
Fixpoint foldM {A B} (f : B -> A -> result B) (xs : list A) (b : B) : result B :=
  match xs with
  | [] => Ok b
  | x :: xs' => bind (f b x) (foldM f xs')
  end.

(** [Response.raise_for_status] of the requests library: a 4xx or 5xx
    status raises, every other status passes. *)
Definition raise_for_status (status_code : Z) : result unit :=
  if (400 <=? status_code) && (status_code <? 600)
  then Raise (HTTPError status_code)
  else Ok tt.

(** Decimal digits, for the fixed-width date and time texts. *)
Definition digit (c : ascii) : option Z :=
  let n := Z.of_nat (nat_of_ascii c) in
  if (48 <=? n) && (n <=? 57) then Some (n - 48) else None.

Fixpoint digits_from (acc : Z) (s : string) : option Z :=
  match s with
  | EmptyString => Some acc
  | String c s' =>
      match digit c with
      | Some d => digits_from (10 * acc + d) s'
      | None => None
      end
  end.

(** A non-empty run of decimal digits. *)
Definition number (s : string) : option Z :=
  match s with
  | EmptyString => None
  | _ => digits_from 0 s
  end.

(** JSON-like Python values.  A [VDict] keeps its keys in insertion
    order, as a Python dict does. *)
#[warnings="-register-all"]
Inductive value :=
| VNone
| VBool (b : bool)
| VInt (n : Z)
| VFloat (q : Q)
| VStr (s : string)
| VList (l : list value)
| VDict (d : list (string * value)).

(** [d[k]] as an option, [k in d], [del d[k]], [d[k] = v], [d.pop(k)]. *)
Fixpoint dict_get {V} (k : string) (d : list (string * V)) : option V :=
  match d with
  | [] => None
  | (k', v) :: d' => if String.eqb k' k then Some v else dict_get k d'
  end.

Definition dict_in {V} (k : string) (d : list (string * V)) : bool :=
  match dict_get k d with Some _ => true | None => false end.

Fixpoint dict_remove {V} (k : string) (d : list (string * V)) : list (string * V) :=
  match d with
  | [] => []
  | (k', v) :: d' => if String.eqb k' k then d' else (k', v) :: dict_remove k d'
  end.

Definition dict_del {V} (k : string) (d : list (string * V))
    : result (list (string * V)) :=
  if dict_in k d then Ok (dict_remove k d) else Raise (KeyError k).

Fixpoint dict_set {V} (k : string) (v : V) (d : list (string * V))
    : list (string * V) :=
  match d with
  | [] => [(k, v)]
  | (k', v') :: d' =>
      if String.eqb k' k then (k', v) :: d' else (k', v') :: dict_set k v d'
  end.

Definition dict_pop {V} (k : string) (d : list (string * V))
    : result (V * list (string * V)) :=
  match dict_get k d with
  | Some v => Ok (v, dict_remove k d)
  | None => Raise (KeyError k)
  end.

(** [d[k]], raising [KeyError]. *)
Definition dict_item {V} (k : string) (d : list (string * V)) : result V :=
  match dict_get k d with
  | Some v => Ok v
  | None => Raise (KeyError k)
  end.

(** [v == s] for a Python value and a string constant. *)
Definition str_eq (v : value) (s : string) : bool :=
  match v with
  | VStr s' => String.eqb s' s
  | _ => false
  end.

(** pandas sums skip missing cells; a sum of nothing is 0.  The sums are
    those of the integers: the sum of an int64 column, which wraps at 2^63,
    and the sum of a float64 column, which rounds from 2^53 on, are these
    as long as the cells are not negative and the total is below 2^53. *)
Definition sum_skipna_Z (xs : list (option Z)) : Z :=
  fold_right (fun x acc => match x with Some v => v + acc | None => acc end) 0 xs.

Definition sum_skipna_Q (xs : list (option Q)) : Q :=
  fold_right (fun x acc => match x with Some v => (v + acc)%Q | None => acc end)
             (0%Q) xs.

End Py.

(** The exception monad, with stdpp's [x ← m; k]. *)
#[global] Instance result_ret : MRet Py.result := @Py.Ok.
#[global] Instance result_bind : MBind Py.result :=
  fun A B k m => Py.bind m k.

(** ** dpdutils/bata.py *)

Module Bata.
Import Py.

(** One row of the sheet DAILY BY HOUR BY LANE, with the columns the
    function keeps ([data[other_cols + time_cols]], after the cut to the
    first 29 columns).  [Date] is the day as a day number ([None] for an
    empty cell); the 24 hour columns are read by their label, [None] for an
    empty cell. *)
Record SheetRow := {
  Date : option Z;
  Day : string;
  Lane_ID : Z;
  Hours : string -> option Z
}.

Definition time_cols : list string :=
  [ "0000-0100"; "0100-0200"; "0200-0300"; "0300-0400"; "0400-0500";
    "0500-0600"; "0600-0700"; "0700-0800"; "0800-0900"; "0900-1000";
    "1000-1100"; "1100-1200"; "1200-1300"; "1300-1400"; "1400-1500";
    "1500-1600"; "1600-1700"; "1700-1800"; "1800-1900"; "1900-2000";
    "2000-2100"; "2100-2200"; "2200-2300"; "2300-2400" ].

(** [data.dropna(subset=["Date"], axis=0)] *)
Definition dropna_Date (data : list SheetRow) : list SheetRow :=
  filter (fun r => is_Some (Date r)) data.

(** A row of the melted frame. *)
Record MeltRow := {
  mDate : option Z;
  mDay : string;
  mLane : Z;
  mHour : string;
  mVolume : option Z
}.

(** [data.melt(id_vars=other_cols, value_vars=time_cols, ...)]: the
    value columns one after the other, each over all the rows. *)
Definition melt (data : list SheetRow) : list MeltRow :=
  flat_map
    (fun h =>
       map (fun r => {| mDate := Date r; mDay := Day r; mLane := Lane_ID r;
                        mHour := h; mVolume := Hours r h |}) data)
    time_cols.

(** The time text HHMMSS as seconds after midnight. *)
Definition parse_hhmmss (s : string) : option Z :=
  if negb (String.length s =? 6)%nat then None else
  match number (substring 0 2 s), number (substring 2 2 s),
        number (substring 4 2 s) with
  | Some hh, Some mm, Some ss =>
      if (hh <? 24) && (mm <? 60) && (ss <? 60)
      then Some (hh * 3600 + mm * 60 + ss) else None
  | _, _, _ => None
  end.

(** [pd.to_datetime(date_text + " " + time_text)], in seconds: the date
    text is the one [astype("str")] printed for the day [date]. *)
Definition to_datetime (date : option Z) (time_text : string) : result Z :=
  match date, parse_hhmmss time_text with
  | Some d, Some s => Ok (d * 86400 + s)
  | _, _ => Raise (ParserError time_text)
  end.

(** [data["Date"].astype("str") + " " + data["Hour"].str.slice(stop=4) + "01"] *)
Definition Timestamp (r : MeltRow) : result Z :=
  to_datetime (mDate r) (substring 0 4 (mHour r) +:+ "01").

(** [Timestamp.dt.date] *)
Definition dt_date (ts : Z) : Z := ts / 86400.

Inductive LongTable :=
| ByHourLane (rows : list (Z * Z * option Z))
| ByHour (rows : list (Z * Z))
| ByDayLane (rows : list (Z * Z * Z))
| ByDay (rows : list (Z * Z)).

Definition nrows (t : LongTable) : nat :=
  match t with
  | ByHourLane rows => length rows
  | ByHour rows => length rows
  | ByDayLane rows => length rows
  | ByDay rows => length rows
  end.

(** [groupby(key).sum()], column Volume: one row per distinct key, with
    the volumes of the group summed.  pandas lists the groups in key order;
    here they come in the order of first appearance. *)
Definition groupby_sum {K} `{EqDecision K}
    (key : Z * MeltRow -> K) (data : list (Z * MeltRow)) : list (K * Z) :=
  map (fun k =>
         (k, sum_skipna_Z
               (map (fun x => mVolume (snd x))
                    (filter (fun x => key x = k) data))))
      (remove_dups (map key data)).

Record Output := {
  table : LongTable;
  written : option (string * LongTable)
}.

(** [sums["Volume"]], after [groupby(...).sum()].  The sum keeps the
    columns of a numeric type only (pandas 1.x, the pandas of the code's
    time).  The hour columns of a sheet that has rows are numeric, and so
    is Volume; those of a sheet without any row are not, the sum drops
    Volume and the selection raises. *)
Definition Volume_column {K} (sheet : list SheetRow) (sums : list (K * Z))
    : result (list (K * Z)) :=
  match sheet with
  | [] => Raise (KeyError "Volume")
  | _ :: _ => Ok sums
  end.

(** [ctvr_to_long], from the sheet on.  The last branch is the fourth test
    of the source, [sum_lanes and sum_hours], the only case left.  A file
    is written when both [out_fn] and [out_dir] are given. *)
Definition ctvr_to_long (sheet : list SheetRow)
    (out_dir out_fn : option string) (sum_lanes sum_hours : bool)
    : result Output :=
  let data := melt (dropna_Date sheet) in
  data ← mapM (fun r => ts ← Timestamp r; Ok (ts, r)) data;
  data ←
    (if negb sum_lanes && negb sum_hours then
       Ok (ByHourLane
             (map (fun x => (fst x, mLane (snd x), mVolume (snd x))) data))
     else if sum_lanes && negb sum_hours then
       sums ← Volume_column sheet (groupby_sum (fun x => fst x) data);
       Ok (ByHour sums)
     else if negb sum_lanes && sum_hours then
       Ok (ByDayLane
             (map (fun kv => (fst (fst kv), snd (fst kv), snd kv))
                (groupby_sum (fun x => (dt_date (fst x), mLane (snd x))) data)))
     else
       sums ← Volume_column sheet (groupby_sum (fun x => dt_date (fst x)) data);
       Ok (ByDay sums));
  Ok {| table := data;
        written := match out_fn, out_dir with
                   | Some fn, Some dir => Some (dir +:+ fn, data)
                   | _, _ => None
                   end |}.

End Bata.

(** ** HTTP, as the requests library shows it *)

Module Http.
Import Py.

(** The text of an f-string, kept as its pieces: literal text and the
    values formatted into it. *)
Definition ftext := list (string + value).

Record Request := {
  method : string;
  url : ftext;
  headers : list (string * ftext);
  params : list (string * value);
  body : value
}.

(** A response: the status, the decoded JSON body when the body is JSON,
    and the raw bytes. *)
Record Response := {
  status_code : Z;
  json_body : option value;
  content : string
}.

(** The remote side: what the [n]-th request sent gets as an answer, and
    how many seconds that exchange takes. *)
Definition network := nat -> Request -> Response * Q.

(** The local side: the clock (seconds) and the number of requests sent. *)
Record World := {
  now : Q;
  sent : nat
}.

Definition send (net : network) (rq : Request) (w : World) : World * Response :=
  let '(r, dt) := net (sent w) rq in
  ({| now := (now w + dt)%Q; sent := S (sent w) |}, r).

(** [time.sleep(secs)] *)
Definition sleep (secs : Q) (w : World) : World :=
  {| now := (now w + secs)%Q; sent := sent w |}.

(** [r.json()] *)
Definition json (r : Response) : result value :=
  match json_body r with
  | Some v => Ok v
  | None => Raise (ValueError "Expecting value")
  end.

Definition get (u : ftext) (h : list (string * ftext))
    (p : list (string * value)) : Request :=
  {| method := "GET"; url := u; headers := h; params := p; body := VNone |}.

Definition post (u : ftext) (h : list (string * ftext)) (b : value) : Request :=
  {| method := "POST"; url := u; headers := h; params := []; body := b |}.

(** Code that talks to the network: the world goes in and comes out, with
    a value or an exception. *)
Definition IO (A : Type) : Type := World -> World * result A.

Definition io_ret {A} (a : A) : IO A := fun w => (w, Ok a).

Definition io_bind {A B} (m : IO A) (k : A -> IO B) : IO B :=
  fun w =>
    match m w with
    | (w', Ok a) => k a w'
    | (w', Raise e) => (w', Raise e)
    end.

(** A pure step that may raise. *)
Definition io_lift {A} (r : result A) : IO A := fun w => (w, r).

(** [requests.get] and [requests.post] *)
Definition request (net : network) (rq : Request) : IO Response :=
  fun w => let '(w', r) := send net rq w in (w', Ok r).

(** [v[k]] on a decoded JSON value. *)
Definition item (k : string) (v : value) : result value :=
  match v with
  | VDict d => dict_item k d
  | _ => Raise (TypeError "object is not subscriptable")
  end.

End Http.

#[global] Instance io_mret : MRet Http.IO := @Http.io_ret.
#[global] Instance io_mbind : MBind Http.IO := fun A B k m => Http.io_bind m k.

(** ** dpdutils/inrix/roadway/api.py *)

Module InrixApi.
Import Py Http.

(** The [print] calls of the module are left out.  Time passes while a
    request is answered and while the code sleeps, not between two
    statements. *)

(** The double quote character. *)
Definition dq : string := String (ascii_of_nat 34) EmptyString.

(** [get_creds], from the decoded JSON of the credentials file on. *)
Definition get_creds (inrix_creds_fp : string)
    (inrix_creds : list (string * value)) : result (list (string * value)) :=
  if negb (dict_in "email" inrix_creds) || negb (dict_in "password" inrix_creds)
  then Raise (ValueError
         ("Cannot read JSON " +:+ dq +:+ inrix_creds_fp +:+ dq +:+ ". "
          +:+ "JSON should contain {" +:+ dq +:+ "email" +:+ dq +:+ ": "
          +:+ dq +:+ "<YOUR EMAIL>" +:+ dq +:+ ", " +:+ dq +:+ "password"
          +:+ dq +:+ ": " +:+ dq +:+ "<YOUR PASSWORD" +:+ dq +:+ "}"))
  else Ok inrix_creds.

Definition auth_header (access_token : value) : list (string * ftext) :=
  [("Authorization", [inl "Bearer "; inr access_token])].

Definition get_access_token (net : network)
    (inrix_creds : list (string * value)) : IO value :=
  let endpoint := [inl "https://roadway-analytics-api.inrix.com/v1/auth"] in
  r ← request net (post endpoint [] (VDict inrix_creds));
  _ ← io_lift (raise_for_status (status_code r));
  io_lift (j ← json r; j ← item "result" j; j ← item "accessToken" j;
           item "token" j).

Definition create_new_corridor_report (net : network) (access_token : value)
    (start_date end_date : string) (corridors : list value)
    (granularity : Z) (map_version : string) : IO value :=
  let endpoint :=
    [inl "https://roadway-analytics-api.inrix.com/v1/data-downloader"] in
  let report_def := VDict
    [ ("unit", VStr "IMPERIAL");
      ("fields", VList (map VStr
         [ "LOCAL_DATE_TIME"; "XDSEGID"; "UTC_DATE_TIME"; "SPEED"; "NAS_SPEED";
           "REF_SPEED"; "TRAVEL_TIME"; "CVALUE"; "SCORE";
           "CORRIDOR_REGION_NAME"; "CLOSURE" ]));
      ("corridors", VList corridors);
      ("timezone", VStr "America/Los_Angeles");
      ("dateRanges", VList [ VDict
         [ ("start", VStr start_date);
           ("end", VStr end_date);
           ("daysOfWeek", VList (map VInt [1; 2; 3; 4; 5; 6; 7])) ] ]);
      ("mapVersion", VStr map_version);
      ("reportType", VStr "DATA_DOWNLOAD");
      ("granularity", VInt granularity);
      ("emailAddresses", VList []);
      ("includeClosures", VBool true) ] in
  r ← request net (post endpoint (auth_header access_token) report_def);
  _ ← io_lift (raise_for_status (status_code r));
  io_lift (j ← json r; item "reportId" j).

Definition check_report_status (net : network)
    (access_token report_id : value) : IO value :=
  let endpoint :=
    [inl "https://roadway-analytics-api.inrix.com/v1/report/status/";
     inr report_id] in
  r ← request net (get endpoint (auth_header access_token) []);
  _ ← io_lift (raise_for_status (status_code r));
  io_lift (json r).

(** [max_wait] and [check_interval] of [wait_for_report_completion], in
    seconds. *)
Definition max_wait : Q := 60 * 10.
Definition check_interval : Q := 10.

(** The [while] loop of [wait_for_report_completion]; [None] when the
    fuel runs out before the loop ends. *)
Fixpoint wait_loop (fuel : nat) (net : network)
    (access_token report_id : value) (start elapsed : Q)
    (report_status : value) (w : World) : option (World * result unit) :=
  match fuel with
  | O => None
  | S fuel' =>
      match item "state" report_status with
      | Raise e => Some (w, Raise e)
      | Ok state =>
          if negb (str_eq state "COMPLETED") then
            if Qle_bool max_wait elapsed then
              Some (w, Raise (InrixTimeout
                "Inrix report generation took over 10.0 minutes"))
            else
              let w := sleep check_interval w in
              match check_report_status net access_token report_id w with
              | (w, Raise e) => Some (w, Raise e)
              | (w, Ok report_status) =>
                  let elapsed := (now w - start)%Q in
                  wait_loop fuel' net access_token report_id start elapsed
                            report_status w
              end
          else Some (w, Ok tt)
      end
  end.

Definition wait_for_report_completion (fuel : nat) (net : network)
    (access_token report_id : value) (w : World)
    : option (World * result unit) :=
  let start := now w in
  let elapsed := (now w - start)%Q in
  match check_report_status net access_token report_id w with
  | (w, Raise e) => Some (w, Raise e)
  | (w, Ok report_status) =>
      wait_loop fuel net access_token report_id start elapsed report_status w
  end.

Definition get_report_data (net : network)
    (access_token report_id : value) : IO value :=
  let endpoint :=
    [inl "https://roadway-analytics-api.inrix.com/v1/data-downloader/";
     inr report_id] in
  r ← request net (get endpoint (auth_header access_token) []);
  _ ← io_lift (raise_for_status (status_code r));
  io_lift (json r).

(** [len(v)] and [v[0]] on a decoded JSON value. *)
Definition len (v : value) : result Z :=
  match v with
  | VList l => Ok (Z.of_nat (length l))
  | VDict d => Ok (Z.of_nat (length d))
  | VStr s => Ok (Z.of_nat (String.length s))
  | _ => Raise (TypeError "object has no len()")
  end.

Definition first (v : value) : result value :=
  match v with
  | VList (x :: _) => Ok x
  | VList [] => Raise IndexError
  | _ => Raise (TypeError "object is not subscriptable")
  end.

Definition get_report_bytes (net : network) (report_data : value) : IO string :=
  urls ← io_lift (item "urls" report_data);
  n ← io_lift (len urls);
  if 1 <? n then
    io_lift (Raise (NotImplementedError "Report contains multiple urls"))
  else
    urls ← io_lift (item "urls" report_data);
    u ← io_lift (first urls);
    r ← request net (get [inr u] [] []);
    mret (content r).

Definition download_corridor_report (fuel : nat) (net : network)
    (inrix_creds_fp : string) (creds_json : list (string * value))
    (corridors : list value) (start_date end_date : string)
    (granularity : Z) (map_version : string) (w : World)
    : option (World * result string) :=
  match get_creds inrix_creds_fp creds_json with
  | Raise e => Some (w, Raise e)
  | Ok inrix_creds =>
  match get_access_token net inrix_creds w with
  | (w, Raise e) => Some (w, Raise e)
  | (w, Ok access_token) =>
  match create_new_corridor_report net access_token start_date end_date
          corridors granularity map_version w with
  | (w, Raise e) => Some (w, Raise e)
  | (w, Ok report_id) =>
  match wait_for_report_completion fuel net access_token report_id w with
  | None => None
  | Some (w, Raise e) => Some (w, Raise e)
  | Some (w, Ok _) =>
      Some ((report_data ← get_report_data net access_token report_id;
             get_report_bytes net report_data) w)
  end end end end.

End InrixApi.

(** ** dpdutils/swiftly/api.py *)

Module SwiftlyApi.
Import Py Http.

(** [get_key], from the decoded JSON of the key file on. *)
Definition get_key (key_path : string) (api_key : list (string * value))
    : result (list (string * value)) :=
  if negb (dict_in "key" api_key)
  then Raise (ValueError
         ("Cannot read JSON " +:+ InrixApi.dq +:+ key_path +:+ InrixApi.dq
          +:+ ". JSON should contain {" +:+ InrixApi.dq +:+ "key"
          +:+ InrixApi.dq +:+ ": " +:+ InrixApi.dq +:+ "<YOUR API KEY>"
          +:+ InrixApi.dq +:+ "}"))
  else Ok api_key.

Definition max_attempts : Z := 10.

(** The [while keep_trying] loop of [make_api_call]: [attempt_number] is
    the count before this turn; [None] when the fuel runs out. *)
Fixpoint api_loop (fuel : nat) (net : network) (rq : Request)
    (attempt_number : Z) (w : World) : option (World * result Response) :=
  match fuel with
  | O => None
  | S fuel' =>
      let attempt_number := attempt_number + 1 in
      let '(w, r) := send net rq w in
      if status_code r =? 200 then Some (w, Ok r)
      else if status_code r =? 429 then
        if attempt_number <? max_attempts then
          api_loop fuel' net rq attempt_number (sleep 1000 w)
        else
          match raise_for_status (status_code r) with
          | Raise e => Some (w, Raise e)
          | Ok _ => api_loop fuel' net rq attempt_number w
          end
      else
        match raise_for_status (status_code r) with
        | Raise e => Some (w, Raise e)
        | Ok _ =>
            Some (w, Raise (ValueError
              ("Unhandeled response status code: " +:+ pretty (status_code r))))
        end
  end.

Definition make_api_call (fuel : nat) (net : network) (api_key : value)
    (url : string) (params : list (string * value)) (w : World)
    : option (World * result value) :=
  let headers := [("Authorization", [inr api_key])] in
  match api_loop fuel net (get [inl url] headers params) 0 w with
  | None => None
  | Some (w, Raise e) => Some (w, Raise e)
  | Some (w, Ok r) => Some (w, json r)
  end.

Definition gps_playback (fuel : nat) (net : network) (api_key : value)
    (agencyKey : string) (queryDate route vehicle beginTime endTime : value)
    : World -> option (World * result value) :=
  let params :=
    [ ("api_key", api_key); ("agencyKey", VStr agencyKey);
      ("queryDate", queryDate); ("route", route); ("vehicle", vehicle);
      ("beginTime", beginTime); ("endTime", endTime) ] in
  let gps_playback_url := "https://api.goswift.ly/gps-playback/" +:+ agencyKey in
  make_api_call fuel net api_key gps_playback_url params.

End SwiftlyApi.

(** ** dpdutils/swiftly/datapro.py *)

Module SwiftlyDatapro.
Import Py.

(** The Python heap, as far as this module sees it: the segment dicts are
    objects with an identity, the list handed in holds references to them.
    What a dict holds under its keys is kept by value. *)
Abbreviation loc := positive.
Abbreviation heap := (gmap positive (list (string * value))).

(** Code that works on the heap. *)
Definition St (A : Type) : Type := heap -> heap * result A.

Definition st_bind {A B} (m : St A) (k : A -> St B) : St B :=
  fun h =>
    match m h with
    | (h', Ok a) => k a h'
    | (h', Raise e) => (h', Raise e)
    end.

Definition st_ret {A} (a : A) : St A := fun h => (h, Ok a).

(** The dict behind a reference. *)
Definition deref (l : loc) (h : heap) : list (string * value) := h !!! l.

(** An in-place change of the dict behind [l], which may raise and leave
    the dict as it is. *)
Definition update {A} (l : loc)
    (f : list (string * value) -> result (A * list (string * value))) : St A :=
  fun h =>
    match f (deref l h) with
    | Ok (a, d) => (<[l := d]> h, Ok a)
    | Raise e => (h, Raise e)
    end.

(** [copy.deepcopy(seg_list)]: a new list of new dicts; an object met a
    second time is copied once (the memo of [deepcopy]). *)
Fixpoint deepcopy (seg_list : list loc) (memo : gmap positive positive)
    (h : heap) : heap * list loc :=
  match seg_list with
  | [] => (h, [])
  | l :: rest =>
      match memo !! l with
      | Some l' =>
          let '(h, rest') := deepcopy rest memo h in (h, l' :: rest')
      | None =>
          let l' := fresh (dom h) in
          let h := <[l' := deref l h]> h in
          let '(h, rest') := deepcopy rest (<[l := l']> memo) h in
          (h, l' :: rest')
      end
  end.

Record Geometry := {
  g_type : string;
  coordinates : list (list value)
}.

(** A feature; ['properties'] is the segment dict itself, by reference. *)
Record Feature := {
  f_type : string;
  geometry : Geometry;
  properties : loc
}.

Record GeoJSON := {
  type : string;
  features : list Feature
}.

(** [[p['lon'], p['lat']] for p in pathLocs] *)
Definition coords_of (pathLocs : value) : result (list (list value)) :=
  match pathLocs with
  | VList ps =>
      mapM (fun p => lon ← Http.item "lon" p; lat ← Http.item "lat" p;
                     Ok [lon; lat]) ps
  | _ => Raise (TypeError "object is not iterable")
  end.

(** The body of the [for i, seg in enumerate(seg_list_copy)] loop. *)
Definition build_feature (i : Z) (seg : loc) : St Feature :=
  st_bind (update seg (fun d => d ← dict_del "fromStop" d; Ok (tt, d))) (fun _ =>
  st_bind (update seg (fun d => d ← dict_del "toStop" d; Ok (tt, d))) (fun _ =>
  st_bind (update seg (fun d => Ok (tt, dict_set "order" (VInt i) d))) (fun _ =>
  st_bind (update seg (dict_pop "pathLocs")) (fun pathLocs =>
  fun h =>
    match coords_of pathLocs with
    | Raise e => (h, Raise e)
    | Ok coords =>
        (h, Ok {| f_type := "Feature";
                  geometry := {| g_type := "LineString"; coordinates := coords |};
                  properties := seg |})
    end)))).

Fixpoint build_features (i : Z) (segs : list loc) : St (list Feature) :=
  match segs with
  | [] => st_ret []
  | seg :: rest =>
      st_bind (build_feature i seg) (fun f =>
      st_bind (build_features (i + 1) rest) (fun fs =>
      st_ret (f :: fs)))
  end.

Definition speed_map_segs_to_geojson (seg_list : list loc) : St GeoJSON :=
  fun h =>
    let '(h, seg_list_copy) := deepcopy seg_list ∅ h in
    st_bind (build_features 0 seg_list_copy) (fun fs =>
    st_ret {| type := "FeatureCollection"; features := fs |}) h.

End SwiftlyDatapro.

(** ** dpdutils/inrix/roadway/datapro.py *)

Module InrixDatapro.
Import Py.

(** *** Dates and times

    [pd.to_datetime] on the texts this module gives it: the archive's
    local date-time YYYY-MM-DDTHH:MM:SS (or with a blank for the T) and the
    date YYYY-MM-DD.  Any other text raises here. *)

Record Timestamp := {
  year : Z; month : Z; day : Z;
  hour : Z; minute : Z; second : Z
}.

#[global] Instance Timestamp_eq_dec : EqDecision Timestamp.
Proof. solve_decision. Defined.

Definition is_leap (y : Z) : bool :=
  ((y mod 4 =? 0) && negb (y mod 100 =? 0)) || (y mod 400 =? 0).

Definition days_in_month (y m : Z) : Z :=
  if m =? 2 then (if is_leap y then 29 else 28)
  else if (m =? 4) || (m =? 6) || (m =? 9) || (m =? 11) then 30
  else 31.

Definition parse_date (s : string) : option (Z * Z * Z) :=
  match number (substring 0 4 s), number (substring 5 2 s),
        number (substring 8 2 s) with
  | Some y, Some m, Some d =>
      if String.eqb (substring 4 1 s) "-" && String.eqb (substring 7 1 s) "-"
         && (1 <=? m) && (m <=? 12) && (1 <=? d) && (d <=? days_in_month y m)
      then Some (y, m, d) else None
  | _, _, _ => None
  end.

Definition parse_time (s : string) : option (Z * Z * Z) :=
  match number (substring 0 2 s), number (substring 3 2 s),
        number (substring 6 2 s) with
  | Some h, Some mi, Some se =>
      if String.eqb (substring 2 1 s) ":" && String.eqb (substring 5 1 s) ":"
         && (h <? 24) && (mi <? 60) && (se <? 60)
      then Some (h, mi, se) else None
  | _, _, _ => None
  end.

Definition to_datetime (s : string) : result Timestamp :=
  let n := String.length s in
  if (n =? 10)%nat then
    match parse_date s with
    | Some (y, m, d) =>
        Ok {| year := y; month := m; day := d;
              hour := 0; minute := 0; second := 0 |}
    | None => Raise (ParserError s)
    end
  else if (n =? 19)%nat
          && (String.eqb (substring 10 1 s) "T" || String.eqb (substring 10 1 s) " ")
  then
    match parse_date (substring 0 10 s), parse_time (substring 11 8 s) with
    | Some (y, m, d), Some (h, mi, se) =>
        Ok {| year := y; month := m; day := d;
              hour := h; minute := mi; second := se |}
    | _, _ => Raise (ParserError s)
    end
  else Raise (ParserError s).

Definition pad (width : nat) (n : Z) : string :=
  let s := pretty n in
  String.concat "" (repeat "0" (width - String.length s)) +:+ s.

(** [Timestamp.dt.date.astype("str")] and [Timestamp.dt.time.astype("str")] *)
Definition date_str (t : Timestamp) : string :=
  pad 4 (year t) +:+ "-" +:+ pad 2 (month t) +:+ "-" +:+ pad 2 (day t).

Definition time_str (t : Timestamp) : string :=
  pad 2 (hour t) +:+ ":" +:+ pad 2 (minute t) +:+ ":" +:+ pad 2 (second t).

(** Days since 1970-01-01 in the proleptic Gregorian calendar. *)
Definition days_from_civil (y m d : Z) : Z :=
  let y := if m <=? 2 then y - 1 else y in
  let era := y / 400 in
  let yoe := y - era * 400 in
  let mp := (m + 9) mod 12 in
  let doy := (153 * mp + 2) / 5 + d - 1 in
  let doe := yoe * 365 + yoe / 4 - yoe / 100 + doy in
  era * 146097 + doe - 719468.

(** [strftime("%A")] *)
Definition day_name (t : Timestamp) : string :=
  nth (Z.to_nat ((days_from_civil (year t) (month t) (day t) + 3) mod 7))
      [ "Monday"; "Tuesday"; "Wednesday"; "Thursday"; "Friday"; "Saturday";
        "Sunday" ] "".

(** [s[0:-6]] *)
Definition strip_offset (s : string) : string :=
  substring 0 (String.length s - 6) s.

(** *** The three tables of an archive *)

Record DataRow := {
  Date_Time : string;
  Corridor_Region_Name : string;
  Segment_ID : Z;
  Travel_Time_Minutes : option Q
}.

Record MetaRow := {
  meta_Segment_ID : Z;
  Segment_Length_Miles : option Q
}.

Record Corridor := {
  name : string;
  direction : string;
  xdSegIds : list Z
}.

Record ReportContents := {
  corridors : list Corridor
}.

(** A file of the archive, seen through its readers: what [pd.read_csv]
    gives when the file is read as the data table, what it gives when read
    as the metadata table, and what [json.load] gives. *)
Record Member := {
  as_data : result (list DataRow);
  as_metadata : result (list MetaRow);
  as_report_contents : result ReportContents
}.

(** A zip archive: its names, in [namelist()] order, and files. *)
Definition Archive := list (string * Member).

(** Bytes are an archive, or no zip file at all. *)
Definition Bytes := option Archive.

Definition FileSystem := string -> option Bytes.

(** The argument of [read_zip], and what [self.ra_zip] holds after the
    housekeeping: a [BytesIO] or a [Path]. *)
Inductive ZipArg :=
| ArgBytes (b : Bytes)
| ArgPath (p : string).

Inductive ZipRef :=
| BytesIO (b : Bytes)
| Path (p : string).

Record CorridorReportZip := {
  ra_zip : option ZipRef;
  data : option (list DataRow);
  metadata : option (list MetaRow);
  report_contents : option ReportContents
}.

(** [__init__] *)
Definition init : CorridorReportZip :=
  {| ra_zip := None; data := None; metadata := None; report_contents := None |}.

(** [zipfile.ZipFile(self.ra_zip, "r")] *)
Definition ZipFile (fs : FileSystem) (ra_zip : option ZipRef) : result Archive :=
  match ra_zip with
  | None => Raise (TypeError "expected str, bytes or os.PathLike object")
  | Some (BytesIO (Some z)) => Ok z
  | Some (BytesIO None) => Raise BadZipFile
  | Some (Path p) =>
      match fs p with
      | None => Raise (FileNotFoundError p)
      | Some None => Raise BadZipFile
      | Some (Some z) => Ok z
      end
  end.

(** [z.namelist()[0]] *)
Definition zip_root (z : Archive) : result string :=
  match z with
  | [] => Raise IndexError
  | (n, _) :: _ => Ok n
  end.

(** [z.open(target)]: the last file of that name. *)
Definition zip_open (target : string) (z : Archive) : result Member :=
  dict_item target (rev z).

Definition load_data (fs : FileSystem) (self : CorridorReportZip)
    : CorridorReportZip * result unit :=
  match (z ← ZipFile fs (ra_zip self);
         zip_root ← zip_root z;
         data_csv ← zip_open (zip_root +:+ "data.csv") z;
         as_data data_csv) with
  | Ok df => ({| ra_zip := ra_zip self; data := Some df;
                 metadata := metadata self;
                 report_contents := report_contents self |}, Ok tt)
  | Raise e => (self, Raise e)
  end.

Definition load_metadata (fs : FileSystem) (self : CorridorReportZip)
    : CorridorReportZip * result unit :=
  match (z ← ZipFile fs (ra_zip self);
         zip_root ← zip_root z;
         metadata_csv ← zip_open (zip_root +:+ "metadata.csv") z;
         as_metadata metadata_csv) with
  | Ok df => ({| ra_zip := ra_zip self; data := data self;
                 metadata := Some df;
                 report_contents := report_contents self |}, Ok tt)
  | Raise e => (self, Raise e)
  end.

Definition load_report_contents (fs : FileSystem) (self : CorridorReportZip)
    : CorridorReportZip * result unit :=
  match (z ← ZipFile fs (ra_zip self);
         zip_root ← zip_root z;
         report_contents_json ← zip_open (zip_root +:+ "reportContents.json") z;
         as_report_contents report_contents_json) with
  | Ok rc => ({| ra_zip := ra_zip self; data := data self;
                 metadata := metadata self;
                 report_contents := Some rc |}, Ok tt)
  | Raise e => (self, Raise e)
  end.

(** The [try] block of [read_zip]. *)
Definition load_all (fs : FileSystem) (self : CorridorReportZip)
    : CorridorReportZip * result unit :=
  match load_data fs self with
  | (self, Raise e) => (self, Raise e)
  | (self, Ok _) =>
      match load_metadata fs self with
      | (self, Raise e) => (self, Raise e)
      | (self, Ok _) => load_report_contents fs self
      end
  end.

(** [read_zip]: [Ok None] is the plain return at the end of the method,
    [Ok (Some false)] the [return False]. *)
Definition read_zip (fs : FileSystem) (ra_zip : ZipArg)
    (self : CorridorReportZip) : CorridorReportZip * result (option bool) :=
  match (match ra_zip with
         | ArgBytes b => Ok (BytesIO b)
         | ArgPath p =>
             match fs p with
             | None => Raise (FileNotFoundError
                         ("The zip file " +:+ p +:+ " does not exist"))
             | Some _ => Ok (Path p)
             end
         end) with
  | Raise e => (self, Raise e)
  | Ok ra_zip =>
      let self := {| ra_zip := Some ra_zip; data := data self;
                     metadata := metadata self;
                     report_contents := report_contents self |} in
      match load_all fs self with
      | (self, Ok _) => (self, Ok None)
      | (self, Raise (FileNotFoundError _)) => (self, Ok (Some false))
      | (self, Raise e) => (self, Raise e)
      end
  end.

(** *** Formatting and aggregation *)

Record FormattedRow := {
  f_Corridor : string;
  f_Date : string;
  f_Time_Interval : string;
  f_Segment_ID : Z;
  f_Travel_Time : option Q
}.

(** [drop_duplicates(subset=...)]: the first row of each key stays. *)
Fixpoint drop_duplicates {A K} `{EqDecision K} (key : A -> K)
    (seen : list K) (l : list A) : list A :=
  match l with
  | [] => []
  | x :: l' =>
      if decide (key x ∈ seen) then drop_duplicates key seen l'
      else x :: drop_duplicates key (key x :: seen) l'
  end.

Definition get_format_data_for_agg (self : CorridorReportZip)
    : result (list FormattedRow) :=
  match data self with
  | None => Raise (AttributeError "'NoneType' object has no attribute 'copy'")
  | Some data =>
      data_formatted ←
        mapM (fun r => ts ← to_datetime (strip_offset (Date_Time r)); Ok (ts, r))
             data;
      let data_formatted :=
        drop_duplicates (fun x => (fst x, Segment_ID (snd x))) [] data_formatted in
      Ok (map (fun x =>
                 {| f_Corridor := Corridor_Region_Name (snd x);
                    f_Date := date_str (fst x);
                    f_Time_Interval := substring 0 5 (time_str (fst x));
                    f_Segment_ID := Segment_ID (snd x);
                    f_Travel_Time := Travel_Time_Minutes (snd x) |})
              data_formatted)
  end.

(** The group of a row: corridor, date, time interval. *)
Definition Key : Type := string * string * string.

Definition gb_cols (r : FormattedRow) : Key :=
  (f_Corridor r, f_Date r, f_Time_Interval r).

(** A row of [data_agg]; a column that is not there yet, or a cell never
    written, is [None]. *)
Record AggRow := {
  Segment_ID_sum : Z;
  Travel_Time : Q;
  Corridor_Length : option Q;
  Segment_Count : option Z;
  Speed : option Q
}.

(** [data_formatted.groupby(gb_cols).sum()].  pandas lists the groups in
    key order; here they come in the order of first appearance. *)
Definition groupby_sum (data_formatted : list FormattedRow) : list (Key * AggRow) :=
  map (fun k =>
         let g := filter (fun r => gb_cols r = k) data_formatted in
         (k, {| Segment_ID_sum := fold_right Z.add 0 (map f_Segment_ID g);
                Travel_Time := sum_skipna_Q (map f_Travel_Time g);
                Corridor_Length := None;
                Segment_Count := None;
                Speed := None |}))
      (remove_dups (map gb_cols data_formatted)).

(** [data_formatted.groupby(gb_cols).count()], column alt_count: the rows
    of the group that have a travel time. *)
Definition groupby_count (data_formatted : list FormattedRow) : list (Key * Z) :=
  map (fun k =>
         (k, Z.of_nat (length
               (filter (fun r => gb_cols r = k ∧ is_Some (f_Travel_Time r))
                       data_formatted))))
      (remove_dups (map gb_cols data_formatted)).

Fixpoint assoc_get {K V} `{EqDecision K} (k : K) (l : list (K * V)) : option V :=
  match l with
  | [] => None
  | (k', v) :: l' => if decide (k' = k) then Some v else assoc_get k l'
  end.

Definition corridor_of (k : Key) : string := fst (fst k).

(** [data_agg.loc[(corridor_name,), column] = value]: every row of that
    corridor is written; a corridor with no row at all is a [KeyError]. *)
Definition loc_set (corridor_name : string) (write : AggRow -> AggRow)
    (data_agg : list (Key * AggRow)) : result (list (Key * AggRow)) :=
  if existsb (fun kr => String.eqb (corridor_of (fst kr)) corridor_name) data_agg
  then Ok (map (fun kr =>
                  if String.eqb (corridor_of (fst kr)) corridor_name
                  then (fst kr, write (snd kr)) else kr)
               data_agg)
  else Raise (KeyError corridor_name).

Definition set_Corridor_Length (v : Q) (r : AggRow) : AggRow :=
  {| Segment_ID_sum := Segment_ID_sum r; Travel_Time := Travel_Time r;
     Corridor_Length := Some v; Segment_Count := Segment_Count r;
     Speed := Speed r |}.

Definition set_Segment_Count (v : Z) (r : AggRow) : AggRow :=
  {| Segment_ID_sum := Segment_ID_sum r; Travel_Time := Travel_Time r;
     Corridor_Length := Corridor_Length r; Segment_Count := Some v;
     Speed := Speed r |}.

(** The body of [for corridor in self.report_contents["corridors"]]. *)
Definition add_corridor (self : CorridorReportZip)
    (data_agg : list (Key * AggRow)) (corridor : Corridor)
    : result (list (Key * AggRow)) :=
  let corridor_segs := xdSegIds corridor in
  let corridor_name := name corridor in
  match metadata self with
  | None => Raise (TypeError "'NoneType' object is not subscriptable")
  | Some metadata =>
      let corridor_metadata :=
        filter (fun m => meta_Segment_ID m ∈ corridor_segs) metadata in
      let length' := sum_skipna_Q (map Segment_Length_Miles corridor_metadata) in
      let seg_count := Z.of_nat (length corridor_segs) in
      data_agg ← loc_set corridor_name (set_Corridor_Length length') data_agg;
      loc_set corridor_name (set_Segment_Count seg_count) data_agg
  end.

(** [data_agg["Segment Count"] == seg_count_alt["alt_count"]], row by row. *)
Definition full_count (seg_count_alt : list (Key * Z)) (kr : Key * AggRow) : bool :=
  match Segment_Count (snd kr), assoc_get (fst kr) seg_count_alt with
  | Some c, Some a => c =? a
  | _, _ => false
  end.

(** [Corridor Length / Travel Time * 60], a division of floats, is the
    quotient of the numbers where the travel time is not 0.  At a travel
    time of 0 the float quotient is an infinity or NaN, which the rational
    written here is not: the properties leave that case aside. *)
Definition set_Speed (r : AggRow) : AggRow :=
  {| Segment_ID_sum := Segment_ID_sum r; Travel_Time := Travel_Time r;
     Corridor_Length := Corridor_Length r; Segment_Count := Segment_Count r;
     Speed := match Corridor_Length r with
              | Some l => Some (l / Travel_Time r * 60)%Q
              | None => None
              end |}.

Definition create_data_agg (self : CorridorReportZip)
    : result (list (Key * AggRow)) :=
  data_formatted ← get_format_data_for_agg self;
  let data_agg := groupby_sum data_formatted in
  match report_contents self with
  | None => Raise (TypeError "'NoneType' object is not subscriptable")
  | Some rc =>
      data_agg ← foldM (add_corridor self) (corridors rc) data_agg;
      let seg_count_alt := groupby_count data_formatted in
      match corridors rc with
      | [] => Raise (KeyError "Segment Count")
      | _ =>
          let data_agg := List.filter (full_count seg_count_alt) data_agg in
          Ok (map (fun kr => (fst kr, set_Speed (snd kr))) data_agg)
      end
  end.

(** *** Output shaping *)

Record LongRow := {
  l_Corridor : string;
  l_Date : string;
  l_Day_of_Week : string;
  l_Time_Interval : string;
  l_Speed : option Q;
  l_Travel_Time : Q
}.

Record WideRow := {
  w_Corridor : string;
  w_Date : string;
  w_Day_of_Week : string;
  w_cells : list (option Q)
}.

Inductive Frame :=
| Long (rows : list LongRow)
| Wide (columns : list string) (rows : list WideRow).

Definition mean (xs : list Q) : option Q :=
  match xs with
  | [] => None
  | _ => Some (fold_right Qplus 0 xs / inject_Z (Z.of_nat (length xs)))%Q
  end.

(** [data_agg.reset_index().pivot_table(index=[corridor, date],
    columns="Time Interval", values=...)], with the default mean. *)
Definition pivot_table (values : AggRow -> option Q)
    (data_agg : list (Key * AggRow))
    : list string * list (string * string * list (option Q)) :=
  let cells := omap (fun kr => v ← values (snd kr); Some (fst kr, v)) data_agg in
  let index := remove_dups (map (fun c => fst (fst c)) cells) in
  let columns := remove_dups (map (fun c => snd (fst c)) cells) in
  (columns,
   map (fun i =>
          (i, map (fun c =>
                     mean (map snd (filter (fun x => fst x = (i, c)) cells)))
                  columns))
       index).

(** The steps of [segments_to_corridor] that read or build a table, in the
    order the method starts them; the method returns the list of those it
    has started next to its result. *)
Inductive Step :=
| CreateDataAgg
| PivotTable (values : string)
| SelectColumns
| InsertDayOfWeek
| ToCsv (out_path : string).

Definition format_msg (out_format : string) : string :=
  "out_format is '" +:+ out_format +:+ "', should be 'wide' or 'long'".

Definition metric_msg (out_format : string) : string :=
  "wide_metric is '" +:+ out_format +:+ "', should be 'speed' or 'travel_time'".

Definition is_metric (wide_metric : option string) (m : string) : bool :=
  match wide_metric with
  | Some s => String.eqb s m
  | None => false
  end.

(** [final.reset_index()] and the Day of Week column, row by row. *)
Definition long_row (kr : Key * AggRow) : result LongRow :=
  ts ← to_datetime (snd (fst (fst kr)));
  Ok {| l_Corridor := corridor_of (fst kr);
        l_Date := snd (fst (fst kr));
        l_Day_of_Week := day_name ts;
        l_Time_Interval := snd (fst kr);
        l_Speed := Speed (snd kr);
        l_Travel_Time := Travel_Time (snd kr) |}.

Definition wide_row (r : string * string * list (option Q)) : result WideRow :=
  ts ← to_datetime (snd (fst r));
  Ok {| w_Corridor := fst (fst r);
        w_Date := snd (fst r);
        w_Day_of_Week := day_name ts;
        w_cells := snd r |}.

(** The reshaping and the rest of [segments_to_corridor], after the
    aggregation. *)
Definition reshape (out_format : string) (wide_metric : option string)
    (out_dir out_fn : option string) (data_agg : list (Key * AggRow))
    : list Step * result Frame :=
  let written :=
    match out_fn, out_dir with
    | Some fn, Some dir => [ToCsv (dir +:+ fn)]
    | _, _ => []
    end in
  let widen (values : string) (column : AggRow -> option Q) :=
    let '(columns, rows) := pivot_table column data_agg in
    match mapM wide_row rows with
    | Raise e => ([PivotTable values; InsertDayOfWeek], Raise e)
    | Ok rows =>
        ([PivotTable values; InsertDayOfWeek] ++ written, Ok (Wide columns rows))
    end in
  if String.eqb out_format "wide" then
    if is_metric wide_metric "speed" then
      widen "Speed(miles/hour)" Speed
    else if is_metric wide_metric "travel_time" then
      widen "Travel Time(Minutes)" (fun r => Some (Travel_Time r))
    else ([], Raise (ValueError (metric_msg out_format)))
  else if String.eqb out_format "long" then
    match mapM long_row data_agg with
    | Raise e => ([SelectColumns; InsertDayOfWeek], Raise e)
    | Ok rows => ([SelectColumns; InsertDayOfWeek] ++ written, Ok (Long rows))
    end
  else ([], Raise (ValueError (format_msg out_format))).

(** [segments_to_corridor]: the two checks of the arguments, then the
    aggregation and the reshaping. *)
Definition segments_to_corridor (self : CorridorReportZip)
    (out_format : string) (wide_metric : option string)
    (out_dir out_fn : option string) : list Step * result Frame :=
  if negb (String.eqb out_format "wide" || String.eqb out_format "long") then
    ([], Raise (ValueError (format_msg out_format)))
  else if String.eqb out_format "wide"
          && negb (is_metric wide_metric "speed"
                   || is_metric wide_metric "travel_time") then
    ([], Raise (ValueError (metric_msg out_format)))
  else
    match create_data_agg self with
    | Raise e => ([CreateDataAgg], Raise e)
    | Ok data_agg =>
        let '(steps, final) :=
          reshape out_format wide_metric out_dir out_fn data_agg in
        (CreateDataAgg :: steps, final)
    end.

End InrixDatapro.

(* ===================================================================== *)
(** * Part I, continued: the vocabulary of the properties                *)
(* ===================================================================== *)

(** ** Volume reshaper *)

Module BataSpec.
Import Py Bata.

(** The melted row of a sheet row and an hour column. *)
Definition cell (r0 : SheetRow) (h : string) : MeltRow :=
  {| mDate := Date r0; mDay := Day r0; mLane := Lane_ID r0;
     mHour := h; mVolume := Hours r0 h |}.

(** The timestamp of a melted row, 0 where [Timestamp] raises. *)
Definition stamp (r : MeltRow) : Z :=
  match Timestamp r with Ok t => t | Raise _ => 0 end.

(** The melted frame with its Timestamp column. *)
Definition stamped (rows : list SheetRow) : list (Z * MeltRow) :=
  map (fun r => (stamp r, r)) (melt rows).

(** A sheet of two days with two lanes each, one vehicle in every cell. *)
Definition sheet_2x2 : list SheetRow :=
  map (fun dl => {| Date := Some (fst dl); Day := "Mon"; Lane_ID := snd dl;
                    Hours := fun _ => Some 1 |})
      (list_prod [18687; 18688] [1; 2]).

End BataSpec.

(** ** Report polling *)

Module InrixApiSpec.
Import Py Http InrixApi.

(** The request [check_report_status] sends. *)
Definition status_request (access_token report_id : value) : Request :=
  get [inl "https://roadway-analytics-api.inrix.com/v1/report/status/";
       inr report_id] (auth_header access_token) [].

(** What the loop sees of a status response: the state, or the exception
    the response leads to. *)
Definition poll_state (r : Response) : result value :=
  _ ← raise_for_status (status_code r); j ← json r; item "state" j.

Definition completed (r : Response) : Prop :=
  exists v, poll_state r = Ok v /\ str_eq v "COMPLETED" = true.

Definition pending (r : Response) : Prop :=
  exists v, poll_state r = Ok v /\ str_eq v "COMPLETED" = false.

Definition is_timeout (r : result unit) : Prop :=
  exists msg, r = Raise (InrixTimeout msg).

(** The [k]-th status poll of a wait that starts in the world [w0]: the
    answer and the seconds it takes to come. *)
Definition poll_response (net : network) (access_token report_id : value)
    (w0 : World) (k : nat) : Response :=
  fst (net (sent w0 + k)%nat (status_request access_token report_id)).

Definition poll_latency (net : network) (access_token report_id : value)
    (w0 : World) (k : nat) : Q :=
  snd (net (sent w0 + k)%nat (status_request access_token report_id)).

(** The latencies of the exchanges 0..k, summed. *)
Fixpoint latency_sum (lat : nat -> Q) (k : nat) : Q :=
  match k with
  | O => lat O
  | S k' => (latency_sum lat k' + lat k)%Q
  end.

(** The elapsed time the loop compares with the ceiling after poll [k]:
    nothing before the first sleep, then the sleeps and the polls so far. *)
Definition elapsed_at (lat : nat -> Q) (k : nat) : Q :=
  match k with
  | O => 0
  | S _ => (inject_Z (Z.of_nat k) * check_interval + latency_sum lat k)%Q
  end.

(** The clock when poll [k] has been answered. *)
Fixpoint clock (lat : nat -> Q) (w0 : World) (k : nat) : Q :=
  match k with
  | O => (now w0 + lat O)%Q
  | S k' => (clock lat w0 k' + check_interval + lat k)%Q
  end.

(** How a wait ends: at some poll [K], all polls before it pending and
    under the ceiling, with a completed report, a timeout or the
    exception of that poll. *)
Definition wait_outcome (resp : nat -> Response) (lat : nat -> Q)
    (w0 w' : World) (r : result unit) : Prop :=
  exists K, sent w' = S (sent w0 + K) /\ now w' = clock lat w0 K
    /\ (forall j, (j < K)%nat ->
          pending (resp j) /\ (elapsed_at lat j < max_wait)%Q)
    /\ ((completed (resp K) /\ r = Ok tt)
        \/ (pending (resp K) /\ (max_wait <= elapsed_at lat K)%Q /\ is_timeout r)
        \/ (exists e, poll_state (resp K) = Raise e /\ r = Raise e)).

(** A status source that says PENDING for ever, at once. *)
Definition pending_forever : network :=
  fun _ _ => ({| status_code := 200;
                 json_body := Some (VDict [("state", VStr "PENDING")]);
                 content := "" |}, 0%Q).

(** A server that does its part up to the download, which it answers with
    an error page. *)
Definition failing_download : network :=
  fun n _ =>
    (match n with
     | 0%nat => {| status_code := 200;
                   json_body := Some (VDict [("result", VDict [("accessToken",
                                  VDict [("token", VStr "t0k3n")])])]);
                   content := "" |}
     | 1%nat => {| status_code := 200;
                   json_body := Some (VDict [("reportId", VStr "r1")]);
                   content := "" |}
     | 2%nat => {| status_code := 200;
                   json_body := Some (VDict [("state", VStr "COMPLETED")]);
                   content := "" |}
     | 3%nat => {| status_code := 200;
                   json_body := Some (VDict [("urls",
                                  VList [VStr "https://files.example/r1.zip"])]);
                   content := "" |}
     | _ => {| status_code := 500; json_body := None;
               content := "<html>Internal Server Error</html>" |}
     end, 1%Q).

Definition epoch : World := {| now := 0; sent := 0 |}.

End InrixApiSpec.

(** ** Rate-limit retries *)

Module SwiftlyApiSpec.
Import Py Http SwiftlyApi.

(** The request [make_api_call] sends, again and again. *)
Definition api_request (api_key : value) (url : string)
    (params : list (string * value)) : Request :=
  get [inl url] [("Authorization", [inr api_key])] params.

(** The [k]-th attempt of a call that starts in the world [w0]. *)
Definition attempt_response (net : network) (rq : Request) (w0 : World)
    (k : nat) : Response :=
  fst (net (sent w0 + k)%nat rq).

Definition attempt_latency (net : network) (rq : Request) (w0 : World)
    (k : nat) : Q :=
  snd (net (sent w0 + k)%nat rq).

(** The clock when attempt [k] is sent: every earlier attempt was
    answered and followed by a sleep of 1000 seconds. *)
Fixpoint sent_at (lat : nat -> Q) (w0 : World) (k : nat) : Q :=
  match k with
  | O => now w0
  | S k' => (sent_at lat w0 k' + lat k' + 1000)%Q
  end.

(** The exception a status other than 200 and 429 is surfaced as. *)
Definition surfaced (status : Z) : exn :=
  if (400 <=? status) && (status <? 600) then HTTPError status
  else ValueError ("Unhandeled response status code: " +:+ pretty status).

(** How the retry loop ends: at attempt [K] (the tenth at the latest),
    all attempts before it answered 429. *)
Definition loop_outcome (resp : nat -> Response) (lat : nat -> Q)
    (w0 w' : World) (r : result Response) : Prop :=
  exists K, (K < 10)%nat /\ sent w' = S (sent w0 + K)
    /\ now w' = (sent_at lat w0 K + lat K)%Q
    /\ (forall j, (j < K)%nat -> status_code (resp j) = 429)
    /\ ((status_code (resp K) = 200 /\ r = Ok (resp K))
        \/ (status_code (resp K) = 429 /\ K = 9%nat /\ r = Raise (HTTPError 429))
        \/ (status_code (resp K) <> 200 /\ status_code (resp K) <> 429
            /\ r = Raise (surfaced (status_code (resp K))))).

(** A server that is always over its limit. *)
Definition always_429 : network :=
  fun _ _ => ({| status_code := 429; json_body := None; content := "" |}, 0%Q).

End SwiftlyApiSpec.

(** ** GeoJSON reshaping *)

Module SwiftlyDataproSpec.
Import Py SwiftlyDatapro.

(** One segment of a speed map, as the API returns it. *)
Definition segment_0 : list (string * value) :=
  [ ("fromStop", VStr "A"); ("toStop", VStr "B"); ("speed", VFloat (25 # 2));
    ("pathLocs", VList
       [ VDict [("lat", VFloat (3777 # 100)); ("lon", VFloat (-12241 # 100))];
         VDict [("lat", VFloat (3778 # 100)); ("lon", VFloat (-12242 # 100))] ]) ].

Definition heap_0 : heap := {[ 1%positive := segment_0 ]}.

End SwiftlyDataproSpec.

(** ** Corridor aggregation and archive loading *)

Module InrixDataproSpec.
Import Py InrixDatapro.

(** The group of an output row. *)
Definition long_key (r : LongRow) : Key :=
  (l_Corridor r, l_Date r, l_Time_Interval r).

(** The last element of a list that passes a test. *)
Fixpoint find_last {A} (p : A -> bool) (l : list A) : option A :=
  match l with
  | [] => None
  | x :: l' =>
      match find_last p l' with
      | Some y => Some y
      | None => if p x then Some x else None
      end
  end.

(** The corridor definition of a name in the report contents; of two
    definitions with one name the later one counts. *)
Definition configured (rc : ReportContents) (corridor_name : string)
    : option Corridor :=
  find_last (fun c => String.eqb corridor_name (name c)) (corridors rc).

(** The configured segment count of a corridor. *)
Definition configured_count (rc : ReportContents) (corridor_name : string)
    : option Z :=
  option_map (fun c => Z.of_nat (length (xdSegIds c))) (configured rc corridor_name).

(** The segment observations that contribute to a group: its rows with a
    travel time. *)
Definition observed_count (data_formatted : list FormattedRow) (g : Key) : Z :=
  Z.of_nat (length (filter (fun r => gb_cols r = g ∧ is_Some (f_Travel_Time r))
                           data_formatted)).

(** The length of a corridor: the lengths of the metadata rows of its
    member segments, summed. *)
Definition corridor_length (metadata : list MetaRow) (c : Corridor) : Q :=
  sum_skipna_Q (map Segment_Length_Miles
                    (filter (fun m => meta_Segment_ID m ∈ xdSegIds c) metadata)).

(** The length of one segment, looked up in the metadata: 0 for a segment
    that is not there or has no length. *)
Definition segment_length (metadata : list MetaRow) (s : Z) : Q :=
  match List.find (fun m => meta_Segment_ID m =? s) metadata with
  | Some m => default 0%Q (Segment_Length_Miles m)
  | None => 0%Q
  end.

Definition sum_Q (xs : list Q) : Q := fold_right Qplus 0%Q xs.

(** The travel time of a group, summed over its rows. *)
Definition total_travel_time (data_formatted : list FormattedRow) (g : Key) : Q :=
  sum_skipna_Q (map f_Travel_Time (filter (fun r => gb_cols r = g) data_formatted)).

(** The row of a group after [groupby(...).sum()]. *)
Definition summed (data_formatted : list FormattedRow) (k : Key) : AggRow :=
  let g := filter (fun r => gb_cols r = k) data_formatted in
  {| Segment_ID_sum := fold_right Z.add 0 (map f_Segment_ID g);
     Travel_Time := sum_skipna_Q (map f_Travel_Time g);
     Corridor_Length := None; Segment_Count := None; Speed := None |}.

(** What one turn of the corridor loop does to the row of group [k]. *)
Definition annotate_step (metadata : list MetaRow) (k : Key) (r : AggRow)
    (c : Corridor) : AggRow :=
  if String.eqb (corridor_of k) (name c)
  then set_Segment_Count (Z.of_nat (length (xdSegIds c)))
         (set_Corridor_Length (corridor_length metadata c) r)
  else r.

(** What the whole loop does to it. *)
Definition annotate (metadata : list MetaRow) (cs : list Corridor) (k : Key)
    (r : AggRow) : AggRow :=
  fold_left (annotate_step metadata k) cs r.

(** The synthetic archive: a corridor of two segments, 1.0 and 2.0 miles
    long; both report 3.0 minutes at 08:15, only the first at 08:30. *)
Definition observation (date_time : string) (segment : Z) (minutes : Q) : DataRow :=
  {| Date_Time := date_time; Corridor_Region_Name := "I-80 E";
     Segment_ID := segment; Travel_Time_Minutes := Some minutes |}.

Definition synthetic : CorridorReportZip :=
  {| ra_zip := None;
     data := Some [ observation "2021-03-02T08:15:00-08:00" 101 3;
                    observation "2021-03-02T08:15:00-08:00" 102 3;
                    observation "2021-03-02T08:30:00-08:00" 101 3 ];
     metadata := Some [ {| meta_Segment_ID := 101; Segment_Length_Miles := Some 1%Q |};
                        {| meta_Segment_ID := 102; Segment_Length_Miles := Some 2%Q |} ];
     report_contents := Some
       {| corridors := [ {| name := "I-80 E"; direction := "E";
                            xdSegIds := [101; 102] |} ] |} |}.

(** All three tables are in the holder; none of them is. *)
Definition loaded (self : CorridorReportZip) : Prop :=
  is_Some (data self) /\ is_Some (metadata self)
  /\ is_Some (report_contents self).

Definition unloaded (self : CorridorReportZip) : Prop :=
  data self = None /\ metadata self = None /\ report_contents self = None.

(** A file that no reader can read. *)
Definition unreadable : Member :=
  {| as_data := Raise (ParserError "data");
     as_metadata := Raise (ParserError "metadata");
     as_report_contents := Raise (ValueError "Expecting value") |}.

(** An archive with its data.csv but no metadata.csv. *)
Definition archive_without_metadata : Archive :=
  [ ("report/", unreadable);
    ("report/data.csv",
     {| as_data := Ok [observation "2021-03-02T08:15:00-08:00" 101 3];
        as_metadata := Raise (ParserError "metadata");
        as_report_contents := Raise (ValueError "Expecting value") |}) ].

Definition no_files : FileSystem := fun _ => None.

(** The formatted rows, the corridor list and the long output of the
    synthetic archive. *)
Definition synthetic_formatted : list FormattedRow :=
  Eval vm_compute in
    match get_format_data_for_agg synthetic with Ok df => df | Raise _ => [] end.

Definition synthetic_contents : ReportContents :=
  {| corridors := [ {| name := "I-80 E"; direction := "E";
                       xdSegIds := [101; 102] |} ] |}.

Definition synthetic_metadata : list MetaRow :=
  [ {| meta_Segment_ID := 101; Segment_Length_Miles := Some 1%Q |};
    {| meta_Segment_ID := 102; Segment_Length_Miles := Some 2%Q |} ].

Definition synthetic_long : list LongRow :=
  Eval vm_compute in
    match snd (segments_to_corridor synthetic "long" None None None) with
    | Ok (Long rows) => rows
    | _ => []
    end.

End InrixDataproSpec.

(** ** Further code: workbooks, archives on disk, features *)

(** ** dpdutils/bata.py: the workbook and the multi-bridge variant *)

Module BataWorkbook.
Import Py Bata.

(** [str.upper] on a name written in ASCII: a to z become A to Z.
    Python's [str.upper] also changes letters outside ASCII, a few of them
    into ASCII letters; the properties are about names in ASCII. *)
Definition upper_ascii (c : ascii) : ascii :=
  let n := nat_of_ascii c in
  if ((97 <=? n) && (n <=? 122))%nat then ascii_of_nat (n - 32) else c.

Fixpoint upper (s : string) : string :=
  match s with
  | EmptyString => EmptyString
  | String c s' => String (upper_ascii c) (upper s')
  end.

(** What [pd.read_excel(path, sheet_name=None)] gives: the sheets by name,
    each seen as rows of the columns [ctvr_to_long] reads. *)
Definition Workbook : Type := list (string * list SheetRow).

(** The files on disk, by path. *)
Definition Files : Type := string -> option Workbook.

Definition read_excel (files : Files) (in_path : string) : result Workbook :=
  match files in_path with
  | Some sheets => Ok sheets
  | None => Raise (FileNotFoundError in_path)
  end.

(** [{k.upper(): v for k, v in sheets.items()}]: of two sheets with one
    upper-case name the later one stays. *)
Definition upper_keys (sheets : Workbook) : Workbook :=
  fold_left (fun acc kv => dict_set (upper (fst kv)) (snd kv) acc) sheets [].

(** [ctvr_to_long], from the file on. *)
Definition ctvr_to_long_file (files : Files) (in_dir in_fn : string)
    (out_dir out_fn : option string) (sum_lanes sum_hours : bool)
    : result Output :=
  let in_path := in_dir +:+ in_fn in
  sheets ← read_excel files in_path;
  let sheets := upper_keys sheets in
  data ← dict_item "DAILY BY HOUR BY LANE" sheets;
  ctvr_to_long data out_dir out_fn sum_lanes sum_hours.

(** A row of any of the four tables. *)
Inductive Row :=
| HourLaneRow (timestamp lane : Z) (volume : option Z)
| HourRow (timestamp volume : Z)
| DayLaneRow (date lane volume : Z)
| DayRow (date volume : Z).

Definition rows_of (t : LongTable) : list Row :=
  match t with
  | ByHourLane rows => map (fun r => HourLaneRow (fst (fst r)) (snd (fst r)) (snd r)) rows
  | ByHour rows => map (fun r => HourRow (fst r) (snd r)) rows
  | ByDayLane rows => map (fun r => DayLaneRow (fst (fst r)) (snd (fst r)) (snd r)) rows
  | ByDay rows => map (fun r => DayRow (fst r) (snd r)) rows
  end.

(** A row of the combined table: the row and its Bridge Name column. *)
Record BridgeRow := {
  bridge_row : Row;
  Bridge_Name : string
}.

Record Combined := {
  result_rows : list BridgeRow;
  result_written : option (string * list BridgeRow)
}.

(** [pd.concat(bridge_dfs)] *)
Definition concat (bridge_dfs : list (list BridgeRow)) : result (list BridgeRow) :=
  match bridge_dfs with
  | [] => Raise (ValueError "No objects to concatenate")
  | _ => Ok (List.concat bridge_dfs)
  end.

(** [combine_ctvrs]; [in_fn_dict] is the dict as its items, in order. *)
Definition combine_ctvrs (files : Files) (in_dir : string)
    (in_fn_dict : list (string * string)) (out_dir out_fn : option string)
    (sum_lanes sum_hours : bool) : result Combined :=
  bridge_dfs ←
    mapM (fun item =>
            let bridge_name := fst item in
            let bridge_fn := snd item in
            cur_bridge ← ctvr_to_long_file files in_dir bridge_fn None None
                           sum_lanes sum_hours;
            Ok (map (fun r => {| bridge_row := r; Bridge_Name := bridge_name |})
                    (rows_of (table cur_bridge))))
         in_fn_dict;
  result ← concat bridge_dfs;
  Ok {| result_rows := result;
        result_written := match out_fn, out_dir with
                          | Some fn, Some dir => Some (dir +:+ fn, result)
                          | _, _ => None
                          end |}.

End BataWorkbook.

(** ** Vocabulary of the further properties: volume reshaper *)

Module BataWorkbookSpec.
Import Py Bata BataWorkbook.

(** The Volume column of a table, summed. *)
Definition total_volume (t : LongTable) : Z :=
  match t with
  | ByHourLane rows => sum_skipna_Z (map snd rows)
  | ByHour rows => fold_right Z.add 0 (map snd rows)
  | ByDayLane rows => fold_right Z.add 0 (map snd rows)
  | ByDay rows => fold_right Z.add 0 (map snd rows)
  end.

(** The vehicles counted in the dated rows of a sheet. *)
Definition sheet_volume (sheet : list SheetRow) : Z :=
  sum_skipna_Z (map mVolume (melt (dropna_Date sheet))).

(** The rows of a bridge in the combined table. *)
Definition tagged (bridge_name : string) (o : Output) : list BridgeRow :=
  map (fun r => {| bridge_row := r; Bridge_Name := bridge_name |})
      (rows_of (table o)).

(** The rows a bridge brings to the combined table; none when its file
    cannot be reshaped. *)
Definition bridge_rows (files : Files) (in_dir : string)
    (sum_lanes sum_hours : bool) (item : string * string) : list BridgeRow :=
  match ctvr_to_long_file files in_dir (snd item) None None sum_lanes sum_hours with
  | Ok o => tagged (fst item) o
  | Raise _ => []
  end.

(** The sheet [ctvr_to_long] picks from a workbook: the last one whose
    name is DAILY BY HOUR BY LANE in upper case. *)
Definition daily_sheet (sheets : Workbook) : option (list SheetRow) :=
  option_map snd
    (InrixDataproSpec.find_last
       (fun kv => String.eqb (upper (fst kv)) "DAILY BY HOUR BY LANE") sheets).

(** A workbook with the one sheet, under a name in mixed case. *)
Definition workbook_2x2 : Workbook :=
  [ ("Summary", []); ("Daily by Hour by Lane", BataSpec.sheet_2x2) ].

Definition two_bridges : Files :=
  fun p => if String.eqb p "in/bay.xls" then Some workbook_2x2
           else if String.eqb p "in/carquinez.xls" then Some workbook_2x2
           else None.

(** A name written with ASCII characters only. *)
Definition ascii_only (s : string) : bool :=
  forallb (fun c => (nat_of_ascii c <? 128)%nat) (list_ascii_of_string s).

(** The Timestamp column of a row of the unaggregated table. *)
Definition timestamp_of (x : Z * Z * option Z) : Z := fst (fst x).

(** A sheet that is no grid: two lanes on the first day, one on the
    second, and a row without a date. *)
Definition sheet_ragged : list SheetRow :=
  [ {| Date := Some 18687; Day := "Mon"; Lane_ID := 1; Hours := fun _ => Some 3 |};
    {| Date := Some 18687; Day := "Mon"; Lane_ID := 2; Hours := fun _ => None |};
    {| Date := Some 18688; Day := "Tue"; Lane_ID := 1; Hours := fun _ => Some 5 |};
    {| Date := None; Day := "Total"; Lane_ID := 0; Hours := fun _ => Some 8 |} ].

(** Two bridges and their files. *)
Definition bridges : list (string * string) :=
  [ ("Bay Bridge", "bay.xls"); ("Carquinez Bridge", "carquinez.xls") ].

End BataWorkbookSpec.

(** ** Vocabulary of the further properties: report client *)

Module InrixApiMoreSpec.
Import Py Http InrixApi InrixApiSpec.

(** The request [get_access_token] sends. *)
Definition auth_request (inrix_creds : list (string * value)) : Request :=
  post [inl "https://roadway-analytics-api.inrix.com/v1/auth"] []
       (VDict inrix_creds).

Definition good_creds : list (string * value) :=
  [("email", VStr "a@b.org"); ("password", VStr "pw")].

(** A server that rejects every request. *)
Definition unauthorized : network :=
  fun _ _ => ({| status_code := 401; json_body := None; content := "" |}, 1%Q).

(** A status source that is pending once and then out of service. *)
Definition pending_then_503 : network :=
  fun n _ =>
    (match n with
     | O => {| status_code := 200;
               json_body := Some (VDict [("state", VStr "PENDING")]);
               content := "" |}
     | _ => {| status_code := 503; json_body := None; content := "" |}
     end, 0%Q).

End InrixApiMoreSpec.

(** ** dpdutils/inrix/roadway/datapro.py: writing the archive *)

Module InrixDataproFiles.
Import Py InrixDatapro.

(** [open(out_path, "wb")], where the path can be opened: the file is
    created, or emptied; an empty file is no zip file. *)
Definition open_wb (out_path : string) (fs : FileSystem) : FileSystem :=
  fun p => if String.eqb p out_path then Some None else fs p.

(** [f.write(self.ra_zip)]: a binary file takes bytes, and the holder
    keeps a [BytesIO] or a [Path]. *)
Definition write (ra_zip : ZipRef) : result unit :=
  match ra_zip with
  | BytesIO _ =>
      Raise (TypeError "a bytes-like object is required, not '_io.BytesIO'")
  | Path _ =>
      Raise (TypeError "a bytes-like object is required, not 'PosixPath'")
  end.

(** [write_zip] *)
Definition write_zip (out_path : string) (self : CorridorReportZip)
    (fs : FileSystem) : FileSystem * result unit :=
  match ra_zip self with
  | Some ra_zip =>
      let fs := open_wb out_path fs in
      (fs, write ra_zip)
  | None => (fs, Ok tt)
  end.

End InrixDataproFiles.

Module InrixDataproFilesSpec.
Import Py InrixDatapro InrixDataproSpec.

(** The bytes behind the argument of [read_zip], and what the holder
    keeps of the argument. *)
Definition bytes_of (fs : FileSystem) (ra_zip : ZipArg) : option Bytes :=
  match ra_zip with
  | ArgBytes b => Some b
  | ArgPath p => fs p
  end.

Definition ref_of (ra_zip : ZipArg) : ZipRef :=
  match ra_zip with
  | ArgBytes b => BytesIO b
  | ArgPath p => Path p
  end.

(** The table of an archive: the file of that name below the root, read
    by one of the readers. *)
Definition table {A} (read : Member -> result A) (file : string) (z : Archive)
    : result A :=
  zip_root ← zip_root z;
  m ← zip_open (zip_root +:+ file) z;
  read m.

(** The holder with the tables replaced. *)
Definition holding (ra_zip : ZipRef) (df : list DataRow) (md : list MetaRow)
    (rc : ReportContents) : CorridorReportZip :=
  {| ra_zip := Some ra_zip; data := Some df; metadata := Some md;
     report_contents := Some rc |}.

(** How a failed step of [read_zip] ends: a FileNotFoundError is turned
    into the return of False, any other exception is raised. *)
Definition failed (e : exn) : result (option bool) :=
  match e with
  | FileNotFoundError _ => Ok (Some false)
  | _ => Raise e
  end.

(** The holder with another archive reference, tables as they are. *)
Definition pointing (ra_zip : ZipRef) (self : CorridorReportZip)
    : CorridorReportZip :=
  {| ra_zip := Some ra_zip; data := data self; metadata := metadata self;
     report_contents := report_contents self |}.

(** The synthetic archive as a zip file. *)
Definition synthetic_archive : Archive :=
  [ ("report/", unreadable);
    ("report/data.csv",
     {| as_data := Ok [ observation "2021-03-02T08:15:00-08:00" 101 3;
                        observation "2021-03-02T08:15:00-08:00" 102 3 ];
        as_metadata := Raise (ParserError "metadata");
        as_report_contents := Raise (ValueError "Expecting value") |});
    ("report/metadata.csv",
     {| as_data := Raise (ParserError "data");
        as_metadata := Ok synthetic_metadata;
        as_report_contents := Raise (ValueError "Expecting value") |});
    ("report/reportContents.json",
     {| as_data := Raise (ParserError "data");
        as_metadata := Raise (ParserError "metadata");
        as_report_contents := Ok synthetic_contents |}) ].

(** An archive that lists its data file first, with no entry for the
    folder. *)
Definition archive_without_folder : Archive := tl synthetic_archive.

(** A file whose readers find no file. *)
Definition vanished : Member :=
  {| as_data := Raise (FileNotFoundError "data.csv");
     as_metadata := Raise (FileNotFoundError "metadata.csv");
     as_report_contents := Raise (FileNotFoundError "reportContents.json") |}.

Definition archive_vanished : Archive :=
  [ ("report/", unreadable); ("report/data.csv", vanished) ].

Definition one_file (p : string) (b : Bytes) : FileSystem :=
  fun q => if String.eqb q p then Some b else None.

(** The rows of the data table with their parsed local time. *)
Definition parsed (r : DataRow) : result (Timestamp * DataRow) :=
  ts ← to_datetime (strip_offset (Date_Time r)); Ok (ts, r).

Definition dedup_key (x : Timestamp * DataRow) : Timestamp * Z :=
  (fst x, Segment_ID (snd x)).

Definition formatted (x : Timestamp * DataRow) : FormattedRow :=
  {| f_Corridor := Corridor_Region_Name (snd x);
     f_Date := date_str (fst x);
     f_Time_Interval := substring 0 5 (time_str (fst x));
     f_Segment_ID := Segment_ID (snd x);
     f_Travel_Time := Travel_Time_Minutes (snd x) |}.

(** The first element of a list that passes a test. *)
Definition first_with {A K} `{EqDecision K} (key : A -> K) (k : K) (l : list A)
    : option A :=
  List.find (fun y => bool_decide (key y = k)) l.

(** The night the clocks go back: 01:00 comes twice, with two offsets. *)
Definition fall_back : CorridorReportZip :=
  {| ra_zip := None;
     data := Some [ observation "2021-11-07T01:00:00-07:00" 101 3;
                    observation "2021-11-07T01:00:00-08:00" 101 4;
                    observation "2021-11-07T02:00:00-08:00" 101 5 ];
     metadata := None; report_contents := None |}.

(** A number of four digits, or of two, reads back as itself when it is
    written with [pad]. *)
Definition reads_back_4 (n : Z) : bool :=
  match pad 4 n with
  | String _ (String _ (String _ (String _ EmptyString))) =>
      bool_decide (number (pad 4 n) = Some n)
  | _ => false
  end.

Definition reads_back_2 (n : Z) : bool :=
  match pad 2 n with
  | String _ (String _ EmptyString) => bool_decide (number (pad 2 n) = Some n)
  | _ => false
  end.

(** The corridor of the synthetic archive. *)
Definition synthetic_corridor : Corridor :=
  {| name := "I-80 E"; direction := "E"; xdSegIds := [101; 102] |}.

End InrixDataproFilesSpec.

(** ** The features of a speed map *)

Module SwiftlyDataproFeaturesSpec.
Import Py SwiftlyDatapro SwiftlyDataproSpec.

(** The properties of the feature at position [i], from the entries of
    the segment. *)
Definition properties_of (i : Z) (d : list (string * value))
    : list (string * value) :=
  dict_remove "pathLocs"
    (dict_set "order" (VInt i)
       (dict_remove "toStop" (dict_remove "fromStop" d))).

(** A segment the loop can work on: it has its two stops, and a path of
    points with a longitude and a latitude each. *)
Definition segment_ok (d : list (string * value)) : Prop :=
  dict_in "fromStop" d = true /\ dict_in "toStop" d = true
  /\ exists pathLocs coords,
       dict_get "pathLocs" d = Some pathLocs /\ coords_of pathLocs = Ok coords.

(** The feature [f] is the one of segment [d] at position [i], on the
    heap [h]. *)
Definition feature_of (h : heap) (i : Z) (d : list (string * value))
    (f : Feature) : Prop :=
  f_type f = "Feature" /\ g_type (geometry f) = "LineString"
  /\ (exists pathLocs,
        dict_get "pathLocs" d = Some pathLocs
        /\ coords_of pathLocs = Ok (coordinates (geometry f)))
  /\ h !! properties f = Some (properties_of i d).

(** Every dict of the heap has each key once. *)
Definition dicts (h : heap) : Prop :=
  forall l d, h !! l = Some d -> NoDup (map fst d).

Definition raises {A} (r : result A) : Prop :=
  match r with
  | Raise _ => True
  | Ok _ => False
  end.

Definition segment_1 : list (string * value) :=
  [ ("fromStop", VStr "B"); ("toStop", VStr "C"); ("speed", VFloat (30 # 1));
    ("pathLocs", VList
       [ VDict [("lat", VFloat (3778 # 100)); ("lon", VFloat (-12242 # 100))] ]) ].

Definition heap_1 : heap := <[ 2%positive := segment_1 ]> heap_0.

End SwiftlyDataproFeaturesSpec.

(* ===================================================================== *)
(** * Part II: properties                                                *)
(* ===================================================================== *)

(** ** Lists *)

(** [NoDup] of a list of integer literals. *)
Ltac nodup_Z :=
  repeat (constructor;
          [let H := fresh in
           intros H%list_elem_of_In; simpl in H; intuition lia |]);
  constructor.

Section ListFacts.
Context {A B : Type}.

Lemma mapM_total (f : A -> Py.result B) (g : A -> B) (l : list A) :
  (forall x, In x l -> f x = Py.Ok (g x)) -> Py.mapM f l = Py.Ok (map g l).
Proof.
  induction l as [|x l IH]; intros Hf; simpl; [reflexivity|].
  rewrite (Hf x (or_introl eq_refl)). simpl.
  rewrite IH; [reflexivity|]. intros y Hy. apply Hf. now right.
Qed.

Lemma NoDup_list_prod (l : list A) (k : list B) :
  NoDup l -> NoDup k -> NoDup (list_prod l k).
Proof.
  intros Hl Hk. induction Hl as [|x l Hx Hl IH]; simpl; [constructor|].
  apply NoDup_app. split; [|split; [|exact IH]].
  - apply (NoDup_fmap_2 (pair x)) in Hk.
    replace (map (pair x) k) with (pair x <$> k); [exact Hk|].
    clear. induction k; simpl; f_equal; auto.
  - intros [a b] Hin Hin'. apply list_elem_of_In, in_map_iff in Hin.
    destruct Hin as (y & [= <- <-] & _).
    apply list_elem_of_In, in_prod_iff in Hin'. destruct Hin' as [Hin' _].
    apply Hx. now apply list_elem_of_In.
Qed.

Lemma nonempty_inhabited (l : list A) : l <> [] -> exists x, In x l.
Proof. destruct l as [|x l]; [congruence | exists x; now left]. Qed.

Lemma length_remove_dups_same `{EqDecision A} (l k : list A) :
  NoDup k -> (forall x, x ∈ l <-> x ∈ k) ->
  length (remove_dups l) = length k.
Proof.
  intros Hk Hiff. apply Permutation_length, NoDup_Permutation.
  - apply NoDup_remove_dups.
  - exact Hk.
  - intros x. rewrite elem_of_remove_dups. apply Hiff.
Qed.

End ListFacts.

(** ** Volume reshaper: timestamps *)

Section BataTimestamps.
Import Py Bata.

Lemma time_cols_seconds (i : nat) (h : string) :
  time_cols !! i = Some h ->
  parse_hhmmss (substring 0 4 h +:+ "01") = Some (3600 * Z.of_nat i + 1)
  /\ (i < 24)%nat.
Proof.
  do 24 (destruct i as [|i];
         [intros [= <-]; split; [vm_compute; reflexivity | lia] |]).
  intros [=].
Qed.

Lemma Timestamp_at (r : MeltRow) (d : Z) (i : nat) :
  mDate r = Some d -> time_cols !! i = Some (mHour r) ->
  Timestamp r = Ok (d * 86400 + (3600 * Z.of_nat i + 1)).
Proof.
  intros Hd Hi. unfold Timestamp, to_datetime.
  destruct (time_cols_seconds _ _ Hi) as [-> _]. now rewrite Hd.
Qed.

Lemma dt_date_at (d s : Z) : 0 <= s < 86400 -> dt_date (d * 86400 + s) = d.
Proof.
  intros Hs. unfold dt_date. symmetry. apply Z.div_unique with (r := s); lia.
Qed.

(** The Volume column is there when the sheet has a dated row. *)
Lemma Volume_column_of_rows {K} (sheet : list SheetRow) (sums : list (K * Z)) :
  dropna_Date sheet <> [] -> Volume_column sheet sums = Ok sums.
Proof. destruct sheet; [intros H; now destruct H | reflexivity]. Qed.

End BataTimestamps.

(** ** Volume reshaper: row counts *)

Section RowCounts.
Import Py Bata BataSpec.

Variable sheet : list SheetRow.
Variables days lanes : list Z.
Hypothesis days_distinct : NoDup days.
Hypothesis lanes_distinct : NoDup lanes.
Hypothesis some_lane : lanes <> [].
Hypothesis some_day : days <> [].
Hypothesis every_lane_every_day :
  map (fun r => (Date r, Lane_ID r)) (dropna_Date sheet)
  ≡ₚ map (fun dl => (Some (fst dl), snd dl)) (list_prod days lanes).

Local Abbreviation rows := (dropna_Date sheet).

Local Lemma row_day_lane r0 :
  In r0 rows -> exists d, Date r0 = Some d /\ In d days /\ In (Lane_ID r0) lanes.
Proof.
  intros Hin.
  assert (In (Date r0, Lane_ID r0)
             (map (fun r => (Date r, Lane_ID r)) rows)) as Hk
    by (apply in_map_iff; eauto).
  apply list_elem_of_In in Hk. rewrite every_lane_every_day in Hk.
  apply list_elem_of_In, in_map_iff in Hk.
  destruct Hk as ([d l] & [= Hd Hl] & Hdl). apply in_prod_iff in Hdl.
  simpl in *. exists d. rewrite <- Hl. now rewrite Hd.
Qed.

Local Lemma day_lane_row d l :
  In d days -> In l lanes ->
  exists r0, In r0 rows /\ Date r0 = Some d /\ Lane_ID r0 = l.
Proof.
  intros Hd Hl.
  assert (In (Some d, l)
             (map (fun dl : Z * Z => (Some (fst dl), snd dl)) (list_prod days lanes)))
    as Hk by (apply in_map_iff; exists (d, l); split; [easy | now apply in_prod_iff]).
  apply list_elem_of_In in Hk. rewrite <- every_lane_every_day in Hk.
  apply list_elem_of_In, in_map_iff in Hk.
  destruct Hk as (r0 & [= Hd0 Hl0] & Hin). eauto.
Qed.

Local Lemma length_rows : length rows = (length days * length lanes)%nat.
Proof.
  rewrite <- length_prod.
  rewrite <- (length_map (fun dl : Z * Z => (Some (fst dl), snd dl))).
  rewrite <- (Permutation_length every_lane_every_day). now rewrite length_map.
Qed.

Local Lemma in_melt r :
  In r (melt rows) <->
  exists r0 i h, In r0 rows /\ time_cols !! i = Some h /\ r = cell r0 h.
Proof.
  unfold melt. rewrite in_flat_map. split.
  - intros (h & Hh & Hr). apply in_map_iff in Hr. destruct Hr as (r0 & <- & Hr0).
    apply list_elem_of_In, list_elem_of_lookup in Hh. destruct Hh as [i Hi].
    now exists r0, i, h.
  - intros (r0 & i & h & Hr0 & Hi & ->). exists h. split.
    + apply list_elem_of_In. eapply list_elem_of_lookup_2, Hi.
    + apply in_map_iff. now exists r0.
Qed.

Local Lemma stamp_cell r0 i h d :
  Date r0 = Some d -> time_cols !! i = Some h ->
  Timestamp (cell r0 h) = Ok (d * 86400 + (3600 * Z.of_nat i + 1))
  /\ stamp (cell r0 h) = d * 86400 + (3600 * Z.of_nat i + 1)
  /\ (i < 24)%nat.
Proof.
  intros Hd Hi. unfold stamp.
  rewrite (Timestamp_at (cell r0 h) d i Hd Hi).
  destruct (time_cols_seconds _ _ Hi). auto.
Qed.

Local Lemma timestamps_total :
  mapM (fun r => ts ← Timestamp r; Ok (ts, r)) (melt rows) = Ok (stamped rows).
Proof.
  apply mapM_total. intros r Hr. apply in_melt in Hr.
  destruct Hr as (r0 & i & h & Hr0 & Hi & ->).
  destruct (row_day_lane _ Hr0) as (d & Hd & _).
  destruct (stamp_cell r0 i h d Hd Hi) as (HT & Hs & _).
  rewrite Hs, HT. reflexivity.
Qed.

Local Lemma in_stamped x :
  In x (stamped rows) <->
  exists r0 i h d, In r0 rows /\ time_cols !! i = Some h /\ Date r0 = Some d
    /\ In d days /\ In (Lane_ID r0) lanes /\ (i < 24)%nat
    /\ x = (d * 86400 + (3600 * Z.of_nat i + 1), cell r0 h).
Proof.
  unfold stamped. rewrite in_map_iff. split.
  - intros (r & <- & Hr). apply in_melt in Hr.
    destruct Hr as (r0 & i & h & Hr0 & Hi & ->).
    destruct (row_day_lane _ Hr0) as (d & Hd & Hdd & Hl).
    destruct (stamp_cell r0 i h d Hd Hi) as (_ & Hs & Hlt).
    exists r0, i, h, d. rewrite Hs. auto 10.
  - intros (r0 & i & h & d & Hr0 & Hi & Hd & _ & _ & _ & ->).
    exists (cell r0 h). destruct (stamp_cell r0 i h d Hd Hi) as (_ & Hs & _).
    rewrite Hs. split; [reflexivity|]. apply in_melt. now exists r0, i, h.
Qed.

Local Lemma length_melt : length (melt rows) = (24 * length rows)%nat.
Proof.
  unfold melt, time_cols. simpl. rewrite !length_app, !length_map. simpl. lia.
Qed.

Local Lemma day_of_stamp d i :
  (i < 24)%nat -> dt_date (d * 86400 + (3600 * Z.of_nat i + 1)) = d.
Proof. intros Hi. apply dt_date_at. lia. Qed.

(** One group per (day, hour). *)
Local Lemma hour_keys :
  length (remove_dups (map (fun x : Z * MeltRow => fst x) (stamped rows)))
  = (24 * length days)%nat.
Proof.
  rewrite (length_remove_dups_same _
    ((fun p : Z * nat => fst p * 86400 + (3600 * Z.of_nat (snd p) + 1))
       <$> list_prod days (seq 0 24))).
  - rewrite length_fmap, length_prod, length_seq. lia.
  - apply NoDup_fmap_2_strong.
    + intros [d i] [d' j] Hp Hq Heq.
      apply list_elem_of_In, in_prod_iff in Hp. destruct Hp as [_ Hi%in_seq].
      apply list_elem_of_In, in_prod_iff in Hq. destruct Hq as [_ Hj%in_seq].
      simpl in *. f_equal; lia.
    + apply NoDup_list_prod; [assumption | apply NoDup_seq].
  - intros t. rewrite list_elem_of_In, in_map_iff, list_elem_of_fmap. split.
    + intros (x & <- & Hx). apply in_stamped in Hx.
      destruct Hx as (r0 & i & h & d & _ & _ & _ & Hd & _ & Hi & ->).
      exists (d, i). split; [reflexivity|].
      apply list_elem_of_In, in_prod_iff. split; [assumption|]. apply in_seq. lia.
    + intros ([d i] & -> & Hp). apply list_elem_of_In, in_prod_iff in Hp.
      destruct Hp as [Hd Hi%in_seq]. simpl in *.
      destruct (nonempty_inhabited lanes some_lane) as [l Hl].
      destruct (day_lane_row d l Hd Hl) as (r0 & Hr0 & Hd0 & Hl0).
      destruct (lookup_lt_is_Some_2 time_cols i) as [h Hh]; [simpl; lia|].
      exists (d * 86400 + (3600 * Z.of_nat i + 1), cell r0 h).
      split; [reflexivity|]. apply in_stamped.
      exists r0, i, h, d. rewrite Hl0. repeat split; auto; lia.
Qed.

(** One group per (day, lane). *)
Local Lemma day_lane_keys :
  length (remove_dups
            (map (fun x : Z * MeltRow => (dt_date (fst x), mLane (snd x)))
                 (stamped rows)))
  = (length lanes * length days)%nat.
Proof.
  rewrite (length_remove_dups_same _ (list_prod days lanes)).
  - rewrite length_prod. lia.
  - now apply NoDup_list_prod.
  - intros [d l]. rewrite !list_elem_of_In, in_map_iff, in_prod_iff. split.
    + intros (x & [= <- <-] & Hx). apply in_stamped in Hx.
      destruct Hx as (r0 & i & h & d & _ & _ & _ & Hd & Hl & Hi & ->).
      simpl. now rewrite day_of_stamp.
    + intros [Hd Hl].
      destruct (day_lane_row d l Hd Hl) as (r0 & Hr0 & Hd0 & Hl0).
      exists (d * 86400 + (3600 * Z.of_nat 0 + 1), cell r0 "0000-0100").
      split; [simpl; rewrite (day_of_stamp d 0); [now rewrite Hl0 | lia]|].
      apply in_stamped. exists r0, 0%nat, "0000-0100", d.
      rewrite Hl0. repeat split; auto; lia.
Qed.

(** One group per day. *)
Local Lemma day_keys :
  length (remove_dups
            (map (fun x : Z * MeltRow => dt_date (fst x)) (stamped rows)))
  = length days.
Proof.
  apply length_remove_dups_same; [assumption|].
  intros d. rewrite !list_elem_of_In, in_map_iff. split.
  - intros (x & <- & Hx). apply in_stamped in Hx.
    destruct Hx as (r0 & i & h & d' & _ & _ & _ & Hd & _ & Hi & ->).
    simpl. now rewrite day_of_stamp.
  - intros Hd. destruct (nonempty_inhabited lanes some_lane) as [l Hl].
    destruct (day_lane_row d l Hd Hl) as (r0 & Hr0 & Hd0 & Hl0).
    exists (d * 86400 + (3600 * Z.of_nat 0 + 1), cell r0 "0000-0100").
    split; [simpl; apply (day_of_stamp d 0); lia|].
    apply in_stamped. exists r0, 0%nat, "0000-0100", d.
    rewrite Hl0. repeat split; auto; lia.
Qed.

Local Lemma some_row : rows <> [].
Proof.
  intros H. apply (f_equal (@length _)) in H. rewrite length_rows in H.
  destruct days, lanes; [now destruct some_day.. | discriminate H].
Qed.

(** C4.  A sheet whose dated rows are exactly one row for each of L lanes
    on each of D days, with at least one lane and one day, gives 24*L*D
    rows unaggregated, 24*D rows with sum_lanes, L*D rows with sum_hours
    and D rows with both. *)
Theorem ctvr_to_long_row_counts (out_dir out_fn : option string) :
  let L := length lanes in
  let D := length days in
  (exists o, ctvr_to_long sheet out_dir out_fn false false = Ok o
             /\ nrows (table o) = (24 * L * D)%nat)
  /\ (exists o, ctvr_to_long sheet out_dir out_fn true false = Ok o
                /\ nrows (table o) = (24 * D)%nat)
  /\ (exists o, ctvr_to_long sheet out_dir out_fn false true = Ok o
                /\ nrows (table o) = (L * D)%nat)
  /\ (exists o, ctvr_to_long sheet out_dir out_fn true true = Ok o
                /\ nrows (table o) = D).
Proof.
  intros L D. unfold ctvr_to_long. rewrite timestamps_total.
  cbn [negb andb mbind result_bind Py.bind].
  rewrite !(Volume_column_of_rows sheet _ some_row).
  repeat split; (eexists; split; [reflexivity|]); simpl.
  - unfold stamped. rewrite !length_map, length_melt, length_rows. subst L D. lia.
  - unfold groupby_sum. rewrite length_map. apply hour_keys.
  - unfold groupby_sum. rewrite !length_map. apply day_lane_keys.
  - unfold groupby_sum. rewrite length_map. apply day_keys.
Qed.

End RowCounts.

(** The sheet of two days and two lanes: 96, 48, 4 and 2 rows. *)
Lemma ctvr_to_long_row_counts_witness :
  NoDup [18687; 18688] /\ NoDup [1; 2] /\ [1; 2] <> [] /\ [18687; 18688] <> []
  /\ (exists o, Bata.ctvr_to_long BataSpec.sheet_2x2 None None false false
                = Py.Ok o /\ Bata.nrows (Bata.table o) = 96%nat)
  /\ (exists o, Bata.ctvr_to_long BataSpec.sheet_2x2 None None true false
                = Py.Ok o /\ Bata.nrows (Bata.table o) = 48%nat)
  /\ (exists o, Bata.ctvr_to_long BataSpec.sheet_2x2 None None false true
                = Py.Ok o /\ Bata.nrows (Bata.table o) = 4%nat)
  /\ (exists o, Bata.ctvr_to_long BataSpec.sheet_2x2 None None true true
                = Py.Ok o /\ Bata.nrows (Bata.table o) = 2%nat).
Proof.
  assert (NoDup [18687; 18688]) as Hd
    by nodup_Z.
  assert (NoDup [1; 2]) as Hl
    by nodup_Z.
  assert ([1; 2] <> @nil Z) as Hne by discriminate.
  assert ([18687; 18688] <> @nil Z) as Hne' by discriminate.
  split; [exact Hd|]. split; [exact Hl|]. split; [exact Hne|].
  split; [exact Hne'|].
  apply (ctvr_to_long_row_counts BataSpec.sheet_2x2 [18687; 18688] [1; 2]
           Hd Hl Hne Hne' (Permutation_refl _) None None).
Defined.

(** ** Report polling *)

Section Waiting.
Import Py Http InrixApi InrixApiSpec.

Variable net : network.
Variables access_token report_id : value.
Variable w0 : World.

Local Abbreviation resp := (poll_response net access_token report_id w0).
Local Abbreviation lat := (poll_latency net access_token report_id w0).
Local Abbreviation clock := (InrixApiSpec.clock lat w0).
Local Abbreviation Post := (wait_outcome resp lat w0).

Hypothesis latency_nonneg : forall n rq, (0 <= snd (net n rq))%Q.

Local Lemma check_report_status_eq (w : World) (k : nat) :
  sent w = (sent w0 + k)%nat ->
  check_report_status net access_token report_id w
  = ({| now := (now w + lat k)%Q; sent := S (sent w) |},
     _ ← raise_for_status (status_code (resp k)); json (resp k)).
Proof.
  intros Hs. unfold check_report_status, poll_latency, poll_response,
    status_request.
  unfold mbind, io_mbind, io_bind, request, send. rewrite Hs.
  destruct (net (sent w0 + k)%nat _) as [r dt]. simpl.
  unfold io_lift. destruct (raise_for_status (status_code r)); reflexivity.
Qed.

Local Lemma clock_elapsed (k : nat) :
  (clock k - now w0 ==
   inject_Z (Z.of_nat k) * check_interval + latency_sum lat k)%Q.
Proof.
  induction k as [|k IH].
  - change (clock 0) with (now w0 + lat 0)%Q.
    change (latency_sum lat 0) with (lat 0).
    change (inject_Z (Z.of_nat 0)) with 0%Q. lra.
  - change (clock (S k)) with (clock k + check_interval + lat (S k))%Q.
    simpl latency_sum. rewrite Nat2Z.inj_succ. unfold Z.succ.
    rewrite inject_Z_plus. unfold check_interval in *. change (inject_Z 1) with 1%Q. lra.
Qed.

Local Lemma latency_sum_nonneg (k : nat) : (0 <= latency_sum lat k)%Q.
Proof.
  induction k as [|k IH]; cbn [latency_sum].
  - apply latency_nonneg.
  - assert (0 <= lat (S k))%Q by apply latency_nonneg. lra.
Qed.

Local Lemma elapsed_at_lower (k : nat) :
  (inject_Z (Z.of_nat k) * 10 <= elapsed_at lat k)%Q.
Proof.
  destruct k as [|k]; [change (0 * 10 <= 0)%Q; lra|].
  unfold elapsed_at, check_interval. pose proof (latency_sum_nonneg (S k)). lra.
Qed.

Local Lemma pending_bound (k : nat) :
  (forall j, (j < k)%nat -> pending (resp j) /\ (elapsed_at lat j < max_wait)%Q) ->
  (k <= 60)%nat.
Proof.
  intros Hp. destruct (le_lt_dec k 60) as [|Hk]; [assumption|].
  destruct (Hp 60%nat Hk) as [_ Hlt]. pose proof (elapsed_at_lower 60) as Hlo.
  unfold max_wait in Hlt. change (inject_Z (Z.of_nat 60)) with 60%Q in Hlo. lra.
Qed.

Local Lemma wait_loop_post (fuel : nat) :
  forall (k : nat) (w : World) (st : value) (elapsed : Q),
    sent w = S (sent w0 + k) -> now w = clock k ->
    (elapsed == elapsed_at lat k)%Q ->
    raise_for_status (status_code (resp k)) = Ok tt -> json (resp k) = Ok st ->
    (forall j, (j < k)%nat ->
       pending (resp j) /\ (elapsed_at lat j < max_wait)%Q) ->
    (61 <= k + fuel)%nat ->
    exists w' r,
      wait_loop fuel net access_token report_id (now w0) elapsed st w
      = Some (w', r) /\ Post w' r.
Proof.
  induction fuel as [|fuel IH]; intros k w st elapsed Hs Hn He Hrs Hj Hprev Hfuel.
  - pose proof (pending_bound k Hprev). lia.
  - cbn [wait_loop].
    assert (poll_state (resp k) = item "state" st) as Hps
      by (unfold poll_state; rewrite Hrs, Hj; reflexivity).
    destruct (item "state" st) as [state|e] eqn:Hst.
    2:{ exists w, (Raise e). split; [reflexivity|]. exists k.
        split; [|split; [|split]]; eauto. }
    destruct (str_eq state "COMPLETED") eqn:Hc; cbn [negb].
    { exists w, (Ok tt). split; [reflexivity|]. exists k.
      split; [|split; [|split]]; auto.
      left. split; [|reflexivity]. now exists state. }
    assert (pending (resp k)) as Hpk by now exists state.
    destruct (Qle_bool max_wait elapsed) eqn:Hq.
    { eexists w, _. split; [reflexivity|]. exists k.
      split; [|split; [|split]]; auto.
      right; left. split; [assumption|]. split; [|eexists; reflexivity].
      apply Qle_bool_iff in Hq. now rewrite <- He. }
    assert (elapsed_at lat k < max_wait)%Q as Hlt.
    { rewrite <- He. apply Qnot_le_lt. intros Hle.
      apply Qle_bool_iff in Hle. congruence. }
    assert (forall j, (j < S k)%nat ->
              pending (resp j) /\ (elapsed_at lat j < max_wait)%Q) as Hprev'.
    { intros j Hjk. destruct (Nat.eq_dec j k) as [->|]; [auto|].
      apply Hprev. lia. }
    rewrite (check_report_status_eq (sleep check_interval w) (S k))
      by (cbn; rewrite Hs; lia).
    cbn [sleep now sent]. rewrite Hn.
    change (clock k + check_interval + lat (S k))%Q with (clock (S k)).
    assert (S (sent w) = S (sent w0 + S k)) as Hs' by (rewrite Hs; lia).
    destruct (raise_for_status (status_code (resp (S k)))) as [[]|e] eqn:Hrs'.
    2:{ eexists _, _. split; [reflexivity|]. exists (S k).
        split; [|split; [|split]]; auto.
        right; right. exists e. split; [|reflexivity].
        unfold poll_state. now rewrite Hrs'. }
    destruct (json (resp (S k))) as [st'|e] eqn:Hj'.
    2:{ eexists _, _. split; [reflexivity|]. exists (S k).
        split; [|split; [|split]]; auto.
        right; right. exists e. split; [|reflexivity].
        unfold poll_state. now rewrite Hrs', Hj'. }
    cbn. apply IH with (k := S k); try assumption.
    + reflexivity.
    + exact (clock_elapsed (S k)).
    + lia.
Qed.

Local Lemma pending_not_completed (r : Response) : pending r -> ~ completed r.
Proof. intros (v & Hv & Hf) (v' & Hv' & Ht). congruence. Qed.

Local Lemma failed_not_pending (r : Response) (e : exn) :
  poll_state r = Raise e -> ~ pending r /\ ~ completed r.
Proof. intros He. split; intros (v & Hv & _); congruence. Qed.

Local Lemma poll_never_times_out (r : Response) (e : exn) :
  poll_state r = Raise e -> ~ is_timeout (Raise e).
Proof.
  unfold poll_state, raise_for_status, json, item, dict_item.
  intros He [msg [= ->]]. revert He.
  destruct (_ && _); [discriminate|]. cbn.
  destruct (json_body r) as [[]|]; cbn; try discriminate.
  destruct (dict_get _ _); discriminate.
Qed.

Local Lemma wait_post (fuel : nat) :
  (61 <= fuel)%nat ->
  exists w' r,
    wait_for_report_completion fuel net access_token report_id w0 = Some (w', r)
    /\ Post w' r.
Proof.
  intros Hfuel. unfold wait_for_report_completion.
  rewrite (check_report_status_eq w0 0) by lia.
  assert (S (sent w0) = S (sent w0 + 0)) as Hs by lia.
  destruct (raise_for_status (status_code (resp 0))) as [[]|e] eqn:Hrs.
  2:{ eexists _, _. split; [reflexivity|]. exists 0%nat.
      split; [|split; [|split]]; auto; [lia|].
      right; right. exists e. split; [|reflexivity].
      unfold poll_state. now rewrite Hrs. }
  destruct (json (resp 0)) as [st|e] eqn:Hj.
  2:{ eexists _, _. split; [reflexivity|]. exists 0%nat.
      split; [|split; [|split]]; auto; [lia|].
      right; right. exists e. split; [|reflexivity].
      unfold poll_state. now rewrite Hrs, Hj. }
  cbn. apply wait_loop_post with (k := 0%nat);
    try assumption; try reflexivity; try lia.
  change (elapsed_at lat 0) with 0%Q. lra.
Qed.

(** C3.  With enough fuel for its 61 polls the wait ends, at some poll K
    after K sleeps of 10 seconds.  It raises InrixTimeout exactly when no
    poll up to the first one at which the elapsed time has reached the
    ceiling of 600 seconds reports COMPLETED, and then at least 600 seconds
    have passed; it returns normally exactly when a poll reports COMPLETED
    while all polls before it were pending and under the ceiling, and then
    that poll is the last request sent. *)
Theorem wait_for_report_completion_timeout (fuel : nat) :
  (61 <= fuel)%nat ->
  exists w' r,
    wait_for_report_completion fuel net access_token report_id w0 = Some (w', r)
    /\ (exists K,
          sent w' = S (sent w0 + K)
          /\ (now w' - now w0 ==
               inject_Z (Z.of_nat K) * check_interval + latency_sum lat K)%Q)
    /\ (is_timeout r <->
        exists K,
          (forall j, (j <= K)%nat -> pending (resp j))
          /\ (forall j, (j < K)%nat -> (elapsed_at lat j < max_wait)%Q)
          /\ (max_wait <= elapsed_at lat K)%Q)
    /\ (is_timeout r -> (max_wait <= now w' - now w0)%Q)
    /\ (r = Ok tt <->
        exists K,
          completed (resp K)
          /\ (forall j, (j < K)%nat ->
                pending (resp j) /\ (elapsed_at lat j < max_wait)%Q))
    /\ (r = Ok tt ->
        forall K, sent w' = S (sent w0 + K) ->
          completed (resp K) /\ forall j, (j < K)%nat -> pending (resp j)).
Proof.
  intros Hfuel. destruct (wait_post fuel Hfuel) as (w' & r & Hrun & HP).
  exists w', r. split; [exact Hrun|].
  destruct HP as (K & Hs & Hn & Hprev & Hcase).
  assert (forall K', (K' < K)%nat -> ~ completed (resp K')) as Hnc
    by (intros K' HK'; apply pending_not_completed, Hprev, HK').
  split; [|split; [|split; [|split]]].
  - exists K. split; [assumption|]. rewrite Hn. apply clock_elapsed.
  - split.
    + intros Ht. exists K. destruct Hcase as [[_ ->]|[(Hp & Hle & _)|(e & He & ->)]].
      * destruct Ht as [? [=]].
      * split; [|split; [|assumption]].
        -- intros j Hj. destruct (Nat.eq_dec j K) as [->|]; [assumption|].
           apply Hprev. lia.
        -- intros j Hj. now apply Hprev.
      * now apply poll_never_times_out in He.
    + intros (K' & Hpend & Hlt & Hle).
      destruct (lt_eq_lt_dec K K') as [[HK|HK]|HK].
      * exfalso. pose proof (Hpend K ltac:(lia)) as HpK.
        pose proof (Hlt K HK) as HltK.
        destruct Hcase as [[Hc _]|[(_ & Hge & _)|(e & He & _)]].
        -- now apply (pending_not_completed _ HpK).
        -- lra.
        -- exfalso; destruct (failed_not_pending _ _ He); auto.
      * subst K'. pose proof (Hpend K ltac:(lia)) as HpK.
        destruct Hcase as [[Hc _]|[(_ & _ & Ht)|(e & He & _)]].
        -- now apply pending_not_completed in HpK.
        -- assumption.
        -- exfalso; destruct (failed_not_pending _ _ He); auto.
      * exfalso. destruct (Hprev K' HK) as [_ HltK]. lra.
  - intros Ht. destruct Hcase as [[_ ->]|[(Hp & Hle & _)|(e & He & ->)]].
    + destruct Ht as [? [=]].
    + rewrite Hn, clock_elapsed. destruct K as [|K]; [|exact Hle].
      unfold max_wait in Hle. cbn in Hle. lra.
    + now apply poll_never_times_out in He.
  - split.
    + intros ->. exists K. split; [|assumption].
      destruct Hcase as [[Hc _]|[(_ & _ & [? [=]])|(e & _ & [=])]]. assumption.
    + intros (K' & Hc & Hprev').
      destruct (lt_eq_lt_dec K K') as [[HK|HK]|HK].
      * exfalso. destruct (Hprev' K HK) as [HpK HltK].
        destruct Hcase as [[Hc' _]|[(_ & Hge & _)|(e & He & _)]].
        -- now apply (pending_not_completed _ HpK).
        -- lra.
        -- exfalso; destruct (failed_not_pending _ _ He); auto.
      * subst K'. destruct Hcase as [[_ ->]|[(Hp & _)|(e & He & _)]].
        -- reflexivity.
        -- now apply pending_not_completed in Hp.
        -- exfalso; destruct (failed_not_pending _ _ He); auto.
      * exfalso. now apply (Hnc K' HK).
  - intros -> K' HK'. assert (K' = K) as -> by lia.
    destruct Hcase as [[Hc _]|[(_ & _ & [? [=]])|(e & _ & [=])]].
    split; [assumption|]. intros j Hj. now apply Hprev.
Qed.

End Waiting.

Section WaitingExamples.
Import Py Http InrixApi InrixApiSpec.

(** A status source that is pending for ever: 61 polls, ten seconds apart,
    then the timeout, at 600 seconds and not before. *)
Lemma pending_forever_times_out :
  exists w' msg,
    wait_for_report_completion 61 pending_forever (VStr "t0k3n") (VStr "r1") epoch
    = Some (w', Raise (InrixTimeout msg))
    /\ sent w' = 61%nat /\ (now w' == 600)%Q.
Proof. eexists _, _. split; [vm_compute; reflexivity|]. split; reflexivity. Qed.

(** Sixty turns of the loop are not enough to reach the timeout. *)
Lemma sixty_polls_do_not_time_out :
  wait_for_report_completion 60 pending_forever (VStr "t0k3n") (VStr "r1") epoch
  = None.
Proof. vm_compute. reflexivity. Qed.

Lemma wait_for_report_completion_timeout_witness :
  (forall n rq, (0 <= snd (pending_forever n rq))%Q)
  /\ (61 <= 61)%nat
  /\ exists w' r,
       wait_for_report_completion 61 pending_forever (VStr "t0k3n") (VStr "r1")
         epoch = Some (w', r)
       /\ (is_timeout r -> (max_wait <= now w' - now epoch)%Q).
Proof.
  assert (forall n rq, (0 <= snd (pending_forever n rq))%Q) as Hlat
    by (intros n rq; cbn; lra).
  split; [exact Hlat|]. split; [lia|].
  destruct (wait_for_report_completion_timeout pending_forever
              (VStr "t0k3n") (VStr "r1") epoch Hlat 61 (le_n 61))
    as (w' & r & Hrun & _ & _ & Hearly & _).
  exists w', r. split; [exact Hrun | exact Hearly].
Defined.

End WaitingExamples.

(** ** Report download *)

Section Download.
Import Py Http InrixApi InrixApiSpec.

(** The download returns the body of whatever response it gets. *)
Lemma get_report_bytes_ignores_status (net : network) (u : value) (w : World) :
  get_report_bytes net (VDict [("urls", VList [u])]) w
  = (fst (send net (get [inr u] [] []) w),
     Ok (content (snd (send net (get [inr u] [] []) w)))).
Proof.
  unfold get_report_bytes, mbind, io_mbind, io_bind, io_lift, request,
    mret, io_mret, io_ret. cbn.
  change (1 <? Z.of_nat 1) with false. cbv beta iota.
  destruct (send net _ w) as [w' r]. reflexivity.
Qed.

(** C6, where the code departs from it.  The archive download answered
    with status 500 is not raised: [get_report_bytes] returns the error
    page as the report bytes, and so does the whole
    [download_corridor_report]; [get_report_data], given the same answer,
    raises the HTTP error. *)
Theorem get_report_bytes_returns_error_body :
  get_report_bytes failing_download
    (VDict [("urls", VList [VStr "https://files.example/r1.zip"])])
    {| now := 4; sent := 4 |}
  = ({| now := 4 + 1; sent := 5 |}, Ok "<html>Internal Server Error</html>")
  /\ get_report_data failing_download (VStr "t0k3n") (VStr "r1")
       {| now := 4; sent := 4 |}
     = ({| now := 4 + 1; sent := 5 |}, Raise (HTTPError 500))
  /\ exists w',
       download_corridor_report 61 failing_download "creds.json"
         [("email", VStr "a@b.org"); ("password", VStr "pw")]
         [] "2021-01-01" "2021-01-31" 60 "2001" epoch
       = Some (w', Ok "<html>Internal Server Error</html>").
Proof.
  split; [reflexivity|]. split; [reflexivity|].
  eexists. vm_compute. reflexivity.
Qed.

End Download.

(** ** Rate-limit retries *)

Section Retrying.
Import Py Http SwiftlyApi SwiftlyApiSpec.

Variable net : network.
Variable api_key : value.
Variable url : string.
Variable params : list (string * value).
Variable w0 : World.

Local Abbreviation rq := (api_request api_key url params).
Local Abbreviation resp := (attempt_response net rq w0).
Local Abbreviation lat := (attempt_latency net rq w0).

Local Lemma send_attempt (w : World) (k : nat) :
  sent w = (sent w0 + k)%nat ->
  send net rq w = ({| now := (now w + lat k)%Q; sent := S (sent w) |}, resp k).
Proof.
  intros Hs. unfold send, attempt_latency, attempt_response. rewrite Hs.
  destruct (net (sent w0 + k)%nat rq) as [r dt]. reflexivity.
Qed.

Local Lemma api_loop_outcome (fuel : nat) :
  forall (k : nat) (w : World),
    sent w = (sent w0 + k)%nat -> now w = sent_at lat w0 k ->
    (forall j, (j < k)%nat -> status_code (resp j) = 429) ->
    (k < 10)%nat -> (10 <= k + fuel)%nat ->
    exists w' r,
      api_loop fuel net rq (Z.of_nat k) w = Some (w', r)
      /\ loop_outcome resp lat w0 w' r.
Proof.
  induction fuel as [|fuel IH]; intros k w Hs Hn Hprev Hk Hfuel; [lia|].
  cbn [api_loop]. rewrite (send_attempt w k Hs).
  assert (S (sent w) = S (sent w0 + k)) as Hs' by now rewrite Hs.
  destruct (status_code (resp k) =? 200) eqn:E200.
  { apply Z.eqb_eq in E200. eexists _, _. split; [reflexivity|].
    exists k. rewrite Hn. cbn. auto 10. }
  apply Z.eqb_neq in E200.
  destruct (status_code (resp k) =? 429) eqn:E429.
  - apply Z.eqb_eq in E429.
    destruct (Z.of_nat k + 1 <? max_attempts) eqn:Elt.
    + apply Z.ltb_lt in Elt. unfold max_attempts in Elt.
      replace (Z.of_nat k + 1) with (Z.of_nat (S k)) by lia.
      apply IH.
      * cbn. rewrite Hs. lia.
      * cbn. now rewrite Hn.
      * intros j Hj. destruct (Nat.eq_dec j k) as [->|]; [assumption|].
        apply Hprev. lia.
      * lia.
      * lia.
    + apply Z.ltb_ge in Elt. unfold max_attempts in Elt.
      rewrite E429. cbn [raise_for_status]. 
      eexists _, _. split; [reflexivity|].
      exists k. rewrite Hn. cbn. repeat split; auto.
      right; left. repeat split; auto. lia.
  - apply Z.eqb_neq in E429. unfold loop_outcome, surfaced, raise_for_status.
    destruct ((400 <=? status_code (resp k)) && (status_code (resp k) <? 600)) eqn:Eerr;
      (eexists _, _; split; [reflexivity|]);
      exists k; rewrite Hn, Eerr; cbn; repeat split; auto.
Qed.

Local Lemma sent_at_elapsed (k : nat) :
  (sent_at lat w0 k + lat k - now w0 ==
   1000 * inject_Z (Z.of_nat k) + InrixApiSpec.latency_sum lat k)%Q.
Proof.
  induction k as [|k IH].
  - change (sent_at lat w0 0) with (now w0).
    change (InrixApiSpec.latency_sum lat 0) with (lat 0%nat).
    change (inject_Z (Z.of_nat 0)) with 0%Q. lra.
  - change (sent_at lat w0 (S k)) with (sent_at lat w0 k + lat k + 1000)%Q.
    cbn [InrixApiSpec.latency_sum]. rewrite Nat2Z.inj_succ. unfold Z.succ.
    rewrite inject_Z_plus. change (inject_Z 1) with 1%Q. lra.
Qed.

(** C9.  With enough fuel for its ten attempts the call ends at some
    attempt K, the tenth at the latest.  Every attempt before K was
    answered 429 and followed by a sleep of 1000 seconds.  Attempt K is
    answered 200, and the call returns its JSON; or it is the tenth attempt
    and answered 429, and the HTTP error 429 is raised; or it is answered
    with another status, which is raised at once. *)
Theorem make_api_call_retries (fuel : nat) :
  (10 <= fuel)%nat ->
  exists w' r,
    make_api_call fuel net api_key url params w0 = Some (w', r)
    /\ exists K,
         (K < 10)%nat
         /\ sent w' = S (sent w0 + K)
         /\ (now w' - now w0 ==
             1000 * inject_Z (Z.of_nat K) + InrixApiSpec.latency_sum lat K)%Q
         /\ (forall j, (j < K)%nat -> status_code (resp j) = 429)
         /\ ((status_code (resp K) = 200 /\ r = json (resp K))
             \/ (status_code (resp K) = 429 /\ K = 9%nat
                 /\ r = Raise (HTTPError 429))
             \/ (status_code (resp K) <> 200 /\ status_code (resp K) <> 429
                 /\ r = Raise (surfaced (status_code (resp K))))).
Proof.
  intros Hfuel.
  destruct (api_loop_outcome fuel 0 w0) as (w' & r & Hrun & K & HK & Hs & Hn & Hprev & Hcase);
    [lia | reflexivity | intros; lia | lia | lia |].
  unfold make_api_call. fold rq. change 0 with (Z.of_nat 0). rewrite Hrun.
  destruct Hcase as [[H200 ->]|[(H429 & HK9 & ->)|(Hn200 & Hn429 & ->)]];
    eexists _, _; (split; [reflexivity|]); exists K;
    (split; [exact HK|]); (split; [exact Hs|]);
    (split; [rewrite Hn; apply sent_at_elapsed|]); (split; [exact Hprev|]); auto.
Qed.

End Retrying.

Section RetryingExamples.
Import Py Http SwiftlyApi SwiftlyApiSpec.

(** A server always over its limit: ten attempts, nine sleeps, then 429. *)
Lemma always_429_gives_up :
  exists w',
    make_api_call 10 always_429 (VStr "key") "https://api.goswift.ly/x" []
      InrixApiSpec.epoch
    = Some (w', Raise (HTTPError 429))
    /\ sent w' = 10%nat /\ (now w' == 9000)%Q.
Proof. eexists. split; [vm_compute; reflexivity|]. split; reflexivity. Qed.

Lemma make_api_call_retries_witness :
  (10 <= 10)%nat
  /\ exists w' r,
       make_api_call 10 always_429 (VStr "key") "https://api.goswift.ly/x" []
         InrixApiSpec.epoch = Some (w', r)
       /\ exists K, (K < 10)%nat /\ sent w' = S (sent InrixApiSpec.epoch + K).
Proof.
  split; [lia|].
  destruct (make_api_call_retries always_429 (VStr "key")
              "https://api.goswift.ly/x" [] InrixApiSpec.epoch 10 (le_n 10))
    as (w' & r & Hrun & K & HK & Hs & _).
  exists w', r. split; [exact Hrun|]. exists K. split; [exact HK | exact Hs].
Defined.

End RetryingExamples.

(** ** GeoJSON reshaping: the input is not touched *)

Section GeoJSONFrame.
Import Py SwiftlyDatapro SwiftlyDataproSpec.

(** [h0] is the heap before the call; [h0 ⊆ h] says that every object of
    [h0] is in [h] as it was. *)
Variable h0 : heap.

Local Lemma fresh_unused (h : heap) : h0 ⊆ h -> h0 !! fresh (dom h) = None.
Proof.
  intros Hsub. destruct (h0 !! fresh (dom h)) as [d|] eqn:E; [|reflexivity].
  exfalso. apply (is_fresh (dom h)). apply elem_of_dom. exists d.
  eapply lookup_weaken; eassumption.
Qed.

Local Lemma deepcopy_frame (seg_list : list loc) :
  forall (memo : gmap positive positive) (h : heap),
    h0 ⊆ h ->
    (forall l l', memo !! l = Some l' -> h0 !! l' = None) ->
    h0 ⊆ fst (deepcopy seg_list memo h)
    /\ Forall (fun l' => h0 !! l' = None) (snd (deepcopy seg_list memo h)).
Proof.
  induction seg_list as [|l rest IH]; intros memo h Hsub Hmemo; cbn [deepcopy].
  - split; [assumption | constructor].
  - destruct (memo !! l) as [l'|] eqn:El.
    + destruct (IH memo h Hsub Hmemo) as [H1 H2].
      destruct (deepcopy rest memo h) as [h' rest']. cbn in *.
      split; [assumption|]. constructor; [eapply Hmemo, El | assumption].
    + pose proof (fresh_unused h Hsub) as Hfresh.
      set (l' := fresh (dom h)) in *.
      destruct (IH (<[l := l']> memo) (<[l' := deref l h]> h)) as [H1 H2].
      * now apply insert_subseteq_r.
      * intros a b. rewrite lookup_insert. case_decide.
        -- now intros [= <-].
        -- apply Hmemo.
      * destruct (deepcopy rest _ _) as [h' rest']. cbn in *.
        split; [assumption|]. now constructor.
Qed.

Local Lemma update_frame {A} (l : loc)
    (f : list (string * value) -> result (A * list (string * value)))
    (h : heap) :
  h0 ⊆ h -> h0 !! l = None -> h0 ⊆ fst (update l f h).
Proof.
  intros Hsub Hl. unfold update. destruct (f (deref l h)) as [[a d]|e]; cbn.
  - now apply insert_subseteq_r.
  - assumption.
Qed.

Local Lemma st_bind_frame {A B} (m : St A) (k : A -> St B) (h : heap) :
  h0 ⊆ fst (m h) -> (forall a h', h0 ⊆ h' -> h0 ⊆ fst (k a h')) ->
  h0 ⊆ fst (st_bind m k h).
Proof.
  intros Hm Hk. unfold st_bind. destruct (m h) as [h' [a|e]]; cbn in *.
  - now apply Hk.
  - assumption.
Qed.

Local Lemma build_feature_frame (i : Z) (seg : loc) (h : heap) :
  h0 ⊆ h -> h0 !! seg = None -> h0 ⊆ fst (build_feature i seg h).
Proof.
  intros Hsub Hseg. unfold build_feature.
  repeat (apply st_bind_frame; [now apply update_frame | clear h Hsub; intros ? h Hsub]).
  destruct (coords_of _); assumption.
Qed.

Local Lemma build_features_frame (segs : list loc) :
  forall (i : Z) (h : heap),
    h0 ⊆ h -> Forall (fun l => h0 !! l = None) segs ->
    h0 ⊆ fst (build_features i segs h).
Proof.
  induction segs as [|seg rest IH]; intros i h Hsub Hsegs; cbn [build_features].
  - assumption.
  - inversion Hsegs as [|? ? Hseg Hrest]; subst.
    apply st_bind_frame; [now apply build_feature_frame|].
    intros f h' Hsub'. apply st_bind_frame; [now apply IH|].
    intros fs h'' Hsub''. assumption.
Qed.

End GeoJSONFrame.

Section GeoJSONExamples.
Import Py SwiftlyDatapro SwiftlyDataproSpec.

(** C10.  Every dict that is on the heap before the call is on the heap
    after it with the same entries, whether the call returns or raises: the
    input dicts keep their fromStop, toStop and pathLocs entries and get no
    order key; the deletions and insertions go to the copies. *)
Theorem speed_map_segs_to_geojson_keeps_input
    (seg_list : list loc) (h : heap) (l : loc) (d : list (string * value)) :
  h !! l = Some d ->
  fst (speed_map_segs_to_geojson seg_list h) !! l = Some d.
Proof.
  intros Hl. eapply lookup_weaken; [exact Hl|].
  unfold speed_map_segs_to_geojson.
  destruct (deepcopy_frame h seg_list ∅ h) as [H1 H2]; [reflexivity | |].
  { intros a b. now rewrite lookup_empty. }
  destruct (deepcopy seg_list ∅ h) as [h1 seg_list_copy]. cbn in H1, H2.
  apply st_bind_frame; [now apply build_features_frame|].
  intros fs h' Hsub. assumption.
Qed.

(** The copy is what changes: after the call the feature's properties are
    a new dict, without the stops and the path and with the order. *)
Lemma copy_is_modified :
  exists h' f,
    speed_map_segs_to_geojson [1%positive] heap_0
    = (h', Ok {| type := "FeatureCollection"; features := [f] |})
    /\ properties f <> 1%positive
    /\ h' !! properties f = Some [("speed", VFloat (25 # 2)); ("order", VInt 0)]
    /\ h' !! 1%positive = Some segment_0.
Proof.
  eexists _, _. split; [vm_compute; reflexivity|].
  split; [discriminate|]. split; reflexivity.
Qed.

Lemma speed_map_segs_to_geojson_keeps_input_witness :
  heap_0 !! 1%positive = Some segment_0
  /\ fst (speed_map_segs_to_geojson [1%positive] heap_0) !! 1%positive
     = Some segment_0.
Proof.
  assert (heap_0 !! 1%positive = Some segment_0) as H by reflexivity.
  split; [exact H|].
  exact (speed_map_segs_to_geojson_keeps_input [1%positive] heap_0 1%positive
           segment_0 H).
Defined.

End GeoJSONExamples.

(** ** Corridor aggregation and archive loading *)

Section Aggregation.
Import Py InrixDatapro InrixDataproSpec.

Lemma mapM_inv_map {A B C} (f : A -> result B) (g : B -> C) (h : A -> C)
    (l : list A) :
  forall l', mapM f l = Ok l' ->
    (forall x y, In x l -> f x = Ok y -> g y = h x) ->
    map g l' = map h l.
Proof.
  induction l as [|x l IH]; intros l' Hm Hgh; cbn in Hm.
  - now injection Hm as <-.
  - destruct (f x) as [y|e] eqn:Hfx; [|discriminate]. cbn in Hm.
    destruct (mapM f l) as [ys|e] eqn:Hml; [|discriminate]. cbn in Hm.
    injection Hm as <-. cbn. f_equal.
    + apply Hgh; [now left | assumption].
    + apply IH; [reflexivity|]. intros x' y' Hx'. apply Hgh. now right.
Qed.

Lemma mapM_inv_In {A B} (f : A -> result B) (l : list A) :
  forall l' y, mapM f l = Ok l' -> In y l' -> exists x, In x l /\ f x = Ok y.
Proof.
  induction l as [|x l IH]; intros l' y Hm Hy; cbn in Hm.
  - injection Hm as <-. destruct Hy.
  - destruct (f x) as [y0|e] eqn:Hfx; [|discriminate]. cbn in Hm.
    destruct (mapM f l) as [ys|e] eqn:Hml; [|discriminate]. cbn in Hm.
    injection Hm as <-. destruct Hy as [<-|Hy].
    + exists x. split; [now left | assumption].
    + destruct (IH ys y eq_refl Hy) as (x' & Hx' & Hfx'). exists x'.
      split; [now right | assumption].
Qed.

Lemma loc_set_ok corridor_name write data_agg data_agg' :
  loc_set corridor_name write data_agg = Ok data_agg' ->
  data_agg' =
  map (fun kr => if String.eqb (corridor_of (fst kr)) corridor_name
                 then (fst kr, write (snd kr)) else kr) data_agg.
Proof. unfold loc_set. destruct (existsb _ _); [now intros [= <-] | discriminate]. Qed.

Lemma add_corridor_ok self md data_agg c data_agg' :
  metadata self = Some md ->
  add_corridor self data_agg c = Ok data_agg' ->
  data_agg' = map (fun kr => (fst kr, annotate_step md (fst kr) (snd kr) c)) data_agg.
Proof.
  intros Hmd. unfold add_corridor. rewrite Hmd.
  destruct (loc_set (name c) _ data_agg) as [a1|e] eqn:H1; [|discriminate].
  cbn. intros H2. apply loc_set_ok in H1, H2. subst. rewrite map_map.
  apply map_ext. intros [k r]. unfold annotate_step, corridor_length. cbn.
  destruct (String.eqb (corridor_of k) (name c)) eqn:E; cbn; rewrite ?E; reflexivity.
Qed.

Lemma foldM_add_corridor_ok self md cs :
  forall data_agg data_agg',
    metadata self = Some md ->
    foldM (add_corridor self) cs data_agg = Ok data_agg' ->
    data_agg' = map (fun kr => (fst kr, annotate md cs (fst kr) (snd kr))) data_agg.
Proof.
  induction cs as [|c cs IH]; intros data_agg data_agg' Hmd Hf; cbn in Hf.
  - injection Hf as <-. rewrite <- (map_id data_agg) at 1.
    apply map_ext. now intros [k r].
  - destruct (add_corridor self data_agg c) as [a1|e] eqn:H1; [|discriminate].
    cbn in Hf. apply (add_corridor_ok _ md) in H1; [|assumption].
    apply IH in Hf; [|assumption]. subst. rewrite map_map. reflexivity.
Qed.

Lemma annotate_Travel_Time md cs k :
  forall r, Travel_Time (annotate md cs k r) = Travel_Time r.
Proof.
  induction cs as [|c cs IH]; intros r; cbn; [reflexivity|].
  unfold annotate in IH. rewrite IH. unfold annotate_step.
  now destruct (String.eqb _ _).
Qed.

Lemma annotate_columns md cs k :
  forall r,
    Segment_Count (annotate md cs k r)
    = match find_last (fun c => String.eqb (corridor_of k) (name c)) cs with
      | Some c => Some (Z.of_nat (length (xdSegIds c)))
      | None => Segment_Count r
      end
    /\ Corridor_Length (annotate md cs k r)
       = match find_last (fun c => String.eqb (corridor_of k) (name c)) cs with
         | Some c => Some (corridor_length md c)
         | None => Corridor_Length r
         end.
Proof.
  induction cs as [|c cs IH]; intros r; cbn; [split; reflexivity|].
  unfold annotate in IH. destruct (IH (annotate_step md k r c)) as [-> ->].
  destruct (find_last _ cs); [split; reflexivity|].
  unfold annotate_step. destruct (String.eqb _ _); split; reflexivity.
Qed.

Lemma assoc_get_map {K V} `{EqDecision K} (f : K -> V) (k : K) (l : list K) :
  In k l -> assoc_get k (map (fun x => (x, f x)) l) = Some (f k).
Proof.
  induction l as [|x l IH]; intros Hin; [destruct Hin|]. cbn.
  destruct (decide (x = k)) as [->|Hne]; [reflexivity|].
  destruct Hin as [->|Hin]; [congruence | auto].
Qed.

Lemma filter_map_comm {A B} (p : B -> bool) (f : A -> B) (l : list A) :
  List.filter p (map f l) = map f (List.filter (fun x => p (f x)) l).
Proof.
  induction l as [|x l IH]; cbn; [reflexivity|].
  destruct (p (f x)); cbn; now rewrite IH.
Qed.

Lemma full_count_decides df rc md k :
  In k (remove_dups (map gb_cols df)) ->
  full_count (groupby_count df) (k, annotate md (corridors rc) k (summed df k))
  = bool_decide (configured_count rc (corridor_of k) = Some (observed_count df k)).
Proof.
  intros Hk. unfold full_count. cbn [fst snd].
  destruct (annotate_columns md (corridors rc) k (summed df k)) as [-> _].
  change (groupby_count df)
    with (map (fun k => (k, observed_count df k)) (remove_dups (map gb_cols df))).
  rewrite (assoc_get_map _ _ _ Hk).
  unfold configured_count, configured.
  destruct (find_last _ (corridors rc)) as [c|]; cbn.
  - destruct (Z.eqb_spec (Z.of_nat (length (xdSegIds c))) (observed_count df k)) as [->|Hne].
    + symmetry. now apply bool_decide_eq_true.
    + symmetry. apply bool_decide_eq_false. congruence.
  - symmetry. now apply bool_decide_eq_false.
Qed.

(** What [create_data_agg] returns, when it returns. *)
Lemma create_data_agg_ok self out :
  create_data_agg self = Ok out ->
  exists df rc md,
    get_format_data_for_agg self = Ok df
    /\ report_contents self = Some rc
    /\ metadata self = Some md
    /\ out =
       map (fun k => (k, set_Speed (annotate md (corridors rc) k (summed df k))))
           (List.filter
              (fun k => bool_decide
                 (configured_count rc (corridor_of k) = Some (observed_count df k)))
              (remove_dups (map gb_cols df))).
Proof.
  unfold create_data_agg.
  destruct (get_format_data_for_agg self) as [df|e]; [cbn|discriminate].
  destruct (report_contents self) as [rc|]; [|discriminate].
  destruct (foldM _ _ _) as [agg|e] eqn:Hfold; [cbn|discriminate].
  destruct (corridors rc) as [|c cs] eqn:Hcs; [discriminate|].
  intros [= <-].
  destruct (metadata self) as [md|] eqn:Hmd.
  2:{ cbn in Hfold. unfold add_corridor in Hfold. rewrite Hmd in Hfold.
      discriminate. }
  exists df, rc, md. repeat split.
  apply (foldM_add_corridor_ok self md) in Hfold; [|assumption]. subst agg.
  change (groupby_sum df)
    with (map (fun k => (k, summed df k)) (remove_dups (map gb_cols df))).
  rewrite map_map. cbn [fst snd]. rewrite filter_map_comm, map_map. cbn [fst snd].
  rewrite Hcs. f_equal. apply filter_ext_in. intros k Hk.
  rewrite <- Hcs. now apply full_count_decides.
Qed.

Lemma long_row_ok kr row :
  long_row kr = Ok row ->
  long_key row = fst kr /\ l_Speed row = Speed (snd kr)
  /\ l_Travel_Time row = Travel_Time (snd kr)
  /\ l_Corridor row = corridor_of (fst kr).
Proof.
  unfold long_row. destruct (to_datetime _) as [ts|e]; [cbn|discriminate].
  intros [= <-]. destruct kr as [[[c d] i] r]. repeat split.
Qed.

(** What the long presentation returns, when it returns. *)
Lemma segments_to_corridor_long_ok self wide_metric out_dir out_fn steps rows :
  segments_to_corridor self "long" wide_metric out_dir out_fn
  = (steps, Ok (Long rows)) ->
  exists out, create_data_agg self = Ok out /\ mapM long_row out = Ok rows.
Proof.
  unfold segments_to_corridor. cbn [String.eqb Ascii.eqb Bool.eqb negb orb andb].
  destruct (create_data_agg self) as [out|e]; [|discriminate].
  unfold reshape. cbn [String.eqb Ascii.eqb Bool.eqb negb orb andb].
  destruct (mapM long_row out) as [rows'|e] eqn:Hm; [|discriminate].
  intros [= _ <-]. now exists out.
Qed.

Lemma retained_keys df rc md g :
  In g (map fst
         (map (fun k => (k, set_Speed (annotate md (corridors rc) k (summed df k))))
              (List.filter
                 (fun k => bool_decide
                    (configured_count rc (corridor_of k) = Some (observed_count df k)))
                 (remove_dups (map gb_cols df)))))
  <-> In g (map gb_cols df)
      /\ configured_count rc (corridor_of g) = Some (observed_count df g).
Proof.
  rewrite map_map. cbn [fst]. rewrite map_id, filter_In.
  rewrite <- !list_elem_of_In, elem_of_remove_dups, bool_decide_eq_true. reflexivity.
Qed.

(** C1.  The long output has one row for a group (corridor, date, time
    interval) exactly when the group occurs in the formatted data and the
    number of its observations with a travel time equals the segment count
    configured for its corridor in the report contents; no group has two
    rows. *)
Theorem coverage_filter self wide_metric out_dir out_fn steps rows df rc :
  get_format_data_for_agg self = Ok df ->
  report_contents self = Some rc ->
  segments_to_corridor self "long" wide_metric out_dir out_fn
  = (steps, Ok (Long rows)) ->
  NoDup (map long_key rows)
  /\ forall g,
       In g (map long_key rows)
       <-> In g (map gb_cols df)
           /\ configured_count rc (corridor_of g) = Some (observed_count df g).
Proof.
  intros Hdf Hrc Hrun.
  destruct (segments_to_corridor_long_ok _ _ _ _ _ _ Hrun) as (out & Hagg & Hrows).
  destruct (create_data_agg_ok _ _ Hagg) as (df' & rc' & md & Hdf' & Hrc' & Hmd & ->).
  assert (df' = df) as -> by congruence. assert (rc' = rc) as -> by congruence.
  assert (map long_key rows
          = map fst (map (fun k => (k, set_Speed (annotate md (corridors rc) k (summed df k))))
              (List.filter
                 (fun k => bool_decide
                    (configured_count rc (corridor_of k) = Some (observed_count df k)))
                 (remove_dups (map gb_cols df))))) as Hkeys.
  { eapply mapM_inv_map; [exact Hrows|]. intros x y _ Hxy.
    now apply long_row_ok in Hxy. }
  split.
  - rewrite Hkeys, map_map. cbn [fst]. rewrite map_id.
    apply NoDup_ListNoDup, List.NoDup_filter, NoDup_ListNoDup, NoDup_remove_dups.
  - intros g. rewrite Hkeys. apply retained_keys.
Qed.

(** With one metadata row per segment and each member listed once, the
    corridor length is the sum over the members of their looked-up
    lengths. *)
Lemma sum_Q_single (x : Q) (a : Z) (f : Z -> Q) (segs : list Z) :
  NoDup segs -> (f a == 0)%Q ->
  (sum_Q (map (fun s => if a =? s then x else f s) segs)
   == (if bool_decide (a ∈ segs) then x else 0) + sum_Q (map f segs))%Q.
Proof.
  intros Hnd Hfa. induction Hnd as [|s segs Hs Hnd IH].
  - rewrite bool_decide_eq_false_2 by apply not_elem_of_nil. cbn. lra.
  - cbn [map sum_Q fold_right]. fold (sum_Q (map (fun s => if a =? s then x else f s) segs)).
    fold (sum_Q (map f segs)).
    rewrite IH. destruct (Z.eqb_spec a s) as [->|Hne].
    + rewrite (bool_decide_eq_true_2 (s ∈ s :: segs)) by (apply elem_of_cons; now left).
      rewrite (bool_decide_eq_false_2 (s ∈ segs)) by assumption.
      rewrite Hfa. lra.
    + destruct (bool_decide (a ∈ segs)) eqn:E.
      * apply bool_decide_eq_true in E.
        rewrite (bool_decide_eq_true_2 (a ∈ s :: segs))
          by (apply elem_of_cons; now right).
        lra.
      * apply bool_decide_eq_false in E.
        rewrite (bool_decide_eq_false_2 (a ∈ s :: segs)).
        -- lra.
        -- intros [->|H]%elem_of_cons; [congruence | auto].
Qed.

Lemma segment_length_absent (md : list MetaRow) (s : Z) :
  s ∉ map meta_Segment_ID md -> segment_length md s = 0%Q.
Proof.
  intros Hs. unfold segment_length.
  destruct (List.find _ md) as [m|] eqn:Hf; [|reflexivity].
  apply find_some in Hf. destruct Hf as [Hin Heq%Z.eqb_eq].
  exfalso. apply Hs, list_elem_of_In, in_map_iff. eauto.
Qed.

Lemma corridor_length_by_lookup (md : list MetaRow) (c : Corridor) :
  NoDup (map meta_Segment_ID md) -> NoDup (xdSegIds c) ->
  (corridor_length md c == sum_Q (map (segment_length md) (xdSegIds c)))%Q.
Proof.
  intros Hmd Hc. unfold corridor_length. induction md as [|m md IH].
  - transitivity 0%Q; [reflexivity|]. generalize (xdSegIds c). clear.
    intros segs. induction segs as [|s segs IH]; [reflexivity|].
    cbn [map sum_Q fold_right]. fold (sum_Q (map (segment_length []) segs)).
    rewrite <- IH. unfold segment_length. cbn. lra.
  - cbn in Hmd. apply NoDup_cons in Hmd. destruct Hmd as [Hm Hmd].
    specialize (IH Hmd).
    assert (sum_Q (map (segment_length (m :: md)) (xdSegIds c))
            == (if bool_decide (meta_Segment_ID m ∈ xdSegIds c)
                then default 0 (Segment_Length_Miles m) else 0)
               + sum_Q (map (segment_length md) (xdSegIds c)))%Q as ->.
    { rewrite <- sum_Q_single.
      - apply eq_subrelation; [typeclasses eauto|]. f_equal.
        apply map_ext. intros s. unfold segment_length. cbn.
        now destruct (meta_Segment_ID m =? s).
      - assumption.
      - now rewrite segment_length_absent. }
    rewrite <- IH. rewrite filter_cons.
    destruct (decide (meta_Segment_ID m ∈ xdSegIds c)) as [Hin|Hout].
    + rewrite (bool_decide_eq_true_2 _ Hin). cbn.
      destruct (Segment_Length_Miles m); unfold sum_skipna_Q; cbn; lra.
    + rewrite (bool_decide_eq_false_2 _ Hout). unfold sum_skipna_Q. lra.
Qed.

(** The aggregation returns a table when the holder is loaded, the
    timestamps parse and every configured corridor has an observation. *)
Lemma existsb_keys (p : Key -> bool) (g : Key * AggRow -> AggRow)
    (data_agg : list (Key * AggRow)) :
  existsb (fun kr => p (fst kr)) (map (fun kr => (fst kr, g kr)) data_agg)
  = existsb (fun kr => p (fst kr)) data_agg.
Proof. induction data_agg as [|x l IH]; cbn; [|rewrite IH]; reflexivity. Qed.

Lemma add_corridor_total self md data_agg c :
  metadata self = Some md ->
  existsb (fun kr => String.eqb (corridor_of (fst kr)) (name c)) data_agg = true ->
  add_corridor self data_agg c
  = Ok (map (fun kr => (fst kr, annotate_step md (fst kr) (snd kr) c)) data_agg).
Proof.
  intros Hmd Hex.
  destruct (add_corridor self data_agg c) as [agg|e] eqn:Hadd.
  - f_equal. exact (add_corridor_ok self md data_agg c agg Hmd Hadd).
  - exfalso. revert Hadd. unfold add_corridor, loc_set. rewrite Hmd, Hex. cbn.
    set (agg1 := map _ data_agg).
    replace (existsb _ agg1) with true; [discriminate|].
    rewrite <- Hex. subst agg1. clear.
    induction data_agg as [|[k r] l IH]; cbn; [reflexivity|]. rewrite IH.
    destruct (String.eqb (corridor_of k) (name c)) eqn:E; cbn; rewrite ?E;
      reflexivity.
Qed.

Lemma foldM_add_corridor_total self md cs :
  forall data_agg,
    metadata self = Some md ->
    (forall c, In c cs ->
       existsb (fun kr => String.eqb (corridor_of (fst kr)) (name c)) data_agg
       = true) ->
    exists data_agg', foldM (add_corridor self) cs data_agg = Ok data_agg'.
Proof.
  induction cs as [|c cs IH]; intros data_agg Hmd Hcs; cbn.
  - now exists data_agg.
  - rewrite (add_corridor_total self md data_agg c Hmd (Hcs c (or_introl eq_refl))).
    cbn. apply IH; [assumption|]. intros c' Hc'.
    rewrite (existsb_keys (fun k => String.eqb (corridor_of k) (name c'))
               (fun kr => annotate_step md (fst kr) (snd kr) c)).
    apply Hcs. now right.
Qed.

Lemma create_data_agg_total self df rc md :
  get_format_data_for_agg self = Ok df ->
  report_contents self = Some rc ->
  metadata self = Some md ->
  corridors rc <> [] ->
  (forall c, In c (corridors rc) ->
     exists r, In r df /\ f_Corridor r = name c) ->
  exists out, create_data_agg self = Ok out.
Proof.
  intros Hdf Hrc Hmd Hne Hobs. unfold create_data_agg. rewrite Hdf, Hrc. cbn.
  destruct (foldM_add_corridor_total self md (corridors rc) (groupby_sum df) Hmd)
    as [agg ->].
  - intros c Hc. destruct (Hobs c Hc) as (r & Hr & Hname).
    apply existsb_exists. exists (gb_cols r, summed df (gb_cols r)). split.
    + change (groupby_sum df)
        with (map (fun k => (k, summed df k)) (remove_dups (map gb_cols df))).
      apply in_map_iff. exists (gb_cols r). split; [reflexivity|].
      apply list_elem_of_In, elem_of_remove_dups, list_elem_of_In, in_map_iff.
      eauto.
    + cbn. rewrite <- Hname. apply String.eqb_refl.
  - cbn. destruct (corridors rc); [congruence|]. eauto.
Qed.

(** C2.  In every row of the long output whose summed travel time is not
    0 the speed is the corridor length (the lengths of the metadata rows of
    the corridor's member segments, summed) divided by the summed travel
    time of the group and multiplied by 60.  In the synthetic archive, two
    segments of 1.0 and 2.0 miles with 3.0 minutes each, the speed is
    (1+2)/(3+3)*60 = 30. *)
Theorem speed_formula :
  (forall self wide_metric out_dir out_fn steps rows df rc md,
      get_format_data_for_agg self = Ok df ->
      report_contents self = Some rc ->
      metadata self = Some md ->
      segments_to_corridor self "long" wide_metric out_dir out_fn
      = (steps, Ok (Long rows)) ->
      forall row, In row rows ->
        ~ (total_travel_time df (long_key row) == 0)%Q ->
        exists c,
          configured rc (l_Corridor row) = Some c
          /\ l_Travel_Time row = total_travel_time df (long_key row)
          /\ l_Speed row
             = Some (corridor_length md c
                     / total_travel_time df (long_key row) * 60)%Q)
  /\ (exists steps row v,
        segments_to_corridor synthetic "long" None None None
        = (steps, Ok (Long [row]))
        /\ l_Time_Interval row = "08:15"
        /\ l_Speed row = Some v
        /\ (v == (1 + 2) / (3 + 3) * 60)%Q /\ (v == 30)%Q).
Proof.
  split.
  - intros self wide_metric out_dir out_fn steps rows df rc md Hdf Hrc Hmd Hrun
      row Hrow _.
    destruct (segments_to_corridor_long_ok _ _ _ _ _ _ Hrun) as (out & Hagg & Hrows).
    destruct (create_data_agg_ok _ _ Hagg)
      as (df' & rc' & md' & Hdf' & Hrc' & Hmd' & ->).
    assert (df' = df) as -> by congruence. assert (rc' = rc) as -> by congruence.
    assert (md' = md) as -> by congruence.
    destruct (mapM_inv_In _ _ _ _ Hrows Hrow) as (kr & Hkr & Hlr).
    apply in_map_iff in Hkr. destruct Hkr as (k & <- & Hk).
    apply filter_In in Hk. destruct Hk as [_ Hk]. apply bool_decide_eq_true in Hk.
    apply long_row_ok in Hlr. cbn [fst snd] in Hlr.
    destruct Hlr as (Hkey & Hspeed & Htt & Hcor).
    unfold configured_count in Hk.
    destruct (configured rc (corridor_of k)) as [c|] eqn:Hc; [|discriminate].
    exists c. rewrite Hcor, Hkey, Htt, Hspeed. split; [assumption|].
    unfold set_Speed. cbn [Travel_Time Speed].
    rewrite annotate_Travel_Time.
    destruct (annotate_columns md (corridors rc) k (summed df k)) as [_ ->].
    unfold configured in Hc. rewrite Hc. split; reflexivity.
  - eexists _, _, _. split; [vm_compute; reflexivity|].
    split; [reflexivity|]. split; [reflexivity|]. split; reflexivity.
Qed.

(** C8.  An out_format other than wide and long, and the wide format with
    a wide_metric other than speed and travel_time (or none), raise a
    ValueError with the message of the method before any step of the
    computation: the trace of steps is empty, whatever the holder holds. *)
Theorem invalid_arguments_raise_first self out_format wide_metric out_dir out_fn :
  (out_format <> "wide" -> out_format <> "long" ->
   segments_to_corridor self out_format wide_metric out_dir out_fn
   = ([], Raise (ValueError (format_msg out_format))))
  /\ (out_format = "wide" ->
      wide_metric <> Some "speed" -> wide_metric <> Some "travel_time" ->
      segments_to_corridor self out_format wide_metric out_dir out_fn
      = ([], Raise (ValueError (metric_msg out_format)))).
Proof.
  unfold segments_to_corridor. split.
  - intros Hw%String.eqb_neq Hl%String.eqb_neq. now rewrite Hw, Hl.
  - intros -> Hs Ht. cbn [String.eqb Ascii.eqb Bool.eqb negb orb andb].
    assert (is_metric wide_metric "speed" = false) as ->.
    { destruct wide_metric as [m|]; [cbn|reflexivity].
      apply String.eqb_neq. congruence. }
    assert (is_metric wide_metric "travel_time" = false) as ->.
    { destruct wide_metric as [m|]; [cbn|reflexivity].
      apply String.eqb_neq. congruence. }
    reflexivity.
Qed.

(** C7 as stated fails: an archive with data.csv and no metadata.csv
    makes the open raise and leaves the data table loaded. *)
Lemma read_zip_not_atomic :
  ~ (let '(self', r) :=
       read_zip no_files (ArgBytes (Some archive_without_metadata)) init in
     (r = Ok None /\ loaded self') \/ (r <> Ok None /\ unloaded self')).
Proof. vm_compute. intros [[[=] _]|(_ & [=] & _)]. Qed.

End Aggregation.

Section AggregationExamples.
Import Py InrixDatapro InrixDataproSpec.

(** The failed open of the archive without metadata.csv, in full. *)
Lemma read_zip_partial_load :
  read_zip no_files (ArgBytes (Some archive_without_metadata)) init
  = ({| ra_zip := Some (BytesIO (Some archive_without_metadata));
        data := Some [observation "2021-03-02T08:15:00-08:00" 101 3];
        metadata := None; report_contents := None |},
     Raise (KeyError "report/metadata.csv")).
Proof. reflexivity. Qed.

(** In the synthetic archive only one of the two segments reports at
    08:30: the output has the 08:15 row and nothing else. *)
Lemma partial_interval_absent :
  map long_key synthetic_long = [("I-80 E", "2021-03-02", "08:15")]
  /\ In ("I-80 E", "2021-03-02", "08:30") (map gb_cols synthetic_formatted)
  /\ observed_count synthetic_formatted ("I-80 E", "2021-03-02", "08:30") = 1
  /\ configured_count synthetic_contents "I-80 E" = Some 2.
Proof. repeat split; try reflexivity. cbn. auto. Qed.

Lemma coverage_filter_witness :
  get_format_data_for_agg synthetic = Ok synthetic_formatted
  /\ report_contents synthetic = Some synthetic_contents
  /\ segments_to_corridor synthetic "long" None None None
     = ([CreateDataAgg; SelectColumns; InsertDayOfWeek], Ok (Long synthetic_long))
  /\ NoDup (map long_key synthetic_long)
  /\ forall g,
       In g (map long_key synthetic_long)
       <-> In g (map gb_cols synthetic_formatted)
           /\ configured_count synthetic_contents (corridor_of g)
              = Some (observed_count synthetic_formatted g).
Proof.
  assert (get_format_data_for_agg synthetic = Ok synthetic_formatted) as Hdf
    by (vm_compute; reflexivity).
  assert (report_contents synthetic = Some synthetic_contents) as Hrc
    by reflexivity.
  assert (segments_to_corridor synthetic "long" None None None
          = ([CreateDataAgg; SelectColumns; InsertDayOfWeek],
             Ok (Long synthetic_long))) as Hrun
    by (vm_compute; reflexivity).
  split; [exact Hdf|]. split; [exact Hrc|]. split; [exact Hrun|].
  exact (coverage_filter synthetic None None None _ _ _ _ Hdf Hrc Hrun).
Defined.

Lemma speed_formula_witness :
  get_format_data_for_agg synthetic = Ok synthetic_formatted
  /\ report_contents synthetic = Some synthetic_contents
  /\ metadata synthetic = Some synthetic_metadata
  /\ segments_to_corridor synthetic "long" None None None
     = ([CreateDataAgg; SelectColumns; InsertDayOfWeek], Ok (Long synthetic_long))
  /\ forall row, In row synthetic_long ->
       ~ (total_travel_time synthetic_formatted (long_key row) == 0)%Q
       /\ exists c,
            configured synthetic_contents (l_Corridor row) = Some c
            /\ l_Travel_Time row
               = total_travel_time synthetic_formatted (long_key row)
            /\ l_Speed row
               = Some (corridor_length synthetic_metadata c
                       / total_travel_time synthetic_formatted (long_key row)
                       * 60)%Q.
Proof.
  assert (get_format_data_for_agg synthetic = Ok synthetic_formatted) as Hdf
    by (vm_compute; reflexivity).
  assert (report_contents synthetic = Some synthetic_contents) as Hrc
    by reflexivity.
  assert (metadata synthetic = Some synthetic_metadata) as Hmd by reflexivity.
  assert (segments_to_corridor synthetic "long" None None None
          = ([CreateDataAgg; SelectColumns; InsertDayOfWeek],
             Ok (Long synthetic_long))) as Hrun
    by (vm_compute; reflexivity).
  split; [exact Hdf|]. split; [exact Hrc|]. split; [exact Hmd|].
  split; [exact Hrun|]. intros row Hrow.
  assert (~ (total_travel_time synthetic_formatted (long_key row) == 0)%Q) as Hne.
  { destruct Hrow as [<-|[]]. vm_compute. discriminate. }
  split; [exact Hne|].
  exact (proj1 speed_formula synthetic None None None _ _ _ _ _ Hdf Hrc Hmd Hrun
           row Hrow Hne).
Defined.

(** On a holder with nothing loaded: the format tall, and the wide format
    without a metric. *)
Lemma invalid_arguments_raise_first_witness :
  ("tall" <> "wide" /\ "tall" <> "long"
   /\ segments_to_corridor init "tall" None None None
      = ([], Raise (ValueError "out_format is 'tall', should be 'wide' or 'long'")))
  /\ ("wide" = "wide" /\ @None string <> Some "speed"
      /\ @None string <> Some "travel_time"
      /\ segments_to_corridor init "wide" None None None
         = ([], Raise (ValueError
                  "wide_metric is 'wide', should be 'speed' or 'travel_time'"))).
Proof.
  assert ("tall" <> "wide") as H1 by discriminate.
  assert ("tall" <> "long") as H2 by discriminate.
  assert (@None string <> Some "speed") as H3 by discriminate.
  assert (@None string <> Some "travel_time") as H4 by discriminate.
  split.
  - split; [exact H1|]. split; [exact H2|].
    exact (proj1 (invalid_arguments_raise_first init "tall" None None None) H1 H2).
  - split; [reflexivity|]. split; [exact H3|]. split; [exact H4|].
    exact (proj2 (invalid_arguments_raise_first init "wide" None None None)
             eq_refl H3 H4).
Defined.

End AggregationExamples.

(* ===================================================================== *)
(** * Part III: further properties of the code                           *)
(* ===================================================================== *)

(** ** Volume reshaper: any sheet *)

Section AnySheet.
Import Py Bata BataSpec.

Variable sheet : list SheetRow.
Local Abbreviation rows := (dropna_Date sheet).

Lemma dated_row r0 : In r0 rows -> exists d, Date r0 = Some d.
Proof.
  intros Hin%list_elem_of_In%list_elem_of_filter. destruct Hin as [[d Hd] _].
  now exists d.
Qed.

Lemma timestamps_never_fail :
  mapM (fun r => ts ← Timestamp r; Ok (ts, r)) (melt rows) = Ok (stamped rows).
Proof.
  apply mapM_total. intros r Hr. apply in_melt in Hr.
  destruct Hr as (r0 & i & h & Hr0 & Hi & ->).
  destruct (dated_row _ Hr0) as (d & Hd).
  destruct (stamp_cell r0 i h d Hd Hi) as (HT & Hs & _).
  rewrite Hs, HT. reflexivity.
Qed.

Lemma in_stamped_rows x :
  In x (stamped rows) <->
  exists r0 i h d, In r0 rows /\ time_cols !! i = Some h /\ Date r0 = Some d
    /\ (i < 24)%nat
    /\ x = (d * 86400 + (3600 * Z.of_nat i + 1), cell r0 h).
Proof.
  unfold stamped. rewrite in_map_iff. split.
  - intros (r & <- & Hr). apply in_melt in Hr.
    destruct Hr as (r0 & i & h & Hr0 & Hi & ->).
    destruct (dated_row _ Hr0) as (d & Hd).
    destruct (stamp_cell r0 i h d Hd Hi) as (_ & Hs & Hlt).
    exists r0, i, h, d. rewrite Hs. auto 10.
  - intros (r0 & i & h & d & Hr0 & Hi & Hd & _ & ->).
    exists (cell r0 h). destruct (stamp_cell r0 i h d Hd Hi) as (_ & Hs & _).
    rewrite Hs. split; [reflexivity|]. apply in_melt. now exists r0, i, h.
Qed.

Lemma hour_groups :
  length (remove_dups (map (fun x : Z * MeltRow => fst x) (stamped rows)))
  = (24 * length (remove_dups (map Date rows)))%nat.
Proof.
  rewrite (length_remove_dups_same _
    ((fun p : option Z * nat =>
        default 0 (fst p) * 86400 + (3600 * Z.of_nat (snd p) + 1))
       <$> list_prod (remove_dups (map Date rows)) (seq 0 24))).
  - rewrite length_fmap, length_prod, length_seq. lia.
  - apply NoDup_fmap_2_strong.
    + intros [od i] [od' j] Hp Hq Heq.
      apply list_elem_of_In, in_prod_iff in Hp. destruct Hp as [Hd Hi%in_seq].
      apply list_elem_of_In, in_prod_iff in Hq. destruct Hq as [Hd' Hj%in_seq].
      apply list_elem_of_In, elem_of_remove_dups, list_elem_of_In, in_map_iff in Hd.
      apply list_elem_of_In, elem_of_remove_dups, list_elem_of_In, in_map_iff in Hd'.
      destruct Hd as (r & <- & Hr). destruct Hd' as (r' & <- & Hr').
      destruct (dated_row _ Hr) as [d Hd]. destruct (dated_row _ Hr') as [d' Hd'].
      rewrite Hd, Hd' in *. simpl in *. f_equal; [f_equal|]; lia.
    + apply NoDup_list_prod; [apply NoDup_remove_dups | apply NoDup_seq].
  - intros t. rewrite list_elem_of_In, in_map_iff, list_elem_of_fmap. split.
    + intros (x & <- & Hx). apply in_stamped_rows in Hx.
      destruct Hx as (r0 & i & h & d & Hr0 & _ & Hd & Hi & ->).
      exists (Some d, i). split; [reflexivity|].
      apply list_elem_of_In, in_prod_iff. split; [|apply in_seq; lia].
      apply list_elem_of_In, elem_of_remove_dups, list_elem_of_In, in_map_iff.
      exists r0. auto.
    + intros ([od i] & -> & Hp). apply list_elem_of_In, in_prod_iff in Hp.
      destruct Hp as [Hd Hi%in_seq].
      apply list_elem_of_In, elem_of_remove_dups, list_elem_of_In, in_map_iff in Hd.
      destruct Hd as (r0 & <- & Hr0). destruct (dated_row _ Hr0) as [d Hd].
      destruct (lookup_lt_is_Some_2 time_cols i) as [h Hh]; [simpl; lia|].
      exists (d * 86400 + (3600 * Z.of_nat i + 1), cell r0 h).
      split; [simpl; now rewrite Hd|]. apply in_stamped_rows.
      exists r0, i, h, d. repeat split; auto; lia.
Qed.

Lemma day_lane_groups :
  length (remove_dups
            (map (fun x : Z * MeltRow => (dt_date (fst x), mLane (snd x)))
                 (stamped rows)))
  = length (remove_dups (map (fun r => (Date r, Lane_ID r)) rows)).
Proof.
  rewrite (length_remove_dups_same _
    ((fun p : option Z * Z => (default 0 (fst p), snd p))
       <$> remove_dups (map (fun r => (Date r, Lane_ID r)) rows))).
  - now rewrite length_fmap.
  - apply NoDup_fmap_2_strong; [|apply NoDup_remove_dups].
    intros [od l] [od' l'] Hp Hq Heq.
    apply elem_of_remove_dups, list_elem_of_In, in_map_iff in Hp.
    apply elem_of_remove_dups, list_elem_of_In, in_map_iff in Hq.
    destruct Hp as (r & [= <- <-] & Hr). destruct Hq as (r' & [= <- <-] & Hr').
    destruct (dated_row _ Hr) as [d Hd]. destruct (dated_row _ Hr') as [d' Hd'].
    rewrite Hd, Hd' in *. simpl in Heq. congruence.
  - intros [d l]. rewrite list_elem_of_In, in_map_iff, list_elem_of_fmap. split.
    + intros (x & [= <- <-] & Hx). apply in_stamped_rows in Hx.
      destruct Hx as (r0 & i & h & d & Hr0 & _ & Hd & Hi & ->).
      exists (Some d, Lane_ID r0). split.
      * simpl. now rewrite (dt_date_at d) by lia.
      * apply elem_of_remove_dups, list_elem_of_In, in_map_iff.
        exists r0. rewrite Hd. auto.
    + intros ([od l0] & [= -> ->] & Hp).
      apply elem_of_remove_dups, list_elem_of_In, in_map_iff in Hp.
      destruct Hp as (r0 & [= <- <-] & Hr0). destruct (dated_row _ Hr0) as [d Hd].
      exists (d * 86400 + (3600 * Z.of_nat 0 + 1), cell r0 "0000-0100").
      split; [simpl; rewrite (dt_date_at d) by lia; now rewrite Hd|].
      apply in_stamped_rows. exists r0, 0%nat, "0000-0100", d.
      repeat split; auto; lia.
Qed.

Lemma day_groups :
  length (remove_dups
            (map (fun x : Z * MeltRow => dt_date (fst x)) (stamped rows)))
  = length (remove_dups (map Date rows)).
Proof.
  rewrite (length_remove_dups_same _
    (default 0 <$> remove_dups (map Date rows))).
  - now rewrite length_fmap.
  - apply NoDup_fmap_2_strong; [|apply NoDup_remove_dups].
    intros od od' Hp Hq Heq.
    apply elem_of_remove_dups, list_elem_of_In, in_map_iff in Hp.
    apply elem_of_remove_dups, list_elem_of_In, in_map_iff in Hq.
    destruct Hp as (r & <- & Hr). destruct Hq as (r' & <- & Hr').
    destruct (dated_row _ Hr) as [d Hd]. destruct (dated_row _ Hr') as [d' Hd'].
    rewrite Hd, Hd' in *. simpl in Heq. congruence.
  - intros d. rewrite list_elem_of_In, in_map_iff, list_elem_of_fmap. split.
    + intros (x & <- & Hx). apply in_stamped_rows in Hx.
      destruct Hx as (r0 & i & h & d' & Hr0 & _ & Hd & Hi & ->).
      exists (Some d'). split.
      * simpl. now rewrite (dt_date_at d') by lia.
      * apply elem_of_remove_dups, list_elem_of_In, in_map_iff. exists r0. auto.
    + intros (od & -> & Hp).
      apply elem_of_remove_dups, list_elem_of_In, in_map_iff in Hp.
      destruct Hp as (r0 & <- & Hr0). destruct (dated_row _ Hr0) as [d Hd].
      exists (d * 86400 + (3600 * Z.of_nat 0 + 1), cell r0 "0000-0100").
      split; [simpl; rewrite (dt_date_at d) by lia; now rewrite Hd|].
      apply in_stamped_rows. exists r0, 0%nat, "0000-0100", d.
      repeat split; auto; lia.
Qed.

(** X1.  For every sheet that has a row with a date, ragged or not,
    [ctvr_to_long] returns, and its table has 24 rows for each sheet row
    that has a date when nothing is summed, 24 rows for each distinct date
    with sum_lanes, one row for each distinct pair of date and lane with
    sum_hours, and one row for each distinct date with both; rows without a
    date count for nothing.  On a sheet without any row the call raises
    KeyError for the Volume column when the lanes are summed. *)
Theorem ctvr_to_long_counts_any_sheet (out_dir out_fn : option string) :
  (rows <> [] ->
   let dates := remove_dups (map Date rows) in
   let lanes_of_days :=
     remove_dups (map (fun r => (Date r, Lane_ID r)) rows) in
   (exists o, ctvr_to_long sheet out_dir out_fn false false = Ok o
              /\ nrows (table o) = (24 * length rows)%nat)
   /\ (exists o, ctvr_to_long sheet out_dir out_fn true false = Ok o
                 /\ nrows (table o) = (24 * length dates)%nat)
   /\ (exists o, ctvr_to_long sheet out_dir out_fn false true = Ok o
                 /\ nrows (table o) = length lanes_of_days)
   /\ (exists o, ctvr_to_long sheet out_dir out_fn true true = Ok o
                 /\ nrows (table o) = length dates))
  /\ (sheet = [] ->
      forall sum_hours,
        ctvr_to_long sheet out_dir out_fn true sum_hours
        = Raise (KeyError "Volume")).
Proof.
  split.
  - intros Hrows dates lanes_of_days. unfold ctvr_to_long.
    rewrite timestamps_never_fail. cbn [negb andb mbind result_bind Py.bind].
    rewrite !(Volume_column_of_rows sheet _ Hrows).
    repeat split; (eexists; split; [reflexivity|]); simpl.
    + unfold stamped. rewrite !length_map. apply length_melt.
    + unfold groupby_sum. rewrite length_map. apply hour_groups.
    + unfold groupby_sum. rewrite !length_map. apply day_lane_groups.
    + unfold groupby_sum. rewrite length_map. apply day_groups.
  - intros Hempty sum_hours. unfold ctvr_to_long. rewrite timestamps_never_fail.
    rewrite Hempty. now destruct sum_hours.
Qed.

End AnySheet.

(** ** Volume reshaper: the timestamps of the rows *)

Section HourlyTimestamps.
Import Py Bata BataSpec BataWorkbookSpec.

Variable sheet : list SheetRow.
Local Abbreviation melted := (melt (dropna_Date sheet)).

(** A melted row has a date and one of the 24 hour columns, and they give
    its timestamp. *)
Lemma melted_row (m : MeltRow) :
  In m melted ->
  exists d i, mDate m = Some d /\ time_cols !! i = Some (mHour m).
Proof.
  intros Hm%in_melt. destruct Hm as (r0 & i & h & Hr0 & Hi & ->).
  destruct (dated_row _ _ Hr0) as [d Hd]. exists d, i. auto.
Qed.

Lemma stamp_at (m : MeltRow) (d : Z) (i : nat) :
  mDate m = Some d -> time_cols !! i = Some (mHour m) ->
  stamp m = d * 86400 + (3600 * Z.of_nat i + 1) /\ (i < 24)%nat.
Proof.
  intros Hd Hi. unfold stamp. rewrite (Timestamp_at m d i Hd Hi).
  destruct (time_cols_seconds _ _ Hi). auto.
Qed.

(** C5.  Without aggregation [ctvr_to_long] returns one row for each
    melted row, in order, with the lane and the volume of that row and, as
    its timestamp, the date and the hour of the row's column, one second
    past the hour.  So the row of hour 0000-0100 on a date D has a
    timestamp after the one of the row of 2300-2400 on the date before and
    before the one of the row of 0100-0200 on D, and it stays on D; and the
    timestamps of any two rows are ordered as their (date, hour) pairs, so
    rows of different dates or hours never share one. *)
Theorem hourly_timestamps_ordered (out_dir out_fn : option string) :
  exists o rows,
    ctvr_to_long sheet out_dir out_fn false false = Ok o
    /\ table o = ByHourLane rows
    /\ Forall2 (fun m x =>
                  exists d i,
                    mDate m = Some d /\ time_cols !! i = Some (mHour m)
                    /\ x = (d * 86400 + (3600 * Z.of_nat i + 1),
                            mLane m, mVolume m))
               melted rows
    /\ (forall (k0 k1 k23 : nat) m0 m1 m23 x0 x1 x23 (D : Z),
          melted !! k0 = Some m0 -> rows !! k0 = Some x0 ->
          melted !! k1 = Some m1 -> rows !! k1 = Some x1 ->
          melted !! k23 = Some m23 -> rows !! k23 = Some x23 ->
          mDate m0 = Some D -> mHour m0 = "0000-0100" ->
          mDate m1 = Some D -> mHour m1 = "0100-0200" ->
          mDate m23 = Some (D - 1) -> mHour m23 = "2300-2400" ->
          timestamp_of x23 < timestamp_of x0
          /\ timestamp_of x0 < timestamp_of x1
          /\ dt_date (timestamp_of x0) = D)
    /\ (forall (k k' : nat) m m' x x' (d d' : Z) (i j : nat),
          melted !! k = Some m -> rows !! k = Some x ->
          melted !! k' = Some m' -> rows !! k' = Some x' ->
          mDate m = Some d -> time_cols !! i = Some (mHour m) ->
          mDate m' = Some d' -> time_cols !! j = Some (mHour m') ->
          dt_date (timestamp_of x) = d
          /\ (timestamp_of x < timestamp_of x'
              <-> d < d' \/ (d = d' /\ (i < j)%nat))
          /\ (timestamp_of x = timestamp_of x' <-> d = d' /\ i = j)).
Proof.
  unfold ctvr_to_long. rewrite (timestamps_never_fail sheet).
  cbn [negb andb mbind result_bind Py.bind].
  eexists _, _. split; [reflexivity|]. cbn [table]. split; [reflexivity|].
  unfold stamped. rewrite map_map. cbn [fst snd].
  change (map (fun m => (stamp m, mLane m, mVolume m)) melted)
    with ((fun m => (stamp m, mLane m, mVolume m)) <$> melted).
  assert (Hrow : forall (k : nat) m x,
            melted !! k = Some m ->
            ((fun m => (stamp m, mLane m, mVolume m)) <$> melted) !! k = Some x ->
            timestamp_of x = stamp m).
  { intros k m x Hm Hx. rewrite list_lookup_fmap, Hm in Hx.
    now injection Hx as <-. }
  split; [|split].
  - apply Forall2_fmap_r, Forall_Forall2_diag, Forall_forall.
    intros m Hm%list_elem_of_In. destruct (melted_row m Hm) as (d & i & Hd & Hi).
    exists d, i. destruct (stamp_at m d i Hd Hi) as [-> _]. auto.
  - intros k0 k1 k23 m0 m1 m23 x0 x1 x23 D Hm0 Hx0 Hm1 Hx1 Hm23 Hx23
      Hd0 Hh0 Hd1 Hh1 Hd23 Hh23.
    rewrite (Hrow _ _ _ Hm0 Hx0), (Hrow _ _ _ Hm1 Hx1), (Hrow _ _ _ Hm23 Hx23).
    destruct (stamp_at m0 D 0 Hd0) as [-> _]; [now rewrite Hh0|].
    destruct (stamp_at m1 D 1 Hd1) as [-> _]; [now rewrite Hh1|].
    destruct (stamp_at m23 (D - 1) 23 Hd23) as [-> _]; [now rewrite Hh23|].
    split; [lia|]. split; [lia|]. apply dt_date_at. lia.
  - intros k k' m m' x x' d d' i j Hm Hx Hm' Hx' Hd Hi Hd' Hj.
    rewrite (Hrow _ _ _ Hm Hx), (Hrow _ _ _ Hm' Hx').
    destruct (stamp_at m d i Hd Hi) as [-> Hi24].
    destruct (stamp_at m' d' j Hd' Hj) as [-> Hj24].
    split; [apply dt_date_at; lia|]. split; lia.
Qed.

End HourlyTimestamps.

Section HourlyTimestampExamples.
Import Py Bata BataSpec BataWorkbookSpec.

(** Midnight of day 18688 in the sheet of two days and two lanes, between
    the last hour of day 18687 and the second hour of day 18688. *)
Lemma hourly_timestamps_ordered_witness :
  exists o rows x0 x1 x23,
    ctvr_to_long sheet_2x2 None None false false = Ok o
    /\ table o = ByHourLane rows
    /\ rows !! 2%nat = Some x0 /\ rows !! 6%nat = Some x1
    /\ rows !! 92%nat = Some x23
    /\ timestamp_of x23 < timestamp_of x0
    /\ timestamp_of x0 < timestamp_of x1
    /\ dt_date (timestamp_of x0) = 18688.
Proof.
  destruct (hourly_timestamps_ordered sheet_2x2 None None)
    as (o & rows & Hrun & Htab & Hrows & Hmid & _).
  pose (m0 := {| mDate := Some 18688; mDay := "Mon"; mLane := 1;
                 mHour := "0000-0100"; mVolume := Some 1 |}).
  pose (m1 := {| mDate := Some 18688; mDay := "Mon"; mLane := 1;
                 mHour := "0100-0200"; mVolume := Some 1 |}).
  pose (m23 := {| mDate := Some 18687; mDay := "Mon"; mLane := 1;
                  mHour := "2300-2400"; mVolume := Some 1 |}).
  assert (melt (dropna_Date sheet_2x2) !! 2%nat = Some m0) as Hm0 by reflexivity.
  assert (melt (dropna_Date sheet_2x2) !! 6%nat = Some m1) as Hm1 by reflexivity.
  assert (melt (dropna_Date sheet_2x2) !! 92%nat = Some m23) as Hm23
    by reflexivity.
  destruct (Forall2_lookup_l _ _ _ _ _ Hrows Hm0) as (x0 & Hx0 & _).
  destruct (Forall2_lookup_l _ _ _ _ _ Hrows Hm1) as (x1 & Hx1 & _).
  destruct (Forall2_lookup_l _ _ _ _ _ Hrows Hm23) as (x23 & Hx23 & _).
  exists o, rows, x0, x1, x23.
  split; [exact Hrun|]. split; [exact Htab|]. split; [exact Hx0|].
  split; [exact Hx1|]. split; [exact Hx23|].
  exact (Hmid 2%nat 6%nat 92%nat m0 m1 m23 x0 x1 x23 18688
           Hm0 Hx0 Hm1 Hx1 Hm23 Hx23 eq_refl eq_refl eq_refl eq_refl eq_refl
           eq_refl).
Defined.

Lemma ctvr_to_long_counts_any_sheet_witness :
  dropna_Date sheet_ragged <> []
  /\ (exists o, ctvr_to_long sheet_ragged None None false false = Ok o
                /\ nrows (table o) = 72%nat)
  /\ (exists o, ctvr_to_long sheet_ragged None None true false = Ok o
                /\ nrows (table o) = 48%nat)
  /\ (exists o, ctvr_to_long sheet_ragged None None false true = Ok o
                /\ nrows (table o) = 3%nat)
  /\ (exists o, ctvr_to_long sheet_ragged None None true true = Ok o
                /\ nrows (table o) = 2%nat).
Proof.
  assert (dropna_Date sheet_ragged <> []) as Hrows by discriminate.
  split; [exact Hrows|].
  exact (proj1 (ctvr_to_long_counts_any_sheet sheet_ragged None None) Hrows).
Defined.

End HourlyTimestampExamples.

(** ** Volume reshaper: the volume is kept *)

Section Conservation.
Import Py Bata BataSpec BataWorkbookSpec.

Lemma sum_split {A} (v : A -> option Z) (P : A -> Prop) `{!forall x, Decision (P x)}
    (l : list A) :
  sum_skipna_Z (map v l)
  = sum_skipna_Z (map v (filter P l))
    + sum_skipna_Z (map v (filter (fun x => ~ P x) l)).
Proof.
  induction l as [|x l IH]; [reflexivity|].
  rewrite !filter_cons. cbn [map sum_skipna_Z fold_right].
  fold (sum_skipna_Z (map v l)). rewrite IH.
  destruct (decide (P x)) as [HP|HP].
  - rewrite decide_False by tauto. cbn. destruct (v x); unfold sum_skipna_Z; lia.
  - rewrite decide_True by tauto. cbn. destruct (v x); unfold sum_skipna_Z; lia.
Qed.

Lemma sum_by_groups {A K} `{EqDecision K} (v : A -> option Z) (key : A -> K)
    (ks : list K) :
  NoDup ks ->
  forall l : list A,
    (forall x, In x l -> key x ∈ ks) ->
    fold_right Z.add 0
      (map (fun k => sum_skipna_Z (map v (filter (fun x => key x = k) l))) ks)
    = sum_skipna_Z (map v l).
Proof.
  induction 1 as [|k0 ks Hk0 Hnd IH]; intros l Hl.
  - destruct l as [|x l]; [reflexivity|].
    specialize (Hl x (or_introl eq_refl)). now apply elem_of_nil in Hl.
  - cbn [map fold_right].
    rewrite (sum_split v (fun x => key x = k0) l). f_equal.
    rewrite <- (IH (filter (fun x => key x <> k0) l)).
    + f_equal. apply map_ext_in. intros k Hk. f_equal. f_equal.
      rewrite list_filter_filter. apply list_filter_iff.
      intros x. split; [|tauto]. intros <-. split; [reflexivity|].
      intros Heq. apply Hk0. rewrite <- Heq. now apply list_elem_of_In.
    + intros x Hx%list_elem_of_In%list_elem_of_filter. destruct Hx as [Hne Hx].
      specialize (Hl x (proj1 (list_elem_of_In _ _) Hx)).
      apply elem_of_cons in Hl. destruct Hl as [Heq|Hl]; [contradiction | assumption].
Qed.

Lemma groupby_sum_total {K} `{EqDecision K} (key : Z * MeltRow -> K)
    (data : list (Z * MeltRow)) :
  fold_right Z.add 0 (map snd (groupby_sum key data))
  = sum_skipna_Z (map (fun x => mVolume (snd x)) data).
Proof.
  unfold groupby_sum. rewrite map_map. cbn [snd].
  apply (sum_by_groups (fun x => mVolume (snd x)) key).
  - apply NoDup_remove_dups.
  - intros x Hx. apply elem_of_remove_dups, list_elem_of_In, in_map_iff. eauto.
Qed.

(** X2.  For a sheet that has a row with a date, counts that are not
    negative and a total below 2^53 (so that the sums of pandas, in int64
    or in float64, are the sums of the integers), and whatever the two
    flags, [ctvr_to_long] returns, and the Volume column of its table sums
    to the vehicles counted in the dated rows of the sheet, an empty cell
    counting as none: the aggregation loses no vehicle and counts none
    twice. *)
Theorem ctvr_to_long_keeps_volume (sheet : list SheetRow)
    (out_dir out_fn : option string) (sum_lanes sum_hours : bool) :
  dropna_Date sheet <> [] ->
  (forall r h v, In r (dropna_Date sheet) -> In h time_cols ->
     Hours r h = Some v -> 0 <= v) ->
  sheet_volume sheet < 2 ^ 53 ->
  exists o,
    ctvr_to_long sheet out_dir out_fn sum_lanes sum_hours = Ok o
    /\ total_volume (table o) = sheet_volume sheet.
Proof.
  intros Hrows _ _. unfold ctvr_to_long. rewrite timestamps_never_fail.
  unfold sheet_volume.
  assert (sum_skipna_Z (map (fun x : Z * MeltRow => mVolume (snd x))
                            (stamped (dropna_Date sheet)))
          = sum_skipna_Z (map mVolume (melt (dropna_Date sheet)))) as Hs
    by (unfold stamped; now rewrite map_map).
  destruct sum_lanes, sum_hours; cbn [negb andb mbind result_bind Py.bind];
    rewrite ?(Volume_column_of_rows sheet _ Hrows);
    (eexists; split; [reflexivity|]); cbn [table total_volume].
  - rewrite groupby_sum_total. exact Hs.
  - rewrite groupby_sum_total. exact Hs.
  - rewrite map_map. cbn [snd].
    rewrite <- (map_map snd (fun v => v)), map_id, groupby_sum_total. exact Hs.
  - rewrite map_map. cbn [snd]. exact Hs.
Qed.

Lemma ctvr_to_long_keeps_volume_witness :
  dropna_Date sheet_ragged <> []
  /\ (forall r h v, In r (dropna_Date sheet_ragged) -> In h time_cols ->
        Hours r h = Some v -> 0 <= v)
  /\ sheet_volume sheet_ragged < 2 ^ 53
  /\ exists o,
       ctvr_to_long sheet_ragged None None true true = Ok o
       /\ total_volume (table o) = 192.
Proof.
  assert (dropna_Date sheet_ragged <> []) as H1 by discriminate.
  assert (forall r h v, In r (dropna_Date sheet_ragged) -> In h time_cols ->
            Hours r h = Some v -> 0 <= v) as H2.
  { intros r h v [<-|[<-|[<-|[]]]] _; cbn; intros [= <-]; lia. }
  assert (sheet_volume sheet_ragged < 2 ^ 53) as H3 by (vm_compute; reflexivity).
  split; [exact H1|]. split; [exact H2|]. split; [exact H3|].
  exact (ctvr_to_long_keeps_volume sheet_ragged None None true true H1 H2 H3).
Defined.

End Conservation.

(** ** Python dicts *)

Section Dicts.
Import Py.
Context {V : Type}.

Lemma dict_get_set (k k' : string) (v : V) (d : list (string * V)) :
  dict_get k (dict_set k' v d) = if String.eqb k' k then Some v else dict_get k d.
Proof.
  induction d as [|[k0 v0] d IH]; cbn.
  - now destruct (String.eqb k' k).
  - destruct (String.eqb k0 k') eqn:E0; cbn.
    + apply String.eqb_eq in E0. subst k0.
      destruct (String.eqb k' k); reflexivity.
    + rewrite IH. destruct (String.eqb k0 k) eqn:E1; [|reflexivity].
      apply String.eqb_eq in E1. subst k0. now rewrite String.eqb_sym, E0.
Qed.

Lemma dict_get_remove_other (k k' : string) (d : list (string * V)) :
  k <> k' -> dict_get k (dict_remove k' d) = dict_get k d.
Proof.
  intros Hne. induction d as [|[k0 v0] d IH]; cbn; [reflexivity|].
  destruct (String.eqb k0 k') eqn:E0; cbn.
  - apply String.eqb_eq in E0. subst k0.
    now rewrite (proj2 (String.eqb_neq k' k)) by congruence.
  - rewrite IH. reflexivity.
Qed.

Lemma dict_get_remove_same (k : string) (d : list (string * V)) :
  NoDup (map fst d) -> dict_get k (dict_remove k d) = None.
Proof.
  induction d as [|[k0 v0] d IH]; cbn; [reflexivity|]. intros Hnd.
  apply NoDup_cons in Hnd. destruct Hnd as [Hk0 Hnd].
  destruct (String.eqb k0 k) eqn:E0; cbn.
  - apply String.eqb_eq in E0. subst k0.
    destruct (dict_get k d) as [v|] eqn:Hg; [|reflexivity].
    exfalso. apply Hk0. clear -Hg. induction d as [|[k1 v1] d IH]; [discriminate|].
    cbn in *. destruct (String.eqb k1 k) eqn:E; [|right; auto].
    apply String.eqb_eq in E. subst. now left.
  - rewrite E0. auto.
Qed.

End Dicts.

(** ** Volume reshaper: workbooks and several bridges *)

Section Workbooks.
Import Py Bata BataSpec BataWorkbook BataWorkbookSpec.

Lemma mapM_app_Raise {A B} (f : A -> result B) (before after : list A) (x : A)
    (e : exn) :
  (forall y, In y before -> exists b, f y = Ok b) -> f x = Raise e ->
  mapM f (before ++ x :: after) = Raise e.
Proof.
  intros Hb Hx. induction before as [|y before IH]; cbn.
  - now rewrite Hx.
  - destruct (Hb y (or_introl eq_refl)) as [b ->]. cbn.
    rewrite IH; [reflexivity|]. intros z Hz. apply Hb. now right.
Qed.

Lemma upper_keys_get (k : string) (sheets : Workbook) :
  forall acc,
    dict_get k (fold_left (fun acc kv => dict_set (upper (fst kv)) (snd kv) acc)
                          sheets acc)
    = match InrixDataproSpec.find_last
              (fun kv => String.eqb (upper (fst kv)) k) sheets with
      | Some kv => Some (snd kv)
      | None => dict_get k acc
      end.
Proof.
  induction sheets as [|[n s] sheets IH]; intros acc; cbn; [reflexivity|].
  rewrite IH. destruct (InrixDataproSpec.find_last _ sheets); [reflexivity|].
  rewrite dict_get_set. cbn. now destruct (String.eqb (upper n) k).
Qed.

(** X3.  [ctvr_to_long] from the file on, for a workbook whose sheet
    names are written in ASCII.  A missing file raises FileNotFoundError
    with the path in_dir + in_fn.  Otherwise the sheet that is reshaped is
    the last one whose name is DAILY BY HOUR BY LANE when its letters are
    put in upper case, whatever sheets precede or follow it; a workbook
    without such a sheet raises KeyError with that name. *)
Theorem ctvr_to_long_file_sheet (files : Files) (in_dir in_fn : string)
    (out_dir out_fn : option string) (sum_lanes sum_hours : bool) :
  (forall sheets, files (in_dir +:+ in_fn) = Some sheets ->
     forall name data, In (name, data) sheets -> ascii_only name = true) ->
  ctvr_to_long_file files in_dir in_fn out_dir out_fn sum_lanes sum_hours
  = match files (in_dir +:+ in_fn) with
    | None => Raise (FileNotFoundError (in_dir +:+ in_fn))
    | Some sheets =>
        match daily_sheet sheets with
        | Some data => ctvr_to_long data out_dir out_fn sum_lanes sum_hours
        | None => Raise (KeyError "DAILY BY HOUR BY LANE")
        end
    end.
Proof.
  intros _.
  unfold ctvr_to_long_file, read_excel, daily_sheet, upper_keys, dict_item.
  destruct (files (in_dir +:+ in_fn)) as [sheets|]; [cbn|reflexivity].
  rewrite upper_keys_get.
  destruct (InrixDataproSpec.find_last _ sheets); reflexivity.
Qed.

Lemma ctvr_to_long_file_sheet_witness :
  (forall sheets, two_bridges ("in/" +:+ "bay.xls") = Some sheets ->
     forall name data, In (name, data) sheets -> ascii_only name = true)
  /\ daily_sheet workbook_2x2 = Some sheet_2x2
  /\ ctvr_to_long_file two_bridges "in/" "bay.xls" None None true true
     = ctvr_to_long sheet_2x2 None None true true.
Proof.
  assert (forall sheets, two_bridges ("in/" +:+ "bay.xls") = Some sheets ->
            forall name data, In (name, data) sheets -> ascii_only name = true)
    as H.
  { intros sheets [= <-] name data [[= <- _]|[[= <- _]|[]]]; reflexivity. }
  split; [exact H|]. split; [reflexivity|].
  exact (ctvr_to_long_file_sheet two_bridges "in/" "bay.xls" None None true true H).
Defined.

(** X4.  When the mapping is not empty and the file of every bridge can be
    reshaped, [combine_ctvrs] returns the rows of the bridges, bridge
    after bridge in the order of the mapping; the number of rows is the sum
    of the bridges' row counts, and every row carries the name of a bridge
    of the mapping. *)
Theorem combine_ctvrs_rows (files : Files) (in_dir : string)
    (in_fn_dict : list (string * string)) (out_dir out_fn : option string)
    (sum_lanes sum_hours : bool) :
  in_fn_dict <> [] ->
  (forall item, In item in_fn_dict ->
     exists o, ctvr_to_long_file files in_dir (snd item) None None
                 sum_lanes sum_hours = Ok o) ->
  exists res,
    combine_ctvrs files in_dir in_fn_dict out_dir out_fn sum_lanes sum_hours
    = Ok res
    /\ result_rows res
       = flat_map (bridge_rows files in_dir sum_lanes sum_hours) in_fn_dict
    /\ length (result_rows res)
       = fold_right Nat.add 0%nat
           (map (fun item =>
                   match ctvr_to_long_file files in_dir (snd item) None None
                           sum_lanes sum_hours with
                   | Ok o => nrows (table o)
                   | Raise _ => 0%nat
                   end) in_fn_dict)
    /\ (forall r, In r (result_rows res) ->
          In (Bridge_Name r) (map fst in_fn_dict)).
Proof.
  intros Hne Hall. unfold combine_ctvrs.
  rewrite (mapM_total _ (bridge_rows files in_dir sum_lanes sum_hours)).
  2:{ intros item Hitem. destruct (Hall item Hitem) as [o Ho].
      unfold bridge_rows. rewrite Ho. reflexivity. }
  cbn. unfold concat.
  destruct (map _ in_fn_dict) as [|b bs] eqn:Hmap.
  { destruct in_fn_dict; [congruence | discriminate]. }
  rewrite <- Hmap. cbn. eexists. split; [reflexivity|]. cbn [result_rows].
  rewrite <- flat_map_concat_map. split; [reflexivity|]. split.
  - clear Hmap Hne. induction in_fn_dict as [|item l IH]; [reflexivity|].
    cbn [flat_map map fold_right]. rewrite length_app, IH.
    2:{ intros i Hi. apply Hall. now right. }
    f_equal. unfold bridge_rows, tagged.
    destruct (ctvr_to_long_file _ _ _ _ _ _ _) as [o|e]; [|reflexivity].
    rewrite length_map. unfold rows_of, nrows.
    destruct (table o); now rewrite length_map.
  - intros r Hr. apply in_flat_map in Hr. destruct Hr as (item & Hitem & Hr).
    unfold bridge_rows, tagged in Hr.
    destruct (ctvr_to_long_file _ _ _ _ _ _ _); [|destruct Hr].
    apply in_map_iff in Hr. destruct Hr as (r0 & <- & _). cbn.
    apply in_map_iff. eauto.
Qed.

(** X5.  [combine_ctvrs] on an empty mapping raises ValueError, there being
    nothing to concatenate; and the first bridge whose file cannot be
    reshaped ends the call with the exception of that bridge, whatever
    comes after it: no partial table is returned. *)
Theorem combine_ctvrs_fails_fast (files : Files) (in_dir : string)
    (out_dir out_fn : option string) (sum_lanes sum_hours : bool) :
  combine_ctvrs files in_dir [] out_dir out_fn sum_lanes sum_hours
  = Raise (ValueError "No objects to concatenate")
  /\ forall before item after e,
       (forall i, In i before ->
          exists o, ctvr_to_long_file files in_dir (snd i) None None
                      sum_lanes sum_hours = Ok o) ->
       ctvr_to_long_file files in_dir (snd item) None None sum_lanes sum_hours
       = Raise e ->
       combine_ctvrs files in_dir (before ++ item :: after) out_dir out_fn
         sum_lanes sum_hours = Raise e.
Proof.
  split; [reflexivity|]. intros before item after e Hb Hitem.
  unfold combine_ctvrs. rewrite (mapM_app_Raise _ before after item e).
  - reflexivity.
  - intros i Hi. destruct (Hb i Hi) as [o ->]. cbn. eauto.
  - cbn. now rewrite Hitem.
Qed.

End Workbooks.

Section WorkbookExamples.
Import Py Bata BataSpec BataWorkbook BataWorkbookSpec.

Lemma combine_ctvrs_rows_witness :
  bridges <> []
  /\ (forall item, In item bridges ->
        exists o, ctvr_to_long_file two_bridges "in/" (snd item) None None
                    true true = Ok o)
  /\ exists res,
       combine_ctvrs two_bridges "in/" bridges None None true true = Ok res
       /\ forall r, In r (result_rows res) ->
            In (Bridge_Name r) (map fst bridges).
Proof.
  assert (bridges <> []) as H1 by discriminate.
  assert (forall item, In item bridges ->
            exists o, ctvr_to_long_file two_bridges "in/" (snd item) None None
                        true true = Ok o) as H2.
  { intros item [<-|[<-|[]]]; eexists; vm_compute; reflexivity. }
  split; [exact H1|]. split; [exact H2|].
  destruct (combine_ctvrs_rows two_bridges "in/" bridges None None true true
              H1 H2) as (res & Hrun & _ & _ & Hnames).
  exists res. split; [exact Hrun | exact Hnames].
Defined.

Lemma combine_ctvrs_fails_fast_witness :
  (forall i, In i [("Bay Bridge", "bay.xls")] ->
     exists o, ctvr_to_long_file two_bridges "in/" (snd i) None None
                 false false = Ok o)
  /\ combine_ctvrs two_bridges "in/"
       [ ("Bay Bridge", "bay.xls"); ("Golden Gate Bridge", "gg.xls");
         ("Carquinez Bridge", "carquinez.xls") ] None None false false
     = Raise (FileNotFoundError "in/gg.xls").
Proof.
  assert (forall i, In i [("Bay Bridge", "bay.xls")] ->
            exists o, ctvr_to_long_file two_bridges "in/" (snd i) None None
                        false false = Ok o) as H1.
  { intros i [<-|[]]. eexists. vm_compute. reflexivity. }
  split; [exact H1|].
  exact (proj2 (combine_ctvrs_fails_fast two_bridges "in/" None None false false)
           [("Bay Bridge", "bay.xls")] ("Golden Gate Bridge", "gg.xls")
           [("Carquinez Bridge", "carquinez.xls")]
           (FileNotFoundError "in/gg.xls") H1 eq_refl).
Defined.

End WorkbookExamples.

(** ** Report client: the descriptor, the first steps, the polls *)

Section ReportClient.
Import Py Http InrixApi InrixApiSpec InrixApiMoreSpec.

(** X6.  [get_report_bytes] sends no request unless the report lists
    exactly one url: with an empty list it raises IndexError, with two urls
    or more NotImplementedError, and the world is as it was. *)
Theorem get_report_bytes_url_count (net : network) (report_data : value)
    (urls : list value) (w : World) :
  item "urls" report_data = Ok (VList urls) ->
  (urls = [] -> get_report_bytes net report_data w = (w, Raise IndexError))
  /\ ((2 <= length urls)%nat ->
      get_report_bytes net report_data w
      = (w, Raise (NotImplementedError "Report contains multiple urls"))).
Proof.
  intros Hu. unfold get_report_bytes, mbind, io_mbind, io_bind, io_lift.
  rewrite Hu. cbn [len]. split.
  - intros ->. reflexivity.
  - intros Hlen. destruct (1 <? Z.of_nat (length urls)) eqn:E; [reflexivity|].
    apply Z.ltb_ge in E. lia.
Qed.

Lemma get_access_token_rejected (net : network)
    (inrix_creds : list (string * value)) (w : World) (s : Z) :
  status_code (fst (net (sent w) (auth_request inrix_creds))) = s ->
  400 <= s < 600 ->
  get_access_token net inrix_creds w
  = ({| now := (now w + snd (net (sent w) (auth_request inrix_creds)))%Q;
        sent := S (sent w) |}, Raise (HTTPError s)).
Proof.
  intros Hs Hrange. unfold get_access_token, mbind, io_mbind, io_bind, io_lift,
    request, send. fold (auth_request inrix_creds).
  destruct (net (sent w) (auth_request inrix_creds)) as [r dt]. cbn in *.
  unfold raise_for_status. rewrite Hs.
  replace ((400 <=? s) && (s <? 600)) with true; [reflexivity|].
  symmetry. apply andb_true_iff. split; [apply Z.leb_le | apply Z.ltb_lt]; lia.
Qed.

(** X7.  [download_corridor_report] stops before a report is created when
    it cannot authenticate: credentials without an email or a password
    raise ValueError before any request is sent; an authentication answered
    with a 4xx or 5xx status raises that HTTP error, and this request is
    the only one sent. *)
Theorem download_stops_before_report (fuel : nat) (net : network)
    (inrix_creds_fp : string) (creds_json : list (string * value))
    (corridors : list value) (start_date end_date : string)
    (granularity : Z) (map_version : string) (w : World) :
  (dict_in "email" creds_json && dict_in "password" creds_json = false ->
   exists msg,
     download_corridor_report fuel net inrix_creds_fp creds_json corridors
       start_date end_date granularity map_version w
     = Some (w, Raise (ValueError msg)))
  /\ (forall s,
        dict_in "email" creds_json && dict_in "password" creds_json = true ->
        status_code (fst (net (sent w) (auth_request creds_json))) = s ->
        400 <= s < 600 ->
        exists w',
          download_corridor_report fuel net inrix_creds_fp creds_json corridors
            start_date end_date granularity map_version w
          = Some (w', Raise (HTTPError s))
          /\ sent w' = S (sent w)).
Proof.
  unfold download_corridor_report, get_creds. split.
  - intros Hbad. apply andb_false_iff in Hbad.
    replace (negb (dict_in "email" creds_json) || negb (dict_in "password" creds_json))
      with true by (destruct Hbad as [-> | ->]; cbn; now rewrite ?orb_true_r).
    eauto.
  - intros s Hok Hs Hrange. apply andb_true_iff in Hok. destruct Hok as [-> ->].
    cbn [negb orb]. rewrite (get_access_token_rejected net creds_json w s Hs Hrange).
    eauto.
Qed.

End ReportClient.

Section DownloadOrder.
Import Py Http InrixApi InrixApiSpec InrixApiMoreSpec.

Variable net : network.

Lemma get_access_token_sent creds w :
  sent (fst (get_access_token net creds w)) = S (sent w).
Proof.
  unfold get_access_token, mbind, io_mbind, io_bind, io_lift, request, send.
  destruct (net (sent w) _) as [r dt]. cbn.
  destruct (raise_for_status (status_code r)); reflexivity.
Qed.

Lemma create_new_corridor_report_sent tok sd ed cs g mv w :
  sent (fst (create_new_corridor_report net tok sd ed cs g mv w)) = S (sent w).
Proof.
  unfold create_new_corridor_report, mbind, io_mbind, io_bind, io_lift, request, send.
  destruct (net (sent w) _) as [r dt]. cbn.
  destruct (raise_for_status (status_code r)); reflexivity.
Qed.

Lemma get_report_data_sent tok id w :
  sent (fst (get_report_data net tok id w)) = S (sent w).
Proof.
  unfold get_report_data, mbind, io_mbind, io_bind, io_lift, request, send.
  destruct (net (sent w) _) as [r dt]. cbn.
  destruct (raise_for_status (status_code r)); reflexivity.
Qed.

Lemma get_report_bytes_sent report_data w w' bytes :
  get_report_bytes net report_data w = (w', Ok bytes) -> sent w' = S (sent w).
Proof.
  unfold get_report_bytes, mbind, io_mbind, io_bind, io_lift, request, send,
    mret, io_mret, io_ret.
  destruct (item "urls" report_data) as [urls|]; [|discriminate].
  destruct (len urls) as [n|]; [|discriminate].
  destruct (1 <? n); [discriminate|].
  destruct (first urls) as [u|]; [|discriminate].
  destruct (net (sent w) _) as [r dt]. now intros [= <- _].
Qed.

Lemma wait_loop_returns (access_token report_id : value) (w0 : World)
    (fuel : nat) :
  forall k w st start elapsed w',
    sent w = S (sent w0 + k) ->
    raise_for_status
      (status_code (poll_response net access_token report_id w0 k)) = Ok tt ->
    json (poll_response net access_token report_id w0 k) = Ok st ->
    wait_loop fuel net access_token report_id start elapsed st w
    = Some (w', Ok tt) ->
    exists K, completed (poll_response net access_token report_id w0 K)
              /\ sent w' = S (sent w0 + K).
Proof.
  induction fuel as [|fuel IH]; intros k w st start elapsed w' Hs Hrs Hj;
    cbn [wait_loop]; [discriminate|].
  assert (poll_state (poll_response net access_token report_id w0 k)
          = item "state" st) as Hps
    by (unfold poll_state; rewrite Hrs, Hj; reflexivity).
  destruct (item "state" st) as [state|e]; [|discriminate].
  destruct (str_eq state "COMPLETED") eqn:Hc; cbn [negb].
  { intros [= <-]. exists k. split; [now exists state | assumption]. }
  destruct (Qle_bool max_wait elapsed); [discriminate|].
  rewrite (check_report_status_eq net access_token report_id w0
             (sleep check_interval w) (S k)) by (cbn; rewrite Hs; lia).
  destruct (raise_for_status
              (status_code (poll_response net access_token report_id w0 (S k))))
    as [[]|e] eqn:Hrs'; [|discriminate].
  destruct (json (poll_response net access_token report_id w0 (S k)))
    as [st'|e] eqn:Hj'; [|discriminate].
  cbn. apply IH with (k := S k); try assumption. cbn. rewrite Hs. lia.
Qed.

Lemma wait_returns (access_token report_id : value) (w0 : World)
    (fuel : nat) (w' : World) :
  wait_for_report_completion fuel net access_token report_id w0
  = Some (w', Ok tt) ->
  exists K, completed (poll_response net access_token report_id w0 K)
            /\ sent w' = S (sent w0 + K).
Proof.
  unfold wait_for_report_completion.
  rewrite (check_report_status_eq net access_token report_id w0 w0 0) by lia.
  destruct (raise_for_status _) as [[]|e] eqn:Hrs; [|discriminate].
  destruct (json _) as [st|e] eqn:Hj; [|discriminate].
  cbn. apply wait_loop_returns with (k := 0%nat); try assumption. cbn. lia.
Qed.

(** X8.  [download_corridor_report] returns bytes only after a status poll
    has reported COMPLETED: when it returns, the token and the report id
    came with the first two requests, some poll K of the wait that followed
    reported COMPLETED, and K + 5 requests were sent in all. *)
Theorem download_only_after_completion (fuel : nat)
    (inrix_creds_fp : string) (creds_json : list (string * value))
    (corridors : list value) (start_date end_date : string)
    (granularity : Z) (map_version : string) (w w' : World) (bytes : string) :
  download_corridor_report fuel net inrix_creds_fp creds_json corridors
    start_date end_date granularity map_version w = Some (w', Ok bytes) ->
  exists access_token report_id w2 K,
    sent w2 = S (S (sent w))
    /\ completed (poll_response net access_token report_id w2 K)
    /\ sent w' = (sent w + K + 5)%nat.
Proof.
  unfold download_corridor_report.
  destruct (get_creds inrix_creds_fp creds_json) as [creds|]; [|discriminate].
  pose proof (get_access_token_sent creds w) as H1.
  destruct (get_access_token net creds w) as [w1 [tok|]]; [|discriminate].
  pose proof (create_new_corridor_report_sent tok start_date end_date corridors
                granularity map_version w1) as H2.
  destruct (create_new_corridor_report net tok _ _ _ _ _ w1) as [w2 [id|]];
    [|discriminate].
  destruct (wait_for_report_completion fuel net tok id w2)
    as [[w3 [[]|]]|] eqn:Hwait; [|discriminate|discriminate].
  apply wait_returns in Hwait. destruct Hwait as (K & Hc & H3).
  unfold mbind, io_mbind, io_bind.
  pose proof (get_report_data_sent tok id w3) as H4.
  destruct (get_report_data net tok id w3) as [w4 [rd|]]; [|discriminate].
  intros [= Hbytes]. apply get_report_bytes_sent in Hbytes.
  cbn in *. exists tok, id, w2, K. repeat split; [lia | assumption | lia].
Qed.

End DownloadOrder.

Section PollingErrors.
Import Py Http InrixApi InrixApiSpec InrixApiMoreSpec.

Variable net : network.
Variables access_token report_id : value.
Variable w0 : World.
Hypothesis latency_nonneg : forall n rq, (0 <= snd (net n rq))%Q.

Local Abbreviation resp := (poll_response net access_token report_id w0).
Local Abbreviation lat := (poll_latency net access_token report_id w0).

(** X9.  A status poll answered with a 4xx or 5xx status ends the wait at
    once with that HTTP error: when the polls before poll K were pending
    and under the ceiling and poll K has such a status s, the wait raises
    HTTPError s, not a timeout, and poll K is the last request sent. *)
Theorem polling_raises_http_error (fuel K : nat) (s : Z) :
  (61 <= fuel)%nat ->
  (forall j, (j < K)%nat ->
     pending (resp j) /\ (elapsed_at lat j < max_wait)%Q) ->
  status_code (resp K) = s -> 400 <= s < 600 ->
  exists w',
    wait_for_report_completion fuel net access_token report_id w0
    = Some (w', Raise (HTTPError s))
    /\ sent w' = S (sent w0 + K).
Proof.
  intros Hfuel Hprev Hs Hrange.
  assert (poll_state (resp K) = Raise (HTTPError s)) as Hfail.
  { unfold poll_state, raise_for_status. rewrite Hs.
    replace ((400 <=? s) && (s <? 600)) with true; [reflexivity|].
    symmetry. apply andb_true_iff. split; [apply Z.leb_le | apply Z.ltb_lt]; lia. }
  destruct (wait_post net access_token report_id w0 latency_nonneg fuel Hfuel)
    as (w' & r & Hrun & K' & Hsent & _ & Hprev' & Hcase).
  destruct (lt_eq_lt_dec K K') as [[HK|HK]|HK].
  - exfalso. destruct (Hprev' K HK) as [Hp _].
    destruct (failed_not_pending _ _ Hfail); auto.
  - subst K'. exists w'. split; [|assumption]. rewrite Hrun.
    destruct Hcase as [[Hc _]|[(Hp & _)|(e & He & ->)]].
    + exfalso. destruct (failed_not_pending _ _ Hfail); auto.
    + exfalso. destruct (failed_not_pending _ _ Hfail); auto.
    + congruence.
  - exfalso. destruct (Hprev K' HK) as [Hp Hlt].
    destruct Hcase as [[Hc _]|[(_ & Hge & _)|(e & He & _)]].
    + now apply (pending_not_completed _ Hp).
    + lra.
    + destruct (failed_not_pending _ _ He); auto.
Qed.

(** X10.  Whatever the server answers, a wait sends at least one and at
    most 61 status requests, and it ends less than 610 seconds, plus the
    time the first and the last answer took to come, after it began. *)
Theorem wait_sends_at_most_61_polls (fuel : nat) :
  (61 <= fuel)%nat ->
  exists w' r,
    wait_for_report_completion fuel net access_token report_id w0
    = Some (w', r)
    /\ (sent w0 < sent w' <= sent w0 + 61)%nat
    /\ (now w' - now w0 < max_wait + check_interval + lat 0
                          + lat (sent w' - sent w0 - 1))%Q.
Proof.
  intros Hfuel.
  destruct (wait_post net access_token report_id w0 latency_nonneg fuel Hfuel)
    as (w' & r & Hrun & K & Hsent & Hnow & Hprev & _).
  exists w', r. split; [exact Hrun|].
  pose proof (pending_bound net access_token report_id w0 latency_nonneg K Hprev)
    as HK.
  split; [lia|].
  replace (sent w' - sent w0 - 1)%nat with K by lia.
  rewrite Hnow.
  pose proof (clock_elapsed net access_token report_id w0 K) as Hclock.
  pose proof (latency_nonneg (sent w0 + 0) (status_request access_token report_id))
    as Hl0.
  fold (lat 0) in Hl0.
  destruct K as [|[|k]].
  - change (latency_sum lat 0) with (lat 0) in Hclock.
    change (inject_Z (Z.of_nat 0)) with 0%Q in Hclock.
    unfold max_wait, check_interval in *. lra.
  - change (latency_sum lat 1) with (lat 0 + lat 1)%Q in Hclock.
    change (inject_Z (Z.of_nat 1)) with 1%Q in Hclock.
    pose proof (latency_nonneg (sent w0 + 1) (status_request access_token report_id))
      as Hl1.
    fold (lat 1) in Hl1. unfold max_wait, check_interval in *. lra.
  - destruct (Hprev (S k) (Nat.lt_succ_diag_r _)) as [_ Hlt].
    unfold elapsed_at in Hlt.
    change (latency_sum lat (S (S k)))
      with (latency_sum lat (S k) + lat (S (S k)))%Q in Hclock.
    rewrite (Nat2Z.inj_succ (S k)) in Hclock. unfold Z.succ in Hclock.
    rewrite inject_Z_plus in Hclock. change (inject_Z 1) with 1%Q in Hclock.
    unfold max_wait, check_interval in *. lra.
Qed.

End PollingErrors.

Section ReportClientExamples.
Import Py Http InrixApi InrixApiSpec InrixApiMoreSpec.

Lemma get_report_bytes_url_count_witness :
  item "urls" (VDict [("urls", VList [VStr "u1"; VStr "u2"])])
  = Ok (VList [VStr "u1"; VStr "u2"])
  /\ get_report_bytes failing_download
       (VDict [("urls", VList [VStr "u1"; VStr "u2"])]) epoch
     = (epoch, Raise (NotImplementedError "Report contains multiple urls")).
Proof.
  split; [reflexivity|].
  exact (proj2 (get_report_bytes_url_count failing_download
                  (VDict [("urls", VList [VStr "u1"; VStr "u2"])])
                  [VStr "u1"; VStr "u2"] epoch eq_refl) (le_n 2)).
Defined.

Lemma download_stops_before_report_witness :
  dict_in "email" good_creds && dict_in "password" good_creds = true
  /\ 400 <= 401 < 600
  /\ exists w',
       download_corridor_report 61 unauthorized "creds.json" good_creds []
         "2021-01-01" "2021-01-31" 60 "2001" epoch
       = Some (w', Raise (HTTPError 401))
       /\ sent w' = 1%nat.
Proof.
  split; [reflexivity|]. split; [lia|].
  exact (proj2 (download_stops_before_report 61 unauthorized "creds.json"
                  good_creds [] "2021-01-01" "2021-01-31" 60 "2001" epoch)
           401 eq_refl eq_refl ltac:(lia)).
Defined.

Lemma download_only_after_completion_witness :
  download_corridor_report 61 failing_download "creds.json" good_creds []
    "2021-01-01" "2021-01-31" 60 "2001" epoch
  = Some ({| now := 5; sent := 5 |}, Ok "<html>Internal Server Error</html>")
  /\ exists access_token report_id w2 K,
       sent w2 = 2%nat
       /\ completed (poll_response failing_download access_token report_id w2 K)
       /\ 5%nat = (0 + K + 5)%nat.
Proof.
  assert (download_corridor_report 61 failing_download "creds.json" good_creds []
            "2021-01-01" "2021-01-31" 60 "2001" epoch
          = Some ({| now := 5; sent := 5 |},
                  Ok "<html>Internal Server Error</html>")) as H
    by (vm_compute; reflexivity).
  split; [exact H|].
  exact (download_only_after_completion failing_download 61 "creds.json"
           good_creds [] "2021-01-01" "2021-01-31" 60 "2001" epoch _ _ H).
Defined.

Lemma polling_raises_http_error_witness :
  (forall n rq, (0 <= snd (pending_then_503 n rq))%Q)
  /\ (61 <= 61)%nat
  /\ (forall j, (j < 1)%nat ->
        pending (poll_response pending_then_503 (VStr "t0k3n") (VStr "r1") epoch j)
        /\ (elapsed_at (poll_latency pending_then_503 (VStr "t0k3n") (VStr "r1")
                          epoch) j < max_wait)%Q)
  /\ 400 <= 503 < 600
  /\ exists w',
       wait_for_report_completion 61 pending_then_503 (VStr "t0k3n") (VStr "r1")
         epoch = Some (w', Raise (HTTPError 503))
       /\ sent w' = 2%nat.
Proof.
  assert (forall n rq, (0 <= snd (pending_then_503 n rq))%Q) as Hlat
    by (intros n rq; cbn; lra).
  assert (forall j, (j < 1)%nat ->
            pending (poll_response pending_then_503 (VStr "t0k3n") (VStr "r1")
                       epoch j)
            /\ (elapsed_at (poll_latency pending_then_503 (VStr "t0k3n")
                              (VStr "r1") epoch) j < max_wait)%Q) as Hprev.
  { intros j Hj. assert (j = 0%nat) as -> by lia. split.
    - exists (VStr "PENDING"). split; reflexivity.
    - reflexivity. }
  split; [exact Hlat|]. split; [lia|]. split; [exact Hprev|]. split; [lia|].
  exact (polling_raises_http_error pending_then_503 (VStr "t0k3n") (VStr "r1")
           epoch Hlat 61 1 503 (le_n 61) Hprev eq_refl ltac:(lia)).
Defined.

Lemma wait_sends_at_most_61_polls_witness :
  (forall n rq, (0 <= snd (pending_forever n rq))%Q)
  /\ (61 <= 61)%nat
  /\ exists w' r,
       wait_for_report_completion 61 pending_forever (VStr "t0k3n") (VStr "r1")
         epoch = Some (w', r)
       /\ (sent epoch < sent w' <= sent epoch + 61)%nat.
Proof.
  assert (forall n rq, (0 <= snd (pending_forever n rq))%Q) as Hlat
    by (intros n rq; cbn; lra).
  split; [exact Hlat|]. split; [lia|].
  destruct (wait_sends_at_most_61_polls pending_forever (VStr "t0k3n")
              (VStr "r1") epoch Hlat 61 (le_n 61))
    as (w' & r & Hrun & Hsent & _).
  exists w', r. split; [exact Hrun | exact Hsent].
Defined.

End ReportClientExamples.

(** ** Opening and writing archives *)

Section Archives.
Import Py InrixDatapro InrixDataproSpec InrixDataproFiles InrixDataproFilesSpec.

Lemma ZipFile_ref (fs : FileSystem) (ra_zip : ZipArg) (ref : ZipRef) :
  match ra_zip with
  | ArgBytes b => Ok (BytesIO b)
  | ArgPath p =>
      match fs p with
      | None => Raise (FileNotFoundError
                         ("The zip file " +:+ p +:+ " does not exist"))
      | Some _ => Ok (Path p)
      end
  end = Ok ref ->
  ref = ref_of ra_zip
  /\ exists b, bytes_of fs ra_zip = Some b
       /\ ZipFile fs (Some ref)
          = match b with Some z => Ok z | None => Raise BadZipFile end.
Proof.
  destruct ra_zip as [b|p]; cbn.
  - intros [= <-]. split; [reflexivity|]. exists b. split; [reflexivity|].
    now destruct b.
  - destruct (fs p) as [b|] eqn:Hp; [|discriminate]. intros [= <-].
    split; [reflexivity|]. exists b. split; [reflexivity|]. cbn. rewrite Hp.
    now destruct b.
Qed.

Lemma load_data_eq fs self z :
  ZipFile fs (ra_zip self) = Ok z ->
  load_data fs self
  = match table as_data "data.csv" z with
    | Ok df => ({| ra_zip := ra_zip self; data := Some df;
                   metadata := metadata self;
                   report_contents := report_contents self |}, Ok tt)
    | Raise e => (self, Raise e)
    end.
Proof. intros Hz. unfold load_data, table. rewrite Hz. reflexivity. Qed.

Lemma load_metadata_eq fs self z :
  ZipFile fs (ra_zip self) = Ok z ->
  load_metadata fs self
  = match table as_metadata "metadata.csv" z with
    | Ok md => ({| ra_zip := ra_zip self; data := data self;
                   metadata := Some md;
                   report_contents := report_contents self |}, Ok tt)
    | Raise e => (self, Raise e)
    end.
Proof. intros Hz. unfold load_metadata, table. rewrite Hz. reflexivity. Qed.

Lemma load_report_contents_eq fs self z :
  ZipFile fs (ra_zip self) = Ok z ->
  load_report_contents fs self
  = match table as_report_contents "reportContents.json" z with
    | Ok rc => ({| ra_zip := ra_zip self; data := data self;
                   metadata := metadata self;
                   report_contents := Some rc |}, Ok tt)
    | Raise e => (self, Raise e)
    end.
Proof. intros Hz. unfold load_report_contents, table. rewrite Hz. reflexivity. Qed.

(** [read_zip] on an argument that is a zip file. *)
Lemma read_zip_archive fs ra_zip self z :
  bytes_of fs ra_zip = Some (Some z) ->
  read_zip fs ra_zip self
  = match table as_data "data.csv" z with
    | Raise e =>
        (pointing (ref_of ra_zip) self,
         match e with FileNotFoundError _ => Ok (Some false) | _ => Raise e end)
    | Ok df =>
        match table as_metadata "metadata.csv" z with
        | Raise e =>
            ({| ra_zip := Some (ref_of ra_zip); data := Some df;
                metadata := metadata self;
                report_contents := report_contents self |},
             match e with FileNotFoundError _ => Ok (Some false) | _ => Raise e end)
        | Ok md =>
            match table as_report_contents "reportContents.json" z with
            | Raise e =>
                ({| ra_zip := Some (ref_of ra_zip); data := Some df;
                    metadata := Some md;
                    report_contents := report_contents self |},
                 match e with
                 | FileNotFoundError _ => Ok (Some false)
                 | _ => Raise e
                 end)
            | Ok rc => (holding (ref_of ra_zip) df md rc, Ok None)
            end
        end
    end.
Proof.
  intros Hb. unfold read_zip.
  destruct (match ra_zip with ArgBytes _ => _ | ArgPath _ => _ end)
    as [ref|e] eqn:Href.
  2:{ destruct ra_zip as [b|p]; [discriminate|]. cbn in Hb. now rewrite Hb in Href. }
  apply ZipFile_ref in Href. destruct Href as (-> & b & Hb' & Hz).
  rewrite Hb in Hb'. injection Hb' as <-.
  unfold load_all.
  rewrite (load_data_eq fs _ z) by exact Hz.
  destruct (table as_data "data.csv" z) as [df|e].
  2:{ now destruct e. }
  rewrite (load_metadata_eq fs _ z) by exact Hz.
  destruct (table as_metadata "metadata.csv" z) as [md|e].
  2:{ now destruct e. }
  rewrite (load_report_contents_eq fs _ z) by exact Hz.
  destruct (table as_report_contents "reportContents.json" z) as [rc|e].
  2:{ now destruct e. }
  reflexivity.
Qed.

(** [read_zip] on an argument that is no zip file. *)
Lemma read_zip_other fs ra_zip self :
  (forall z, bytes_of fs ra_zip <> Some (Some z)) ->
  exists e, read_zip fs ra_zip self
            = (match bytes_of fs ra_zip with
               | None => self
               | Some _ => pointing (ref_of ra_zip) self
               end, Raise e)
            /\ e = match ra_zip, bytes_of fs ra_zip with
                   | ArgPath p, None =>
                       FileNotFoundError
                         ("The zip file " +:+ p +:+ " does not exist")
                   | _, _ => BadZipFile
                   end.
Proof.
  intros Hno. unfold read_zip. destruct ra_zip as [[z|]|p]; cbn in *.
  - now destruct (Hno z).
  - eexists. split; reflexivity.
  - destruct (fs p) as [[z|]|] eqn:Hp.
    + now destruct (Hno z).
    + unfold load_all, load_data. cbn. rewrite Hp. cbn. eexists. split; reflexivity.
    + eexists. split; reflexivity.
Qed.

Lemma table_not_missing_file {A} (read : Member -> result A) file z msg :
  table read file z = Raise (FileNotFoundError msg) ->
  exists n m, In (n, m) z /\ read m = Raise (FileNotFoundError msg).
Proof.
  unfold table.
  assert (zip_root z = Raise IndexError \/ exists root, zip_root z = Ok root)
    as [->|[root ->]]
    by (destruct z as [|[root m0] z']; cbn; eauto); [discriminate|].
  cbn. unfold zip_open, dict_item.
  destruct (dict_get (root +:+ file) (rev z)) as [m|] eqn:Hget; [|discriminate].
  cbn. intros Hread. exists (root +:+ file), m. split; [|assumption].
  apply in_rev. revert Hget. generalize (rev z).
  intros l. induction l as [|[k v] l IH]; cbn; [discriminate|].
  destruct (String.eqb_spec k (root +:+ file)) as [->|Hne].
  - intros [= <-]. now left.
  - intros H. right. auto.
Qed.

(** C7, as amended.  [read_zip] loads data.csv, metadata.csv and
    reportContents.json of the archive in this order, each into the holder
    as soon as it is read, and stops at the first one that cannot be read.
    It returns None when all three are loaded.  When a step fails, with an
    exception or with the False of a FileNotFoundError, nothing is rolled
    back: the holder points to the new archive, the tables read before the
    failing step are in the holder, and the failing table and the later
    ones are what the holder had before the call.  An argument that is no
    archive leaves the tables as they were. *)
Theorem read_zip_loads_in_order fs ra_zip self :
  (forall z, bytes_of fs ra_zip = Some (Some z) ->
     (forall e, table as_data "data.csv" z = Raise e ->
        read_zip fs ra_zip self
        = ({| ra_zip := Some (ref_of ra_zip); data := data self;
              metadata := metadata self;
              report_contents := report_contents self |}, failed e))
     /\ (forall df e,
           table as_data "data.csv" z = Ok df ->
           table as_metadata "metadata.csv" z = Raise e ->
           read_zip fs ra_zip self
           = ({| ra_zip := Some (ref_of ra_zip); data := Some df;
                 metadata := metadata self;
                 report_contents := report_contents self |}, failed e))
     /\ (forall df md e,
           table as_data "data.csv" z = Ok df ->
           table as_metadata "metadata.csv" z = Ok md ->
           table as_report_contents "reportContents.json" z = Raise e ->
           read_zip fs ra_zip self
           = ({| ra_zip := Some (ref_of ra_zip); data := Some df;
                 metadata := Some md;
                 report_contents := report_contents self |}, failed e))
     /\ (forall df md rc,
           table as_data "data.csv" z = Ok df ->
           table as_metadata "metadata.csv" z = Ok md ->
           table as_report_contents "reportContents.json" z = Ok rc ->
           read_zip fs ra_zip self
           = ({| ra_zip := Some (ref_of ra_zip); data := Some df;
                 metadata := Some md; report_contents := Some rc |}, Ok None)))
  /\ (bytes_of fs ra_zip = Some None ->
      read_zip fs ra_zip self
      = ({| ra_zip := Some (ref_of ra_zip); data := data self;
            metadata := metadata self;
            report_contents := report_contents self |}, Raise BadZipFile))
  /\ (bytes_of fs ra_zip = None ->
      exists msg,
        read_zip fs ra_zip self = (self, Raise (FileNotFoundError msg))).
Proof.
  split; [|split].
  - intros z Hz. rewrite (read_zip_archive fs ra_zip self z Hz).
    split; [|split; [|split]].
    + intros e ->. now destruct e.
    + intros df e -> ->. now destruct e.
    + intros df md e -> -> ->. now destruct e.
    + intros df md rc -> -> ->. reflexivity.
  - intros Hb. destruct (read_zip_other fs ra_zip self) as (e & He & ->).
    { rewrite Hb. discriminate. }
    rewrite He, Hb. destruct ra_zip; cbn in *; [reflexivity | now rewrite Hb].
  - intros Hb. destruct (read_zip_other fs ra_zip self) as (e & He & ->).
    { rewrite Hb. discriminate. }
    rewrite He, Hb. destruct ra_zip; cbn in *; [discriminate Hb|].
    rewrite Hb. eauto.
Qed.

(** X11.  [read_zip] returns None exactly when its argument is a zip
    archive whose data.csv, metadata.csv and reportContents.json, looked up
    below the first name of the archive, can all be read; the holder then
    holds the reference to the archive and these three tables, whatever it
    held before. *)
Theorem read_zip_returns_none_iff fs ra_zip self self' :
  read_zip fs ra_zip self = (self', Ok None)
  <-> exists z df md rc,
        bytes_of fs ra_zip = Some (Some z)
        /\ table as_data "data.csv" z = Ok df
        /\ table as_metadata "metadata.csv" z = Ok md
        /\ table as_report_contents "reportContents.json" z = Ok rc
        /\ self' = holding (ref_of ra_zip) df md rc.
Proof.
  split.
  - intros Hrun.
    destruct (bytes_of fs ra_zip) as [[z|]|] eqn:Hb.
    + rewrite (read_zip_archive fs ra_zip self z Hb) in Hrun.
      destruct (table as_data "data.csv" z) as [df|e] eqn:Hd.
      2:{ destruct e; discriminate. }
      destruct (table as_metadata "metadata.csv" z) as [md|e] eqn:Hm.
      2:{ destruct e; discriminate. }
      destruct (table as_report_contents "reportContents.json" z)
        as [rc|e] eqn:Hr.
      2:{ destruct e; discriminate. }
      injection Hrun as <-. exists z, df, md, rc.
      exact (conj eq_refl (conj Hd (conj Hm (conj Hr eq_refl)))).
    + destruct (read_zip_other fs ra_zip self) as (e & He & _).
      { rewrite Hb. discriminate. }
      rewrite He in Hrun. discriminate.
    + destruct (read_zip_other fs ra_zip self) as (e & He & _).
      { rewrite Hb. discriminate. }
      rewrite He in Hrun. discriminate.
  - intros (z & df & md & rc & Hb & Hd & Hm & Hr & ->).
    rewrite (read_zip_archive fs ra_zip self z Hb), Hd, Hm, Hr. reflexivity.
Qed.

(** X12.  [read_zip] never returns True.  When it returns a flag at all the
    flag is False, and then the argument is a zip archive and the reader of
    one of its files has raised FileNotFoundError (the files on disk being
    the same all through the call). *)
Theorem read_zip_returns_no_success_flag fs ra_zip self self' b :
  read_zip fs ra_zip self = (self', Ok (Some b)) ->
  b = false
  /\ exists z n m msg,
       bytes_of fs ra_zip = Some (Some z) /\ In (n, m) z
       /\ (as_data m = Raise (FileNotFoundError msg)
           \/ as_metadata m = Raise (FileNotFoundError msg)
           \/ as_report_contents m = Raise (FileNotFoundError msg)).
Proof.
  intros Hrun.
  destruct (bytes_of fs ra_zip) as [[z|]|] eqn:Hb.
  - rewrite (read_zip_archive fs ra_zip self z Hb) in Hrun.
    destruct (table as_data "data.csv" z) as [df|e] eqn:Hd.
    2:{ destruct e; try discriminate. injection Hrun as _ <-.
        split; [reflexivity|].
        destruct (table_not_missing_file _ _ _ _ Hd) as (n & m & Hin & Hm).
        exists z, n, m, msg. auto. }
    destruct (table as_metadata "metadata.csv" z) as [md|e] eqn:Hmd.
    2:{ destruct e; try discriminate. injection Hrun as _ <-.
        split; [reflexivity|].
        destruct (table_not_missing_file _ _ _ _ Hmd) as (n & m & Hin & Hm).
        exists z, n, m, msg. auto. }
    destruct (table as_report_contents "reportContents.json" z) as [rc|e] eqn:Hrc.
    2:{ destruct e; try discriminate. injection Hrun as _ <-.
        split; [reflexivity|].
        destruct (table_not_missing_file _ _ _ _ Hrc) as (n & m & Hin & Hm).
        exists z, n, m, msg. auto 6. }
    discriminate.
  - destruct (read_zip_other fs ra_zip self) as (e & He & _).
    { rewrite Hb. discriminate. }
    rewrite He in Hrun. discriminate.
  - destruct (read_zip_other fs ra_zip self) as (e & He & _).
    { rewrite Hb. discriminate. }
    rewrite He in Hrun. discriminate.
Qed.

(** X13.  The exceptions of [read_zip].  A path that does not exist raises
    FileNotFoundError, and the holder is untouched.  Bytes or a file that
    are no zip archive raise BadZipFile, an archive without any file
    IndexError, and an archive without a data.csv below its first name
    KeyError with that name; in these three cases the holder keeps its
    tables and points to the argument. *)
Theorem read_zip_errors fs self :
  (forall p, fs p = None ->
     exists msg,
       read_zip fs (ArgPath p) self = (self, Raise (FileNotFoundError msg)))
  /\ (forall ra_zip, bytes_of fs ra_zip = Some None ->
        read_zip fs ra_zip self
        = (pointing (ref_of ra_zip) self, Raise BadZipFile))
  /\ (forall ra_zip, bytes_of fs ra_zip = Some (Some []) ->
        read_zip fs ra_zip self
        = (pointing (ref_of ra_zip) self, Raise IndexError))
  /\ (forall ra_zip z root,
        bytes_of fs ra_zip = Some (Some z) -> zip_root z = Ok root ->
        ~ In (root +:+ "data.csv") (map fst z) ->
        read_zip fs ra_zip self
        = (pointing (ref_of ra_zip) self,
           Raise (KeyError (root +:+ "data.csv")))).
Proof.
  split; [|split; [|split]].
  - intros p Hp. unfold read_zip. rewrite Hp. eauto.
  - intros ra_zip Hb.
    destruct (read_zip_other fs ra_zip self) as (e & He & ->).
    { rewrite Hb. discriminate. }
    rewrite He, Hb. destruct ra_zip; cbn in *; [reflexivity | now rewrite Hb].
  - intros ra_zip Hb. now rewrite (read_zip_archive fs ra_zip self [] Hb).
  - intros ra_zip z root Hb Hroot Hno.
    rewrite (read_zip_archive fs ra_zip self z Hb).
    unfold table. rewrite Hroot. cbn. unfold zip_open, dict_item.
    assert (dict_get (root +:+ "data.csv") (rev z) = None) as ->; [|reflexivity].
    assert (~ In (root +:+ "data.csv") (map fst (rev z))) as Hno'.
    { rewrite map_rev, <- in_rev. exact Hno. }
    revert Hno'. generalize (rev z). intros l.
    induction l as [|[k v] l IH]; cbn; [reflexivity|].
    intros Hl. destruct (String.eqb_spec k (root +:+ "data.csv")) as [->|Hne].
    + destruct Hl. now left.
    + apply IH. intros H. apply Hl. now right.
Qed.

(** X14.  [write_zip] cannot write the archive [read_zip] was given.  After
    a [read_zip] of bytes or of an existing path, [write_zip], once it has
    opened out_path, raises TypeError; it leaves an empty file at out_path
    and every other file as it was, and a [read_zip] of out_path raises
    BadZipFile. *)
Theorem write_zip_writes_no_archive fs ra_zip self self' r out_path :
  read_zip fs ra_zip self = (self', r) ->
  is_Some (bytes_of fs ra_zip) ->
  exists msg,
    write_zip out_path self' fs
    = (open_wb out_path fs, Raise (TypeError msg))
    /\ open_wb out_path fs out_path = Some None
    /\ (forall p, p <> out_path -> open_wb out_path fs p = fs p)
    /\ forall other,
         read_zip (open_wb out_path fs) (ArgPath out_path) other
         = (pointing (Path out_path) other, Raise BadZipFile).
Proof.
  intros Hrun [b Hb].
  assert (ra_zip0 : InrixDatapro.ra_zip self' = Some (ref_of ra_zip)).
  { destruct b as [z|].
    - rewrite (read_zip_archive fs ra_zip self z Hb) in Hrun.
      destruct (table as_data "data.csv" z) as [df|e].
      2:{ now injection Hrun as <- _. }
      destruct (table as_metadata "metadata.csv" z) as [md|e].
      2:{ now injection Hrun as <- _. }
      destruct (table as_report_contents "reportContents.json" z) as [rc|e].
      2:{ now injection Hrun as <- _. }
      now injection Hrun as <- _.
    - destruct (read_zip_other fs ra_zip self) as (e & He & _).
      { rewrite Hb. discriminate. }
      rewrite He, Hb in Hrun. now injection Hrun as <- _. }
  assert (Hopen : open_wb out_path fs out_path = Some None).
  { unfold open_wb. now rewrite String.eqb_refl. }
  exists (match ref_of ra_zip with
          | BytesIO _ => "a bytes-like object is required, not '_io.BytesIO'"
          | Path _ => "a bytes-like object is required, not 'PosixPath'"
          end).
  split; [|split; [exact Hopen|split]].
  - unfold write_zip. rewrite ra_zip0. now destruct (ref_of ra_zip).
  - intros p Hp. unfold open_wb. now apply String.eqb_neq in Hp as ->.
  - intros other.
    destruct (read_zip_other (open_wb out_path fs) (ArgPath out_path) other)
      as (e & He & ->).
    { cbn. rewrite Hopen. discriminate. }
    rewrite He. cbn. now rewrite Hopen.
Qed.

End Archives.

(** ** Formatting: the repeated hour *)

Section Formatting.
Import Py InrixDatapro InrixDataproSpec InrixDataproFilesSpec.

Context {A K : Type} `{EqDecision K}.
Variable key : A -> K.

Lemma drop_duplicates_sublist (l : list A) :
  forall seen, sublist (drop_duplicates key seen l) l.
Proof.
  induction l as [|x l IH]; intros seen; cbn; [constructor|].
  destruct (decide (key x ∈ seen)).
  - apply sublist_cons, IH.
  - apply sublist_skip, IH.
Qed.

Lemma drop_duplicates_first (l : list A) :
  forall seen y, In y (drop_duplicates key seen l) ->
    (key y ∉ seen) /\ first_with key (key y) l = Some y.
Proof.
  unfold first_with.
  induction l as [|x l IH]; intros seen y; cbn; [tauto|].
  destruct (decide (key x ∈ seen)) as [Hx|Hx].
  - intros Hy. destruct (IH seen y Hy) as [Hseen Hf]. split; [assumption|].
    rewrite bool_decide_eq_false_2; [assumption|]. congruence.
  - intros [<-|Hy].
    + split; [assumption|]. now rewrite bool_decide_eq_true_2.
    + destruct (IH (key x :: seen) y Hy) as [Hseen Hf].
      apply not_elem_of_cons in Hseen. destruct Hseen as [Hne Hseen].
      split; [assumption|]. rewrite bool_decide_eq_false_2; [assumption|].
      congruence.
Qed.

Lemma drop_duplicates_NoDup (l : list A) :
  forall seen, NoDup (map key (drop_duplicates key seen l)).
Proof.
  induction l as [|x l IH]; intros seen; cbn; [constructor|].
  destruct (decide (key x ∈ seen)); [apply IH|].
  cbn. constructor; [|apply IH].
  intros Hin%list_elem_of_In%in_map_iff. destruct Hin as (y & Hk & Hy).
  destruct (drop_duplicates_first l (key x :: seen) y Hy) as [Hseen _].
  apply Hseen. rewrite Hk. apply elem_of_cons. now left.
Qed.

Lemma drop_duplicates_covers (l : list A) :
  forall seen x, In x l -> key x ∉ seen ->
    exists y, In y (drop_duplicates key seen l) /\ key y = key x.
Proof.
  induction l as [|x0 l IH]; intros seen x; cbn; [tauto|].
  intros [->|Hx] Hseen.
  - rewrite decide_False by assumption. exists x. split; [now left | reflexivity].
  - destruct (decide (key x0 ∈ seen)) as [H0|H0]; [now apply IH|].
    destruct (decide (key x = key x0)) as [Heq|Hne].
    + exists x0. split; [now left | now symmetry].
    + destruct (IH (key x0 :: seen) x Hx) as (y & Hy & Hk).
      { intros [?|?]%elem_of_cons; auto. }
      exists y. split; [now right | assumption].
Qed.

End Formatting.

Section FormattingData.
Import Py InrixDatapro InrixDataproSpec InrixDataproFilesSpec.

(** X15.  The formatted data has one row for each pair of local time and
    segment of the data: of the rows that agree on both, as in the hour
    that is repeated when the clocks go back, the first one stays, in its
    place, and the others are dropped. *)
Theorem repeated_hour_is_dropped self rows df :
  data self = Some rows ->
  get_format_data_for_agg self = Ok df ->
  exists stamped kept,
    mapM parsed rows = Ok stamped
    /\ df = map formatted kept
    /\ sublist kept stamped
    /\ NoDup (map dedup_key kept)
    /\ (forall y, In y kept ->
          first_with dedup_key (dedup_key y) stamped = Some y)
    /\ (forall x, In x stamped ->
          exists y, In y kept /\ dedup_key y = dedup_key x).
Proof.
  intros Hdata. unfold get_format_data_for_agg. rewrite Hdata.
  change (mapM _ rows) with (mapM parsed rows).
  destruct (mapM parsed rows) as [stamped|e]; [cbn|discriminate].
  intros [= <-].
  exists stamped, (drop_duplicates dedup_key [] stamped).
  split; [reflexivity|]. split; [reflexivity|].
  split; [apply drop_duplicates_sublist|].
  split; [apply drop_duplicates_NoDup|]. split.
  - intros y Hy. now destruct (drop_duplicates_first dedup_key stamped [] y Hy).
  - intros x Hx. apply drop_duplicates_covers; [assumption | apply not_elem_of_nil].
Qed.

Lemma repeated_hour_is_dropped_witness :
  exists rows df,
    data fall_back = Some rows
    /\ get_format_data_for_agg fall_back = Ok df
    /\ length rows = 3%nat
    /\ map f_Travel_Time df = [Some 3%Q; Some 5%Q]
    /\ exists stamped kept,
         mapM parsed rows = Ok stamped
         /\ df = map formatted kept
         /\ sublist kept stamped
         /\ NoDup (map dedup_key kept)
         /\ (forall y, In y kept ->
               first_with dedup_key (dedup_key y) stamped = Some y)
         /\ (forall x, In x stamped ->
               exists y, In y kept /\ dedup_key y = dedup_key x).
Proof.
  eexists _, _. split; [reflexivity|]. split; [vm_compute; reflexivity|].
  split; [reflexivity|]. split; [reflexivity|].
  exact (repeated_hour_is_dropped fall_back _ _ eq_refl eq_refl).
Defined.

(** X16.  With one metadata row for each segment and each member listed
    once, a turn of the corridor loop leaves the groups and their order as
    they are, writes to every row of the corridor the number of its members
    and, as its length, the sum of the lengths of its members as looked up
    in the metadata (nothing for a member that is not there), keeps the
    travel time, and leaves the rows of other corridors untouched. *)
Theorem add_corridor_writes_length_and_count self md data_agg c data_agg' :
  metadata self = Some md ->
  NoDup (map meta_Segment_ID md) -> NoDup (xdSegIds c) ->
  add_corridor self data_agg c = Ok data_agg' ->
  map fst data_agg' = map fst data_agg
  /\ Forall2 (fun old new =>
       if String.eqb (corridor_of (fst old)) (name c)
       then Segment_Count (snd new) = Some (Z.of_nat (length (xdSegIds c)))
            /\ (exists l, Corridor_Length (snd new) = Some l
                  /\ (l == sum_Q (map (segment_length md) (xdSegIds c)))%Q)
            /\ Travel_Time (snd new) = Travel_Time (snd old)
       else new = old) data_agg data_agg'.
Proof.
  intros Hmd Hnd Hc Hadd.
  apply (add_corridor_ok self md) in Hadd; [|assumption]. subst data_agg'.
  split.
  - rewrite map_map. reflexivity.
  - induction data_agg as [|[k r] l IH]; cbn; constructor; [|exact IH].
    cbn. unfold annotate_step.
    destruct (String.eqb (corridor_of k) (name c)); [|reflexivity].
    split; [reflexivity|]. split; [|reflexivity].
    eexists. split; [reflexivity|]. now apply corridor_length_by_lookup.
Qed.

End FormattingData.

(** ** The wide presentation *)

Section WideFormat.
Import Py InrixDatapro InrixDataproSpec.

Lemma mapM_all_Ok {A B} (f : A -> result B) (l : list A) :
  (forall x, In x l -> exists y, f x = Ok y) -> exists l', mapM f l = Ok l'.
Proof.
  induction l as [|x l IH]; intros Hf; cbn; [eauto|].
  destruct (Hf x (or_introl eq_refl)) as [y ->]. cbn.
  destruct IH as [l' ->]; [intros z Hz; apply Hf; now right|]. cbn. eauto.
Qed.

Lemma mapM_fwd_In {A B} (f : A -> result B) (l : list A) :
  forall l' x, mapM f l = Ok l' -> In x l -> exists y, In y l' /\ f x = Ok y.
Proof.
  induction l as [|x0 l IH]; intros l' x Hm Hx; cbn in Hm; [destruct Hx|].
  destruct (f x0) as [y0|e] eqn:Hf0; [|discriminate]. cbn in Hm.
  destruct (mapM f l) as [ys|e] eqn:Hml; [|discriminate]. cbn in Hm.
  injection Hm as <-. destruct Hx as [<-|Hx].
  - exists y0. split; [now left | assumption].
  - destruct (IH ys x eq_refl Hx) as (y & Hy & Hfy). exists y.
    split; [now right | assumption].
Qed.

Lemma assoc_get_absent {K V} `{EqDecision K} (k : K) (l : list (K * V)) :
  k ∉ map fst l -> assoc_get k l = None /\ filter (fun x => fst x = k) l = [].
Proof.
  induction l as [|[k' v] l IH]; [auto|]. cbn [map fst assoc_get].
  intros Hk%not_elem_of_cons. destruct Hk as [Hne Hk].
  rewrite filter_cons. cbn [fst]. rewrite !decide_False by congruence. auto.
Qed.

Lemma filter_key {K V} `{EqDecision K} (k : K) (l : list (K * V)) :
  NoDup (map fst l) ->
  filter (fun x => fst x = k) l
  = match assoc_get k l with Some v => [(k, v)] | None => [] end.
Proof.
  induction l as [|[k' v] l IH]; [reflexivity|]. cbn [map fst assoc_get].
  intros Hnd%NoDup_cons. destruct Hnd as [Hk' Hnd].
  rewrite filter_cons. cbn [fst]. destruct (decide (k' = k)) as [->|Hne].
  - destruct (assoc_get_absent k l Hk') as [_ ->]. reflexivity.
  - auto.
Qed.

Lemma assoc_get_In {K V} `{EqDecision K} (k : K) (v : V) (l : list (K * V)) :
  NoDup (map fst l) -> In (k, v) l -> assoc_get k l = Some v.
Proof.
  induction l as [|[k' v'] l IH]; cbn; [tauto|].
  intros Hnd%NoDup_cons [[= -> ->]|Hin]; destruct Hnd as [Hk' Hnd].
  - now rewrite decide_True.
  - rewrite decide_False; [auto|]. intros ->. apply Hk'.
    apply list_elem_of_In, in_map_iff. now exists (k, v).
Qed.

Lemma assoc_get_Some {K V} `{EqDecision K} (k : K) (v : V) (l : list (K * V)) :
  assoc_get k l = Some v -> In (k, v) l.
Proof.
  induction l as [|[k' v'] l IH]; cbn; [discriminate|].
  destruct (decide (k' = k)) as [->|Hne]; [intros [= ->]; now left | auto].
Qed.

Lemma cells_travel_time (out : list (Key * AggRow)) :
  omap (fun kr => v ← Some (Travel_Time (snd kr)); Some (fst kr, v)) out
  = map (fun kr => (fst kr, Travel_Time (snd kr))) out.
Proof. induction out as [|kr out IH]; cbn; [|rewrite <- IH]; reflexivity. Qed.

Lemma create_data_agg_keys self out :
  create_data_agg self = Ok out -> NoDup (map fst out).
Proof.
  intros Hagg. destruct (create_data_agg_ok _ _ Hagg) as (df & rc & md & _ & _ & _ & ->).
  rewrite map_map. cbn [fst]. rewrite map_id.
  apply NoDup_ListNoDup, List.NoDup_filter, NoDup_ListNoDup, NoDup_remove_dups.
Qed.

Lemma long_row_inv kr lr :
  long_row kr = Ok lr ->
  exists ts, to_datetime (snd (fst (fst kr))) = Ok ts
    /\ l_Day_of_Week lr = day_name ts
    /\ long_key lr = fst kr /\ l_Travel_Time lr = Travel_Time (snd kr).
Proof.
  unfold long_row. destruct (to_datetime _) as [ts|e]; [cbn|discriminate].
  intros [= <-]. exists ts. destruct kr as [[[c d] i] r]. repeat split.
Qed.

(** X17.  The wide presentation of the travel time agrees with the long
    one.  When the long presentation returns a table that is not empty, the
    wide one returns too; its
    columns are distinct and every row has a cell for each column; every
    long row has its travel time in the wide row of its corridor and date,
    with the same day of the week, under the column of its time interval;
    and every filled cell comes from such a long row. *)
Theorem wide_agrees_with_long self out_dir out_fn steps lrows :
  segments_to_corridor self "long" None out_dir out_fn = (steps, Ok (Long lrows)) ->
  lrows <> [] ->
  exists steps' cols wrows,
    segments_to_corridor self "wide" (Some "travel_time") out_dir out_fn
    = (steps', Ok (Wide cols wrows))
    /\ NoDup cols
    /\ (forall wr, In wr wrows -> length (w_cells wr) = length cols)
    /\ (forall lr, In lr lrows ->
          exists wr j v,
            In wr wrows /\ w_Corridor wr = l_Corridor lr
            /\ w_Date wr = l_Date lr /\ w_Day_of_Week wr = l_Day_of_Week lr
            /\ cols !! j = Some (l_Time_Interval lr)
            /\ w_cells wr !! j = Some (Some v)
            /\ (v == l_Travel_Time lr)%Q)
    /\ (forall wr j c v,
          In wr wrows -> cols !! j = Some c ->
          w_cells wr !! j = Some (Some v) ->
          exists lr, In lr lrows
            /\ long_key lr = (w_Corridor wr, w_Date wr, c)
            /\ (v == l_Travel_Time lr)%Q).
Proof.
  intros Hlong _.
  destruct (segments_to_corridor_long_ok _ _ _ _ _ _ Hlong) as (out & Hagg & Hrows).
  pose proof (create_data_agg_keys _ _ Hagg) as Hkeys.
  unfold segments_to_corridor.
  cbn [String.eqb Ascii.eqb Bool.eqb negb orb andb is_metric].
  rewrite Hagg. unfold reshape.
  cbn [String.eqb Ascii.eqb Bool.eqb negb orb andb is_metric].
  unfold pivot_table. rewrite cells_travel_time.
  set (cells := map (fun kr => (fst kr, Travel_Time (snd kr))) out).
  pose (index := remove_dups (map (fun c : Key * Q => fst (fst c)) cells)).
  pose (columns := remove_dups (map (fun c : Key * Q => snd (fst c)) cells)).
  pose (cell := fun (i : string * string) (c : string) =>
                  mean (map snd (filter (fun x : Key * Q => fst x = (i, c)) cells))).
  match goal with |- context [mapM wide_row ?r] => set (rows := r) end.
  match goal with |- context [Wide ?c _] => change c with columns end.
  assert (rows = map (fun i => (i, map (cell i) columns)) index) as Hrows_eq
    by reflexivity.
  clearbody rows. subst rows.
  set (rows := map (fun i => (i, map (cell i) columns)) index).
  assert (Hcells_keys : NoDup (map fst cells)).
  { subst cells. rewrite map_map. exact Hkeys. }
  assert (Hcell : forall i c,
             cell i c = match assoc_get (i, c) cells with
                        | Some v => Some ((v + 0) / inject_Z (Z.of_nat 1))%Q
                        | None => None
                        end).
  { intros i c. subst cell. cbn beta. rewrite (filter_key (i, c) cells Hcells_keys).
    destruct (assoc_get (i, c) cells); reflexivity. }
  assert (Hin_cells : forall k v, In (k, v) cells <->
             exists r, In (k, r) out /\ v = Travel_Time r).
  { intros k v. subst cells. rewrite in_map_iff. split.
    - intros ([k' r] & [= -> <-] & Hin). eauto.
    - intros (r & Hin & ->). now exists (k, r). }
  assert (Hdates : forall i, In i index -> exists ts, to_datetime (snd i) = Ok ts
             /\ exists c r, In ((i, c), r) out).
  { intros i Hi. subst index.
    apply list_elem_of_In, elem_of_remove_dups, list_elem_of_In, in_map_iff in Hi.
    destruct Hi as ([[i' c] v] & <- & Hin). cbn.
    apply Hin_cells in Hin. destruct Hin as (r & Hin & _).
    destruct (mapM_fwd_In _ _ _ _ Hrows Hin) as (lr & _ & Hlr).
    apply long_row_inv in Hlr. destruct Hlr as (ts & Hts & _).
    destruct i' as [cor d]. cbn in *. eauto. }
  destruct (mapM_all_Ok wide_row rows) as [wrows Hwide].
  { intros r Hr. subst rows. apply in_map_iff in Hr.
    destruct Hr as (i & <- & Hi). destruct (Hdates i Hi) as (ts & Hts & _).
    unfold wide_row. cbn [fst snd]. rewrite Hts. cbn. eauto. }
  rewrite Hwide.
  eexists _, columns, wrows. split; [reflexivity|].
  split; [apply NoDup_remove_dups|].
  assert (Hwr : forall wr, In wr wrows ->
             exists i ts, In i index /\ to_datetime (snd i) = Ok ts
               /\ w_Corridor wr = fst i /\ w_Date wr = snd i
               /\ w_Day_of_Week wr = day_name ts
               /\ w_cells wr = map (cell i) columns).
  { intros wr Hwr. destruct (mapM_inv_In _ _ _ _ Hwide Hwr) as (r & Hr & Hrun).
    subst rows. apply in_map_iff in Hr. destruct Hr as (i & <- & Hi).
    destruct (Hdates i Hi) as (ts & Hts & _). exists i, ts.
    unfold wide_row in Hrun. cbn [fst snd] in Hrun. rewrite Hts in Hrun.
    injection Hrun as <-. cbn. auto 10. }
  split; [|split].
  - intros wr Hin. destruct (Hwr wr Hin) as (i & ts & _ & _ & _ & _ & _ & ->).
    apply length_map.
  - intros lr Hlr.
    destruct (mapM_inv_In _ _ _ _ Hrows Hlr) as ([[[cor d] c] r] & Hkr & Hrun).
    apply long_row_inv in Hrun. cbn [fst snd] in Hrun.
    destruct Hrun as (ts & Hts & Hday & Hkey & Htt).
    injection Hkey as Hcor Hd Hc.
    assert (In ((cor, d, c), Travel_Time r) cells) as Hcell_in.
    { apply Hin_cells. eauto. }
    assert (In (cor, d) index) as Hi.
    { subst index. apply list_elem_of_In, elem_of_remove_dups, list_elem_of_In.
      apply in_map_iff. now exists ((cor, d, c), Travel_Time r). }
    assert (c ∈ columns) as Hcol.
    { subst columns. apply elem_of_remove_dups, list_elem_of_In.
      apply in_map_iff. now exists ((cor, d, c), Travel_Time r). }
    apply list_elem_of_lookup_1 in Hcol. destruct Hcol as [j Hj].
    assert (In ((cor, d), map (cell (cor, d)) columns) rows) as Hrow.
    { subst rows. apply in_map_iff. now exists (cor, d). }
    destruct (mapM_fwd_In _ _ _ _ Hwide Hrow) as (wr & Hwr_in & Hrun).
    unfold wide_row in Hrun. cbn [fst snd] in Hrun. rewrite Hts in Hrun.
    injection Hrun as <-.
    exists {| w_Corridor := cor; w_Date := d; w_Day_of_Week := day_name ts;
              w_cells := map (cell (cor, d)) columns |},
           j, ((Travel_Time r + 0) / inject_Z (Z.of_nat 1))%Q.
    cbn [w_Corridor w_Date w_Day_of_Week w_cells].
    split; [assumption|]. split; [now symmetry|]. split; [now symmetry|].
    split; [now symmetry|]. split; [now rewrite Hc|]. split.
    + change (map (cell (cor, d)) columns) with (cell (cor, d) <$> columns).
      rewrite list_lookup_fmap, Hj. cbn. f_equal. rewrite Hcell.
      now rewrite (assoc_get_In _ _ _ Hcells_keys Hcell_in).
    + rewrite Htt. change (inject_Z (Z.of_nat 1)) with 1%Q. field.
  - intros wr j c v Hin Hj Hv.
    destruct (Hwr wr Hin) as (i & ts & Hi & Hts & Hcor & Hd & Hday & Hcells).
    rewrite Hcells in Hv.
    change (map (cell i) columns) with (cell i <$> columns) in Hv.
    rewrite list_lookup_fmap, Hj in Hv. cbn in Hv. injection Hv as Hv.
    rewrite Hcell in Hv.
    destruct (assoc_get (i, c) cells) as [v0|] eqn:Hget; [|discriminate].
    injection Hv as <-. apply assoc_get_Some, Hin_cells in Hget.
    destruct Hget as (r & Hr & ->).
    destruct (mapM_fwd_In _ _ _ _ Hrows Hr) as (lr & Hlr & Hrun).
    apply long_row_inv in Hrun. cbn [fst snd] in Hrun.
    destruct Hrun as (ts' & _ & _ & Hkey & Htt).
    exists lr. split; [assumption|]. split.
    + rewrite Hkey, Hcor, Hd. now destruct i.
    + rewrite Htt. change (inject_Z (Z.of_nat 1)) with 1%Q. field.
Qed.

End WideFormat.

(** ** Dates, written and read back *)

Section Dates.
Import Py InrixDatapro InrixDataproSpec InrixDataproFilesSpec.

Lemma digit_range (c : ascii) (d : Z) : digit c = Some d -> 0 <= d <= 9.
Proof.
  unfold digit. destruct (_ && _) eqn:E; [|discriminate]. intros [= <-].
  apply andb_true_iff in E. destruct E as [H1%Z.leb_le H2%Z.leb_le]. lia.
Qed.

Lemma digits_from_range (s : string) :
  forall acc y, 0 <= acc -> digits_from acc s = Some y ->
    0 <= y < (acc + 1) * 10 ^ Z.of_nat (String.length s).
Proof.
  induction s as [|c s IH]; intros acc y Hacc; cbn [digits_from String.length].
  - intros [= <-]. change (10 ^ Z.of_nat 0) with 1. lia.
  - destruct (digit c) as [d|] eqn:Hd; [|discriminate].
    apply digit_range in Hd. intros Hy. apply IH in Hy; [|lia].
    rewrite Nat2Z.inj_succ, Z.pow_succ_r by lia.
    assert (0 < 10 ^ Z.of_nat (String.length s)) by (apply Z.pow_pos_nonneg; lia).
    nia.
Qed.

Lemma length_substring_le (s : string) :
  forall n m, (String.length (substring n m s) <= m)%nat.
Proof.
  induction s as [|c s IH]; intros n m.
  - destruct n, m; cbn; lia.
  - destruct n as [|n]; [destruct m as [|m]; cbn; [lia|]|cbn; apply IH].
    specialize (IH 0%nat m). lia.
Qed.

Lemma number_range (s : string) (y : Z) :
  number s = Some y -> 0 <= y < 10 ^ Z.of_nat (String.length s).
Proof.
  unfold number. destruct s as [|c s]; [discriminate|].
  intros Hy. apply digits_from_range in Hy; lia.
Qed.

Lemma parse_date_valid (s : string) (y m d : Z) :
  parse_date s = Some (y, m, d) ->
  0 <= y <= 9999 /\ 1 <= m <= 12 /\ 1 <= d <= 31.
Proof.
  unfold parse_date.
  destruct (number (substring 0 4 s)) as [y'|] eqn:Hy; [|discriminate].
  destruct (number (substring 5 2 s)) as [m'|]; [|discriminate].
  destruct (number (substring 8 2 s)) as [d'|]; [|discriminate].
  destruct (_ && _) eqn:E; [|discriminate]. intros [= <- <- <-].
  repeat (apply andb_true_iff in E; destruct E as [E ?]).
  apply number_range in Hy.
  pose proof (length_substring_le s 0 4) as Hlen.
  assert (10 ^ Z.of_nat (String.length (substring 0 4 s)) <= 10 ^ 4)
    by (apply Z.pow_le_mono_r; lia).
  assert (days_in_month y' m' <= 31).
  { unfold days_in_month. repeat destruct (_ =? _); cbn;
      try destruct (is_leap y'); lia. }
  lia.
Qed.

Lemma parse_date_days (s : string) (y m d : Z) :
  parse_date s = Some (y, m, d) -> d <= days_in_month y m.
Proof.
  unfold parse_date.
  destruct (number (substring 0 4 s)) as [y'|]; [|discriminate].
  destruct (number (substring 5 2 s)) as [m'|]; [|discriminate].
  destruct (number (substring 8 2 s)) as [d'|]; [|discriminate].
  destruct (_ && _) eqn:E; [|discriminate]. intros [= <- <- <-].
  apply andb_true_iff in E. destruct E as [_ E]. lia.
Qed.

Lemma all_read_back_4 :
  forallb reads_back_4 (map Z.of_nat (seq 0 (Z.to_nat 10000))) = true.
Proof. vm_compute. reflexivity. Qed.

Lemma all_read_back_2 :
  forallb reads_back_2 (map Z.of_nat (seq 0 (Z.to_nat 100))) = true.
Proof. vm_compute. reflexivity. Qed.

Lemma pad_4 (n : Z) :
  0 <= n <= 9999 ->
  exists a b c d,
    pad 4 n = String a (String b (String c (String d EmptyString)))
    /\ number (String a (String b (String c (String d EmptyString)))) = Some n.
Proof.
  intros Hn. pose proof all_read_back_4 as Hall.
  rewrite forallb_forall in Hall. specialize (Hall n).
  assert (reads_back_4 n = true) as Hread.
  { apply Hall, in_map_iff. exists (Z.to_nat n).
    split; [lia | apply in_seq; lia]. }
  clear Hall. unfold reads_back_4 in Hread.
  destruct (pad 4 n) as [|a [|b [|c [|d [|]]]]] eqn:Hp; try discriminate Hread.
  exists a, b, c, d. split; [reflexivity|].
  now apply bool_decide_eq_true in Hread.
Qed.

Lemma pad_2 (n : Z) :
  0 <= n <= 99 ->
  exists a b,
    pad 2 n = String a (String b EmptyString)
    /\ number (String a (String b EmptyString)) = Some n.
Proof.
  intros Hn. pose proof all_read_back_2 as Hall.
  rewrite forallb_forall in Hall. specialize (Hall n).
  assert (reads_back_2 n = true) as Hread.
  { apply Hall, in_map_iff. exists (Z.to_nat n).
    split; [lia | apply in_seq; lia]. }
  clear Hall. unfold reads_back_2 in Hread.
  destruct (pad 2 n) as [|a [|b [|]]] eqn:Hp; try discriminate Hread.
  exists a, b. split; [reflexivity|].
  now apply bool_decide_eq_true in Hread.
Qed.

Lemma to_datetime_date_str (t : Timestamp) :
  0 <= year t <= 9999 -> 1 <= month t <= 12 ->
  1 <= day t <= days_in_month (year t) (month t) ->
  to_datetime (date_str t)
  = Ok {| year := year t; month := month t; day := day t;
          hour := 0; minute := 0; second := 0 |}.
Proof.
  intros Hy Hm Hd.
  assert (days_in_month (year t) (month t) <= 31).
  { unfold days_in_month. repeat destruct (_ =? _); cbn;
      try destruct (is_leap (year t)); lia. }
  destruct (pad_4 (year t) Hy) as (a & b & c & d & Hpy & Hny).
  destruct (pad_2 (month t)) as (e & f & Hpm & Hnm); [lia|].
  destruct (pad_2 (day t)) as (g & h & Hpd & Hnd); [lia|].
  unfold date_str. rewrite Hpy, Hpm, Hpd.
  unfold to_datetime, parse_date.
  cbv [String.append String.length substring Nat.eqb].
  rewrite Hny, Hnm, Hnd.
  change (String.eqb "-" "-") with true. cbn [andb].
  replace (1 <=? month t) with true by (symmetry; apply Z.leb_le; lia).
  replace (month t <=? 12) with true by (symmetry; apply Z.leb_le; lia).
  replace (1 <=? day t) with true by (symmetry; apply Z.leb_le; lia).
  replace (day t <=? days_in_month (year t) (month t)) with true
    by (symmetry; apply Z.leb_le; lia).
  reflexivity.
Qed.

Lemma to_datetime_valid (s : string) (t : Timestamp) :
  to_datetime s = Ok t ->
  0 <= year t <= 9999 /\ 1 <= month t <= 12
  /\ 1 <= day t <= days_in_month (year t) (month t).
Proof.
  unfold to_datetime. destruct (_ =? _)%nat.
  - destruct (parse_date s) as [[[y m] d]|] eqn:Hp; [|discriminate].
    intros [= <-]. cbn. pose proof (parse_date_valid _ _ _ _ Hp).
    pose proof (parse_date_days _ _ _ _ Hp). lia.
  - destruct (_ && _); [|discriminate].
    destruct (parse_date _) as [[[y m] d]|] eqn:Hp; [|discriminate].
    destruct (parse_time _) as [[[h mi] se]|]; [|discriminate].
    intros [= <-]. cbn. pose proof (parse_date_valid _ _ _ _ Hp).
    pose proof (parse_date_days _ _ _ _ Hp). lia.
Qed.

Lemma formatted_dates self df :
  get_format_data_for_agg self = Ok df ->
  forall r, In r df ->
    exists s ts, to_datetime s = Ok ts /\ f_Date r = date_str ts.
Proof.
  unfold get_format_data_for_agg. destruct (data self) as [rows|]; [|discriminate].
  destruct (mapM _ rows) as [stamped|e] eqn:Hm; [cbn|discriminate].
  intros [= <-] r Hr. apply in_map_iff in Hr. destruct Hr as ([ts row] & <- & Hin).
  assert (In (ts, row) stamped) as Hin'.
  { apply list_elem_of_In. eapply elem_of_sublist.
    - apply list_elem_of_In, Hin.
    - apply drop_duplicates_sublist. }
  destruct (mapM_inv_In _ _ _ _ Hm Hin') as (row0 & _ & Hrun).
  destruct (to_datetime _) as [ts0|e] eqn:Hts; [|discriminate].
  injection Hrun as -> _. cbn. eauto.
Qed.

(** X18.  When the timestamps of the data parse, the report contents list
    at least one corridor and every listed corridor has a row in the
    formatted data, the long presentation returns: the dates written by
    the formatting are read back when the day of the week is added.  Every
    row of the output belongs to a group of the formatted data, and its day
    of the week is the one of its date. *)
Theorem long_format_returns self df rc md out_dir out_fn :
  get_format_data_for_agg self = Ok df ->
  report_contents self = Some rc ->
  metadata self = Some md ->
  corridors rc <> [] ->
  (forall c, In c (corridors rc) -> exists r, In r df /\ f_Corridor r = name c) ->
  exists steps rows,
    segments_to_corridor self "long" None out_dir out_fn
    = (steps, Ok (Long rows))
    /\ forall row, In row rows ->
         exists r ts,
           In r df /\ gb_cols r = long_key row
           /\ to_datetime (l_Date row) = Ok ts
           /\ l_Day_of_Week row = day_name ts.
Proof.
  intros Hdf Hrc Hmd Hne Hobs.
  destruct (create_data_agg_total self df rc md Hdf Hrc Hmd Hne Hobs)
    as [out Hagg].
  destruct (create_data_agg_ok _ _ Hagg)
    as (df' & rc' & md' & Hdf' & _ & _ & Hout).
  assert (df' = df) as -> by congruence.
  assert (Hkeys : forall kr, In kr out ->
            exists r, In r df /\ gb_cols r = fst kr).
  { intros kr Hkr. rewrite Hout in Hkr. apply in_map_iff in Hkr.
    destruct Hkr as (k & <- & Hk). apply filter_In in Hk. destruct Hk as [Hk _].
    apply list_elem_of_In, elem_of_remove_dups, list_elem_of_In, in_map_iff in Hk.
    destruct Hk as (r & <- & Hr). eauto. }
  assert (Hdates : forall kr, In kr out ->
            exists ts, to_datetime (snd (fst (fst kr))) = Ok ts).
  { intros kr Hkr. destruct (Hkeys kr Hkr) as (r & Hr & <-).
    destruct (formatted_dates self df Hdf r Hr) as (s & ts & Hts & Hdate).
    cbn. rewrite Hdate. apply to_datetime_valid in Hts.
    rewrite to_datetime_date_str by tauto. eauto. }
  destruct (mapM_all_Ok long_row out) as [rows Hrows].
  { intros kr Hkr. destruct (Hdates kr Hkr) as [ts Hts].
    unfold long_row. rewrite Hts. cbn. eauto. }
  unfold segments_to_corridor.
  cbn [String.eqb Ascii.eqb Bool.eqb negb orb andb].
  rewrite Hagg. unfold reshape.
  cbn [String.eqb Ascii.eqb Bool.eqb negb orb andb]. rewrite Hrows.
  eexists _, rows. split; [reflexivity|].
  intros row Hrow.
  destruct (mapM_inv_In _ _ _ _ Hrows Hrow) as (kr & Hkr & Hrun).
  apply long_row_inv in Hrun. destruct Hrun as (ts & Hts & Hday & Hkey & _).
  destruct (Hkeys kr Hkr) as (r & Hr & Hgb).
  exists r, ts. split; [assumption|]. split; [congruence|].
  split; [|assumption].
  replace (l_Date row) with (snd (fst (fst kr))); [assumption|].
  rewrite <- Hkey. reflexivity.
Qed.

End Dates.

Section ArchiveExamples.
Import Py InrixDatapro InrixDataproSpec InrixDataproFiles InrixDataproFilesSpec.

Lemma read_zip_returns_none_iff_witness :
  read_zip no_files (ArgBytes (Some synthetic_archive)) init
  = (holding (BytesIO (Some synthetic_archive))
       [ observation "2021-03-02T08:15:00-08:00" 101 3;
         observation "2021-03-02T08:15:00-08:00" 102 3 ]
       synthetic_metadata synthetic_contents, Ok None).
Proof.
  apply (proj2 (read_zip_returns_none_iff no_files
                  (ArgBytes (Some synthetic_archive)) init _)).
  eexists synthetic_archive, _, synthetic_metadata, synthetic_contents.
  split; [reflexivity|]. split; [reflexivity|]. split; [reflexivity|].
  split; reflexivity.
Defined.

Lemma read_zip_returns_no_success_flag_witness :
  read_zip no_files (ArgBytes (Some archive_vanished)) init
  = (pointing (BytesIO (Some archive_vanished)) init, Ok (Some false))
  /\ false = false
  /\ exists z n m msg,
       bytes_of no_files (ArgBytes (Some archive_vanished)) = Some (Some z)
       /\ In (n, m) z
       /\ (as_data m = Raise (FileNotFoundError msg)
           \/ as_metadata m = Raise (FileNotFoundError msg)
           \/ as_report_contents m = Raise (FileNotFoundError msg)).
Proof.
  split; [reflexivity|].
  exact (read_zip_returns_no_success_flag no_files
           (ArgBytes (Some archive_vanished)) init _ false eq_refl).
Defined.

Lemma read_zip_errors_witness :
  zip_root archive_without_folder = Ok "report/data.csv"
  /\ ~ In ("report/data.csv" +:+ "data.csv") (map fst archive_without_folder)
  /\ read_zip no_files (ArgBytes (Some archive_without_folder)) init
     = (pointing (BytesIO (Some archive_without_folder)) init,
        Raise (KeyError "report/data.csvdata.csv")).
Proof.
  assert (~ In ("report/data.csv" +:+ "data.csv")
              (map fst archive_without_folder)) as Hno.
  { intros [H|[H|[H|[]]]]; discriminate H. }
  split; [reflexivity|]. split; [exact Hno|].
  exact (proj2 (proj2 (proj2 (read_zip_errors no_files init)))
           (ArgBytes (Some archive_without_folder)) archive_without_folder
           "report/data.csv" eq_refl eq_refl Hno).
Defined.

Lemma write_zip_writes_no_archive_witness :
  is_Some (bytes_of no_files (ArgBytes (Some synthetic_archive)))
  /\ exists self' msg,
       read_zip no_files (ArgBytes (Some synthetic_archive)) init
       = (self', Ok None)
       /\ write_zip "out/report.zip" self' no_files
          = (open_wb "out/report.zip" no_files, Raise (TypeError msg))
       /\ read_zip (open_wb "out/report.zip" no_files)
            (ArgPath "out/report.zip") init
          = (pointing (Path "out/report.zip") init, Raise BadZipFile).
Proof.
  assert (is_Some (bytes_of no_files (ArgBytes (Some synthetic_archive)))) as Hb
    by (eexists; reflexivity).
  split; [exact Hb|].
  destruct (write_zip_writes_no_archive no_files
              (ArgBytes (Some synthetic_archive)) init _ (Ok None)
              "out/report.zip" eq_refl Hb)
    as (msg & Hwrite & _ & _ & Hread).
  eexists _, msg. split; [reflexivity|]. split; [exact Hwrite | exact (Hread init)].
Defined.

Lemma add_corridor_writes_length_and_count_witness :
  metadata synthetic = Some synthetic_metadata
  /\ NoDup (map meta_Segment_ID synthetic_metadata)
  /\ NoDup (xdSegIds synthetic_corridor)
  /\ exists data_agg',
       add_corridor synthetic (groupby_sum synthetic_formatted) synthetic_corridor
       = Ok data_agg'
       /\ map fst data_agg' = map fst (groupby_sum synthetic_formatted).
Proof.
  assert (NoDup (map meta_Segment_ID synthetic_metadata)) as H1 by (cbn; nodup_Z).
  assert (NoDup (xdSegIds synthetic_corridor)) as H2 by (cbn; nodup_Z).
  split; [reflexivity|]. split; [exact H1|]. split; [exact H2|].
  destruct (add_corridor synthetic (groupby_sum synthetic_formatted)
              synthetic_corridor) as [agg|e] eqn:Hrun;
    [|vm_compute in Hrun; discriminate Hrun].
  exists agg. split; [reflexivity|].
  exact (proj1 (add_corridor_writes_length_and_count synthetic synthetic_metadata
                  _ synthetic_corridor agg eq_refl H1 H2 Hrun)).
Defined.

Lemma wide_agrees_with_long_witness :
  segments_to_corridor synthetic "long" None None None
  = ([CreateDataAgg; SelectColumns; InsertDayOfWeek], Ok (Long synthetic_long))
  /\ synthetic_long <> []
  /\ exists steps' cols wrows,
       segments_to_corridor synthetic "wide" (Some "travel_time") None None
       = (steps', Ok (Wide cols wrows))
       /\ NoDup cols.
Proof.
  assert (segments_to_corridor synthetic "long" None None None
          = ([CreateDataAgg; SelectColumns; InsertDayOfWeek],
             Ok (Long synthetic_long))) as H by (vm_compute; reflexivity).
  assert (synthetic_long <> []) as Hne by discriminate.
  split; [exact H|]. split; [exact Hne|].
  destruct (wide_agrees_with_long synthetic None None _ _ H Hne)
    as (steps' & cols & wrows & Hrun & Hnd & _).
  exists steps', cols, wrows. split; [exact Hrun | exact Hnd].
Defined.

Lemma long_format_returns_witness :
  get_format_data_for_agg synthetic = Ok synthetic_formatted
  /\ report_contents synthetic = Some synthetic_contents
  /\ metadata synthetic = Some synthetic_metadata
  /\ corridors synthetic_contents <> []
  /\ (forall c, In c (corridors synthetic_contents) ->
        exists r, In r synthetic_formatted /\ f_Corridor r = name c)
  /\ exists steps rows,
       segments_to_corridor synthetic "long" None None None
       = (steps, Ok (Long rows)).
Proof.
  assert (get_format_data_for_agg synthetic = Ok synthetic_formatted) as H1
    by (vm_compute; reflexivity).
  assert (corridors synthetic_contents <> []) as H2 by discriminate.
  assert (forall c, In c (corridors synthetic_contents) ->
            exists r, In r synthetic_formatted /\ f_Corridor r = name c) as H3.
  { intros c [<-|[]]. eexists. split; [left; reflexivity | reflexivity]. }
  split; [exact H1|]. split; [reflexivity|]. split; [reflexivity|].
  split; [exact H2|]. split; [exact H3|].
  destruct (long_format_returns synthetic synthetic_formatted synthetic_contents
              synthetic_metadata None None H1 eq_refl eq_refl H2 H3)
    as (steps & rows & Hrun & _).
  exists steps, rows. exact Hrun.
Defined.

End ArchiveExamples.

(** ** GeoJSON reshaping: the features *)

Section GeoJSONFeatures.
Import Py SwiftlyDatapro SwiftlyDataproSpec SwiftlyDataproFeaturesSpec.

Lemma build_feature_ok (i : Z) (c : loc) (h : heap) (d : list (string * value)) :
  h !! c = Some d -> segment_ok d ->
  exists pathLocs coords,
    dict_get "pathLocs" d = Some pathLocs /\ coords_of pathLocs = Ok coords
    /\ build_feature i c h
       = (<[c := properties_of i d]> h,
          Ok {| f_type := "Feature";
                geometry := {| g_type := "LineString"; coordinates := coords |};
                properties := c |}).
Proof.
  intros Hc (Hfrom & Hto & pathLocs & coords & Hpath & Hcoords).
  exists pathLocs, coords. split; [assumption|]. split; [assumption|].
  unfold build_feature, st_bind, update, deref.
  rewrite (lookup_total_correct h c d Hc).
  unfold dict_del at 1. rewrite Hfrom. cbn [mbind result_bind Py.bind].
  rewrite lookup_total_insert_eq.
  assert (dict_in "toStop" (dict_remove "fromStop" d) = true) as Hto'.
  { unfold dict_in in *. now rewrite dict_get_remove_other. }
  unfold dict_del. rewrite Hto'. cbn [mbind result_bind Py.bind].
  rewrite lookup_total_insert_eq, insert_insert_eq.
  rewrite lookup_total_insert_eq, insert_insert_eq.
  unfold dict_pop. rewrite dict_get_set.
  change (String.eqb "order" "pathLocs") with false. cbv iota.
  rewrite !dict_get_remove_other by discriminate. rewrite Hpath.
  rewrite insert_insert_eq, Hcoords. reflexivity.
Qed.

Lemma build_features_ok (cs : list loc) :
  forall (i0 : Z) (h1 : heap) (ds : list (list (string * value))),
    NoDup cs ->
    Forall2 (fun c d => h1 !! c = Some d) cs ds ->
    Forall segment_ok ds ->
    exists h' fs,
      build_features i0 cs h1 = (h', Ok fs)
      /\ map properties fs = cs
      /\ (forall l, l ∉ cs -> h' !! l = h1 !! l)
      /\ forall (j : nat) d, ds !! j = Some d ->
           exists f, fs !! j = Some f /\ feature_of h' (i0 + Z.of_nat j) d f.
Proof.
  induction cs as [|c rest IH]; intros i0 h1 ds Hnd Hds Hok.
  - inversion Hds; subst. exists h1, []. cbn. repeat split; auto.
    intros j d Hj. now rewrite lookup_nil in Hj.
  - inversion Hds as [|? d ? ds' Hc Hrest]; subst.
    apply NoDup_cons in Hnd. destruct Hnd as [Hc_rest Hnd].
    inversion Hok as [|? ? Hd Hok']; subst.
    destruct (build_feature_ok i0 c h1 d Hc Hd)
      as (pathLocs & coords & Hpath & Hcoords & Hrun).
    destruct (IH (i0 + 1) (<[c := properties_of i0 d]> h1) ds' Hnd)
      as (h' & fs & Hrun' & Hprops & Hframe & Hfs); [|assumption|].
    { apply Forall2_same_length_lookup in Hrest. destruct Hrest as [Hlen Hrest].
      apply Forall2_same_length_lookup. split; [assumption|].
      intros j c' d' Hj Hj'. rewrite lookup_insert_ne; [now apply (Hrest j)|].
      intros ->. apply Hc_rest. eapply list_elem_of_lookup_2, Hj. }
    cbn [build_features]. unfold st_bind at 1. rewrite Hrun.
    unfold st_bind at 1. rewrite Hrun'. unfold st_ret.
    eexists _, _. split; [reflexivity|]. split; [cbn; now rewrite Hprops|].
    split.
    + intros l Hl. apply not_elem_of_cons in Hl. destruct Hl as [Hne Hl].
      rewrite (Hframe l Hl). now apply lookup_insert_ne.
    + intros [|j] d0 Hj; cbn in Hj.
      * injection Hj as <-. eexists. split; [reflexivity|].
        unfold feature_of. cbn. split; [reflexivity|]. split; [reflexivity|].
        split; [eauto|]. rewrite (Hframe c Hc_rest), lookup_insert_eq.
        now rewrite Z.add_0_r.
      * destruct (Hfs j d0 Hj) as (f & Hf & Hfeat). exists f.
        split; [exact Hf|].
        replace (i0 + Z.of_nat (S j)) with (i0 + 1 + Z.of_nat j) by lia.
        exact Hfeat.
Qed.

Lemma deepcopy_ok (seg_list : list loc) :
  forall (memo : gmap positive positive) (h : heap)
         (ds : list (list (string * value))),
    NoDup seg_list ->
    (forall l, l ∈ seg_list -> memo !! l = None) ->
    Forall2 (fun l d => h !! l = Some d) seg_list ds ->
    h ⊆ fst (deepcopy seg_list memo h)
    /\ NoDup (snd (deepcopy seg_list memo h))
    /\ Forall (fun c => h !! c = None) (snd (deepcopy seg_list memo h))
    /\ Forall2 (fun c d => fst (deepcopy seg_list memo h) !! c = Some d)
               (snd (deepcopy seg_list memo h)) ds.
Proof.
  induction seg_list as [|l rest IH]; intros memo h ds Hnd Hmemo Hds;
    cbn [deepcopy].
  - inversion Hds; subst. cbn. split; [reflexivity|]. repeat split; constructor.
  - inversion Hds as [|? d ? ds' Hl Hrest]; subst.
    apply NoDup_cons in Hnd. destruct Hnd as [Hl_rest Hnd].
    rewrite (Hmemo l) by (apply elem_of_cons; now left).
    set (l' := fresh (dom h)).
    assert (h !! l' = None) as Hfresh.
    { apply not_elem_of_dom, is_fresh. }
    unfold deref. rewrite (lookup_total_correct h l d Hl).
    assert (h ⊆ <[l' := d]> h) as Hsub by now apply insert_subseteq.
    destruct (IH (<[l := l']> memo) (<[l' := d]> h) ds' Hnd)
      as (Hsub' & Hnd' & Hnew & Hcopies).
    { intros x Hx. rewrite lookup_insert_ne; [|congruence].
      apply Hmemo, elem_of_cons. now right. }
    { eapply Forall2_impl; [exact Hrest|]. cbn. intros x dx Hx.
      eapply lookup_weaken; eassumption. }
    destruct (deepcopy rest (<[l := l']> memo) (<[l' := d]> h)) as [h1 cs].
    cbn [fst snd] in *.
    assert (l' ∉ cs) as Hl'.
    { intros Hin. rewrite Forall_forall in Hnew. specialize (Hnew l' Hin).
      now rewrite lookup_insert_eq in Hnew. }
    split; [now transitivity (<[l' := d]> h)|].
    split; [now constructor|]. split.
    + constructor; [assumption|]. eapply Forall_impl; [exact Hnew|].
      cbn. intros x Hx. destruct (decide (l' = x)) as [<-|Hne].
      * now rewrite lookup_insert_eq in Hx.
      * now rewrite lookup_insert_ne in Hx.
    + constructor; [|assumption].
      eapply lookup_weaken; [|exact Hsub']. apply lookup_insert_eq.
Qed.

(** X19.  For a list of distinct segment dicts that have their two stops
    and a path of points with a longitude and a latitude,
    [speed_map_segs_to_geojson] returns a FeatureCollection with one
    feature for each segment, in order.  The feature of the segment at
    position i is a LineString whose coordinates are the [lon, lat] pairs
    of the path, in order; its properties are a new dict, distinct from
    those of the other features: the entries of the segment without the
    stops and the path, and with the order i. *)
Theorem speed_map_segs_to_geojson_features
    (seg_list : list loc) (ds : list (list (string * value))) (h : heap) :
  NoDup seg_list ->
  Forall2 (fun l d => h !! l = Some d) seg_list ds ->
  Forall segment_ok ds ->
  exists h' fs,
    speed_map_segs_to_geojson seg_list h
    = (h', Ok {| type := "FeatureCollection"; features := fs |})
    /\ length fs = length seg_list
    /\ NoDup (map properties fs)
    /\ forall (i : nat) d, ds !! i = Some d ->
         exists f, fs !! i = Some f /\ feature_of h' (Z.of_nat i) d f
                   /\ h !! properties f = None.
Proof.
  intros Hnd Hds Hok. unfold speed_map_segs_to_geojson.
  destruct (deepcopy_ok seg_list ∅ h ds Hnd) as (Hsub & Hnd' & Hnew & Hcopies);
    [intros; apply lookup_empty | assumption |].
  pose proof (Forall2_length _ _ _ Hds) as Hlen.
  pose proof (Forall2_length _ _ _ Hcopies) as Hlen'.
  destruct (deepcopy seg_list ∅ h) as [h1 cs]. cbn [fst snd] in *.
  destruct (build_features_ok cs 0 h1 ds Hnd' Hcopies Hok)
    as (h' & fs & Hrun & Hprops & _ & Hfs).
  unfold st_bind, st_ret. rewrite Hrun. exists h', fs.
  split; [reflexivity|]. split.
  { rewrite <- (length_map properties fs), Hprops. congruence. }
  split; [now rewrite Hprops|].
  intros i d Hi. destruct (Hfs i d Hi) as (f & Hf & Hfeat). exists f.
  split; [assumption|]. split; [exact Hfeat|].
  rewrite Forall_forall in Hnew. apply Hnew. rewrite <- Hprops.
  apply list_elem_of_fmap. exists f. split; [reflexivity|].
  eapply list_elem_of_lookup_2, Hf.
Qed.

Lemma deepcopy_memo_hit (seg_list : list loc) :
  forall (memo : gmap positive positive) (h : heap) (l l' : loc),
    memo !! l = Some l' -> l ∈ seg_list ->
    l' ∈ snd (deepcopy seg_list memo h).
Proof.
  induction seg_list as [|x rest IH]; intros memo h l l' Hmemo Hin;
    cbn [deepcopy].
  - now apply elem_of_nil in Hin.
  - apply elem_of_cons in Hin. destruct (decide (l = x)) as [->|Hne].
    + rewrite Hmemo. destruct (deepcopy rest memo h) as [h1 cs]. cbn.
      apply elem_of_cons. now left.
    + destruct Hin as [?|Hin]; [congruence|].
      destruct (memo !! x) as [x'|].
      * specialize (IH memo h l l' Hmemo Hin).
        destruct (deepcopy rest memo h) as [h1 cs]. cbn in *.
        apply elem_of_cons. now right.
      * specialize (IH (<[x := fresh (dom h)]> memo)
                       (<[fresh (dom h) := deref x h]> h) l l').
        rewrite lookup_insert_ne in IH by congruence.
        specialize (IH Hmemo Hin).
        destruct (deepcopy rest _ _) as [h1 cs]. cbn in *.
        apply elem_of_cons. now right.
Qed.

Lemma deepcopy_keeps_aliases (seg_list : list loc) :
  forall (memo : gmap positive positive) (h : heap),
    ~ NoDup seg_list -> ~ NoDup (snd (deepcopy seg_list memo h)).
Proof.
  induction seg_list as [|x rest IH]; intros memo h Hdup; cbn [deepcopy].
  - destruct Hdup. constructor.
  - destruct (decide (x ∈ rest)) as [Hin|Hout].
    + destruct (memo !! x) as [x'|] eqn:Hx.
      * pose proof (deepcopy_memo_hit rest memo h x x' Hx Hin) as Hhit.
        destruct (deepcopy rest memo h) as [h1 cs]. cbn in *.
        intros Hnd%NoDup_cons. tauto.
      * pose proof (deepcopy_memo_hit rest (<[x := fresh (dom h)]> memo)
                      (<[fresh (dom h) := deref x h]> h) x (fresh (dom h))
                      (lookup_insert_eq _ _ _) Hin) as Hhit.
        destruct (deepcopy rest _ _) as [h1 cs]. cbn in *.
        intros Hnd%NoDup_cons. tauto.
    + assert (~ NoDup rest) as Hrest.
      { intros Hnd. apply Hdup. now constructor. }
      destruct (memo !! x) as [x'|].
      * specialize (IH memo h Hrest).
        destruct (deepcopy rest memo h) as [h1 cs]. cbn in *.
        intros Hnd%NoDup_cons. tauto.
      * specialize (IH (<[x := fresh (dom h)]> memo)
                       (<[fresh (dom h) := deref x h]> h) Hrest).
        destruct (deepcopy rest _ _) as [h1 cs]. cbn in *.
        intros Hnd%NoDup_cons. tauto.
Qed.

Lemma dicts_deref (h : heap) (l : loc) : dicts h -> NoDup (map fst (deref l h)).
Proof.
  intros Hh. unfold deref. rewrite lookup_total_alt.
  destruct (h !! l) as [d|] eqn:Hl; cbn; [eapply Hh, Hl | constructor].
Qed.

Lemma deepcopy_dicts (seg_list : list loc) :
  forall (memo : gmap positive positive) (h : heap),
    dicts h -> dicts (fst (deepcopy seg_list memo h)).
Proof.
  induction seg_list as [|x rest IH]; intros memo h Hh; cbn [deepcopy].
  - assumption.
  - destruct (memo !! x) as [x'|].
    + specialize (IH memo h Hh). now destruct (deepcopy rest memo h).
    + specialize (IH (<[x := fresh (dom h)]> memo)
                     (<[fresh (dom h) := deref x h]> h)).
      destruct (deepcopy rest _ _) as [h1 cs]. cbn in *. apply IH.
      intros l d. rewrite lookup_insert. case_decide.
      * intros [= <-]. now apply dicts_deref.
      * apply Hh.
Qed.

(** What a turn of the loop that does not raise has done. *)
Lemma build_feature_inv (i : Z) (c : loc) (h h2 : heap) (f : Feature) :
  build_feature i c h = (h2, Ok f) ->
  dict_in "fromStop" (deref c h) = true
  /\ h2 = <[c := properties_of i (deref c h)]> h
  /\ properties f = c.
Proof.
  unfold build_feature, st_bind, update.
  unfold dict_del at 1.
  destruct (dict_in "fromStop" (deref c h)) eqn:Hfrom; [|discriminate].
  cbn [mbind result_bind Py.bind]. unfold deref at 1.
  rewrite lookup_total_insert_eq.
  unfold dict_del.
  destruct (dict_in "toStop" _) eqn:Hto; [|discriminate].
  cbn [mbind result_bind Py.bind]. unfold deref at 1.
  rewrite lookup_total_insert_eq, insert_insert_eq. unfold deref at 1.
  rewrite lookup_total_insert_eq, insert_insert_eq.
  unfold dict_pop.
  destruct (dict_get "pathLocs" _) as [pathLocs|] eqn:Hpath; [|discriminate].
  rewrite insert_insert_eq.
  destruct (coords_of pathLocs) as [coords|e]; [|discriminate].
  intros [= <- <-]. split; [reflexivity|]. split; reflexivity.
Qed.

Lemma properties_of_no_stop (i : Z) (d : list (string * value)) :
  NoDup (map fst d) -> dict_in "fromStop" (properties_of i d) = false.
Proof.
  intros Hnd. unfold dict_in, properties_of.
  rewrite dict_get_remove_other by discriminate.
  rewrite dict_get_set. change (String.eqb "order" "fromStop") with false.
  cbv iota. rewrite dict_get_remove_other by discriminate.
  now rewrite dict_get_remove_same.
Qed.

Lemma build_features_missing_stop (cs : list loc) :
  forall (i : Z) (h : heap) (c : loc),
    c ∈ cs -> dict_in "fromStop" (deref c h) = false ->
    raises (snd (build_features i cs h)).
Proof.
  induction cs as [|x rest IH]; intros i h c Hin Hc; cbn [build_features].
  - now apply elem_of_nil in Hin.
  - unfold st_bind at 1.
    destruct (build_feature i x h) as [h2 [f|e]] eqn:Hrun; [|exact I].
    apply build_feature_inv in Hrun. destruct Hrun as (Hfrom & -> & _).
    apply elem_of_cons in Hin. destruct Hin as [->|Hin]; [congruence|].
    destruct (decide (c = x)) as [->|Hne]; [congruence|].
    specialize (IH (i + 1) (<[x := properties_of i (deref x h)]> h) c Hin).
    unfold deref in IH at 1. rewrite lookup_total_insert_ne in IH by congruence.
    specialize (IH Hc). unfold st_bind.
    destruct (build_features (i + 1) rest _) as [h3 [fs|e]]; [destruct IH | exact I].
Qed.

Lemma build_features_alias (cs : list loc) :
  forall (i : Z) (h : heap),
    ~ NoDup cs -> (forall c, c ∈ cs -> NoDup (map fst (deref c h))) ->
    raises (snd (build_features i cs h)).
Proof.
  induction cs as [|x rest IH]; intros i h Hdup Hkeys; cbn [build_features].
  - destruct Hdup. constructor.
  - unfold st_bind at 1.
    destruct (build_feature i x h) as [h2 [f|e]] eqn:Hrun; [|exact I].
    apply build_feature_inv in Hrun. destruct Hrun as (Hfrom & -> & _).
    assert (raises (snd (build_features (i + 1) rest
                           (<[x := properties_of i (deref x h)]> h)))) as Hr.
    { destruct (decide (x ∈ rest)) as [Hin|Hout].
      - apply (build_features_missing_stop rest _ _ x Hin).
        unfold deref at 1. rewrite lookup_total_insert_eq.
        apply properties_of_no_stop, Hkeys, elem_of_cons. now left.
      - apply IH.
        + intros Hnd. apply Hdup. now constructor.
        + intros c Hc. unfold deref. rewrite lookup_total_insert_ne by congruence.
          apply Hkeys, elem_of_cons. now right. }
    unfold st_bind.
    destruct (build_features (i + 1) rest _) as [h3 [fs|e]]; [destruct Hr | exact I].
Qed.

(** X20.  [speed_map_segs_to_geojson] returns only when no dict occurs twice
    in the list: the deep copy of a list that holds one dict twice holds
    one copy twice, and the second turn of the loop on it finds the stop
    deleted. *)
Theorem speed_map_segs_to_geojson_rejects_aliases
    (seg_list : list loc) (h h' : heap) (geojson : GeoJSON) :
  dicts h ->
  speed_map_segs_to_geojson seg_list h = (h', Ok geojson) ->
  NoDup seg_list.
Proof.
  intros Hh Hrun. destruct (decide (NoDup seg_list)) as [Hnd|Hdup]; [assumption|].
  exfalso. unfold speed_map_segs_to_geojson in Hrun.
  pose proof (deepcopy_keeps_aliases seg_list ∅ h Hdup) as Hdup'.
  pose proof (deepcopy_dicts seg_list ∅ h Hh) as Hh1.
  destruct (deepcopy seg_list ∅ h) as [h1 cs]. cbn [fst snd] in *.
  pose proof (build_features_alias cs 0 h1 Hdup'
                (fun c _ => dicts_deref h1 c Hh1)) as Hr.
  unfold st_bind in Hrun.
  destruct (build_features 0 cs h1) as [h2 [fs|e]]; [destruct Hr | discriminate].
Qed.

End GeoJSONFeatures.

Section GeoJSONFeatureExamples.
Import Py SwiftlyDatapro SwiftlyDataproSpec SwiftlyDataproFeaturesSpec.

(** One dict listed twice: its copy is listed twice too, and the second
    turn of the loop finds the stop deleted. *)
Lemma same_segment_twice :
  snd (speed_map_segs_to_geojson [1%positive; 1%positive] heap_0)
  = Raise (KeyError "fromStop").
Proof. vm_compute. reflexivity. Qed.

Lemma dicts_heap_1 : dicts heap_1.
Proof.
  intros l d. unfold heap_1, heap_0.
  rewrite lookup_insert. case_decide.
  - intros [= <-]. apply (bool_decide_unpack _). vm_compute. exact I.
  - rewrite lookup_singleton_Some. intros [_ <-].
    apply (bool_decide_unpack _). vm_compute. exact I.
Qed.

End GeoJSONFeatureExamples.

Section GeoJSONFeatureWitnesses.
Import Py SwiftlyDatapro SwiftlyDataproSpec SwiftlyDataproFeaturesSpec.

Lemma speed_map_segs_to_geojson_features_witness :
  NoDup [1%positive; 2%positive]
  /\ Forall2 (fun l d => heap_1 !! l = Some d) [1%positive; 2%positive]
       [segment_0; segment_1]
  /\ Forall segment_ok [segment_0; segment_1]
  /\ exists h' fs,
       speed_map_segs_to_geojson [1%positive; 2%positive] heap_1
       = (h', Ok {| type := "FeatureCollection"; features := fs |})
       /\ length fs = 2%nat.
Proof.
  assert (NoDup [1%positive; 2%positive]) as H1
    by (apply (bool_decide_unpack _); vm_compute; exact I).
  assert (Forall2 (fun l d => heap_1 !! l = Some d) [1%positive; 2%positive]
            [segment_0; segment_1]) as H2
    by (repeat constructor).
  assert (Forall segment_ok [segment_0; segment_1]) as H3.
  { repeat constructor; eexists _, _; split; reflexivity. }
  split; [exact H1|]. split; [exact H2|]. split; [exact H3|].
  destruct (speed_map_segs_to_geojson_features [1%positive; 2%positive]
              [segment_0; segment_1] heap_1 H1 H2 H3)
    as (h' & fs & Hrun & Hlen & _).
  exists h', fs. split; [exact Hrun | exact Hlen].
Defined.

Lemma speed_map_segs_to_geojson_rejects_aliases_witness :
  dicts heap_1
  /\ (exists h' geojson,
        speed_map_segs_to_geojson [1%positive; 2%positive] heap_1
        = (h', Ok geojson))
  /\ NoDup [1%positive; 2%positive].
Proof.
  split; [exact dicts_heap_1|].
  destruct (speed_map_segs_to_geojson [1%positive; 2%positive] heap_1)
    as [h' [geojson|e]] eqn:Hrun; [|vm_compute in Hrun; discriminate Hrun].
  split; [eauto|].
  exact (speed_map_segs_to_geojson_rejects_aliases [1%positive; 2%positive]
           heap_1 h' geojson dicts_heap_1 Hrun).
Defined.

End GeoJSONFeatureWitnesses.
